(** * Batman: Arkham Shadows -- combat and encounter core

    A shallow embedding of the simulation core of the two game variants,
    [batman_arkham_2d.py] (module [Arkham2D]) and [batman_arkham_shadows.py]
    (module [Shadows]), and the properties of the combat pipeline.

    Conventions.
    - A Python [int] is a [Z].
    - A Python [float] (positions, velocities, distances) is a rational [Q]:
      arithmetic is exact, rounding of the machine format is not modelled.
      The constants of the source that are written with a decimal point are
      the corresponding fractions ([0.15] is [15#100]).
    - An object mutated in place becomes a record that the operation
      returns; an operation that also returns a value returns a pair.
    - [pygame.Rect.colliderect], from the graphics library, is a parameter
      of the encounter code.  *)

From Stdlib Require Import ZArith QArith Qabs Qround Qminmax Bool List String Lia Lqa.
Import ListNotations.

Local Open Scope Z_scope.

(** ** Numbers *)

(** [a < b] on floats, as a boolean. *)
Definition Qltb (a b : Q) : bool := negb (Qle_bool b a).

(** [int(q)]: truncation towards zero. *)
Definition int_of_float (q : Q) : Z := Z.quot (Qnum q) (Z.pos (Qden q)).

(** ** Projectiles

    [class Projectile] is the same in both variants up to the names of the
    fields ([velocity_x]/[vx], [distance_traveled]/[traveled],
    [max_distance]/[max_dist], [owner_is_player]/[from_player]) and the
    step of the cosmetic spin angle (15 in the first variant, 12 in the
    second), which is the parameter [spin] below.  *)

Record Projectile := mkProjectile {
  proj_x : Q;
  proj_y : Q;
  velocity_x : Q;
  velocity_y : Q;
  proj_damage : Z;
  owner_is_player : bool;
  max_distance : Z;
  distance_traveled : Q;
  proj_active : bool;
  proj_angle : Z;
  proj_width : Z;
  proj_height : Z
}.

(** [Projectile.__init__]. *)
Definition new_Projectile (x y vx vy : Q) (damage : Z) (owner : bool)
    (max_dist : Z) : Projectile :=
  {| proj_x := x; proj_y := y; velocity_x := vx; velocity_y := vy;
     proj_damage := damage; owner_is_player := owner;
     max_distance := max_dist; distance_traveled := 0%Q;
     proj_active := true; proj_angle := 0;
     proj_width := 20; proj_height := 10 |}.

(** The assignment [projectile.active = False]. *)
Definition Projectile_deactivate (p : Projectile) : Projectile :=
  mkProjectile (proj_x p) (proj_y p) (velocity_x p) (velocity_y p)
    (proj_damage p) (owner_is_player p) (max_distance p)
    (distance_traveled p) false (proj_angle p) (proj_width p) (proj_height p).

(** [Projectile.update]. *)
Definition Projectile_update (spin : Z) (p : Projectile) : Projectile :=
  if negb (proj_active p) then p
  else
    let traveled := (distance_traveled p + Qabs (velocity_x p))%Q in
    {| proj_x := (proj_x p + velocity_x p)%Q;
       proj_y := (proj_y p + velocity_y p)%Q;
       velocity_x := velocity_x p;
       velocity_y := velocity_y p;
       proj_damage := proj_damage p;
       owner_is_player := owner_is_player p;
       max_distance := max_distance p;
       distance_traveled := traveled;
       proj_active :=
         if Qltb (inject_Z (max_distance p)) traveled then false else true;
       proj_angle := proj_angle p + spin;
       proj_width := proj_width p;
       proj_height := proj_height p |}.

(** The batarang thrown by a player standing at the start of a stage of
    the first variant. *)
Definition batarang0 : Projectile := new_Projectile 150 496 18 0 20 true 600.

(** The projectile after [n] ticks. *)
Definition Projectile_run (spin : Z) (n : nat) (p : Projectile) : Projectile :=
  Nat.iter n (Projectile_update spin) p.


(** ** Rectangles

    [pygame.Rect(x, y, w, h)].  The record keeps the four arguments of the
    constructor; what the graphics library does with them (conversion to
    integer pixels, the overlap test) is left to [colliderect]. *)

Record Rect := mkRect {
  rect_x : Q;
  rect_y : Q;
  rect_w : Z;
  rect_h : Z
}.

(** The usual overlap test of two axis-aligned rectangles on integer
    pixels, the instance at which the encounter code is run on examples. *)
Definition pixel_colliderect (a b : Rect) : bool :=
  let ax := int_of_float (rect_x a) in
  let ay := int_of_float (rect_y a) in
  let bx := int_of_float (rect_x b) in
  let by_ := int_of_float (rect_y b) in
  (ax <? bx + rect_w b) && (bx <? ax + rect_w a) &&
  (ay <? by_ + rect_h b) && (by_ <? ay + rect_h a).

(** * First variant: [batman_arkham_2d.py] *)

Module Arkham2D.

(** ** Configuration: [GameConfig] and [PlayerStats] *)

Definition GRAVITY : Q := 8 # 10.
Definition GROUND_LEVEL : Z := 550.
Definition LEVEL_WIDTH : Z := 8000.

Definition MAX_HEALTH : Z := 120.
Definition MOVE_SPEED : Q := 7.
Definition JUMP_POWER : Q := -19.
Definition DOUBLE_JUMP_POWER : Q := -16.
Definition MAX_JUMPS : Z := 2.
Definition PUNCH_DAMAGE : Z := 35.
Definition KICK_DAMAGE : Z := 45.
Definition BATARANG_DAMAGE : Z := 20.
Definition PUNCH_RANGE : Z := 70.
Definition KICK_RANGE : Z := 85.
Definition BATARANG_SPEED : Q := 18.
Definition BATARANG_MAX_DISTANCE : Z := 600.
Definition PUNCH_COOLDOWN : Z := 12.
Definition KICK_COOLDOWN : Z := 20.
Definition BATARANG_COOLDOWN : Z := 35.
Definition HIT_INVINCIBILITY : Z := 60.
Definition COMBO_WINDOW : Z := 100.
Definition COMBO_DAMAGE_BONUS : Q := 15 # 100.
Definition MAX_COMBO_MULTIPLIER : Q := 25 # 10.

(** Active frames of the three player attacks, the literals of [punch],
    [kick] and [throw_batarang]. *)
Definition PUNCH_DURATION : Z := 15.
Definition KICK_DURATION : Z := 20.
Definition BATARANG_DURATION : Z := 10.

(** ** States *)

Inductive EntityState : Set :=
  | IDLE | RUNNING | JUMPING | FALLING | ATTACKING | HIT | DEAD | BLOCKING.

Inductive AttackType : Set :=
  | NONE | PUNCH | KICK | BATARANG | ENEMY_MELEE | ENEMY_PROJECTILE.

Definition EntityState_eqb (a b : EntityState) : bool :=
  match a, b with
  | IDLE, IDLE | RUNNING, RUNNING | JUMPING, JUMPING | FALLING, FALLING
  | ATTACKING, ATTACKING | HIT, HIT | DEAD, DEAD | BLOCKING, BLOCKING => true
  | _, _ => false
  end.

Definition AttackType_eqb (a b : AttackType) : bool :=
  match a, b with
  | NONE, NONE | PUNCH, PUNCH | KICK, KICK | BATARANG, BATARANG
  | ENEMY_MELEE, ENEMY_MELEE | ENEMY_PROJECTILE, ENEMY_PROJECTILE => true
  | _, _ => false
  end.

Lemma EntityState_eqb_eq (a b : EntityState) :
  EntityState_eqb a b = true <-> a = b.
Proof. destruct a, b; simpl; split; congruence. Qed.

Lemma AttackType_eqb_eq (a b : AttackType) :
  AttackType_eqb a b = true <-> a = b.
Proof. destruct a, b; simpl; split; congruence. Qed.

Definition is_dead (s : EntityState) : bool := EntityState_eqb s DEAD.

(** ** [class Entity] *)

Record Entity := mkEntity {
  x : Q;
  y : Q;
  width : Z;
  height : Z;
  ent_velocity_x : Q;
  ent_velocity_y : Q;
  facing_right : bool;
  state : EntityState;
  health : Z;
  max_health : Z;
  animation_frame : Z;
  animation_timer : Z;
  invincibility_frames : Z;
  attack_cooldown : Z;
  current_attack : AttackType;
  attack_frame : Z
}.

(** [Entity.__init__]. *)
Definition new_Entity (x0 y0 : Q) (w h : Z) : Entity :=
  {| x := x0; y := y0; width := w; height := h;
     ent_velocity_x := 0; ent_velocity_y := 0;
     facing_right := true; state := IDLE;
     health := 100; max_health := 100;
     animation_frame := 0; animation_timer := 0;
     invincibility_frames := 0; attack_cooldown := 0;
     current_attack := NONE; attack_frame := 0 |}.

(** Assignments to one attribute. *)
Definition set_x (v : Q) (e : Entity) : Entity :=
  mkEntity v (y e) (width e) (height e) (ent_velocity_x e) (ent_velocity_y e)
    (facing_right e) (state e) (health e) (max_health e) (animation_frame e)
    (animation_timer e) (invincibility_frames e) (attack_cooldown e)
    (current_attack e) (attack_frame e).
Definition set_y (v : Q) (e : Entity) : Entity :=
  mkEntity (x e) v (width e) (height e) (ent_velocity_x e) (ent_velocity_y e)
    (facing_right e) (state e) (health e) (max_health e) (animation_frame e)
    (animation_timer e) (invincibility_frames e) (attack_cooldown e)
    (current_attack e) (attack_frame e).
Definition set_velocity_x (v : Q) (e : Entity) : Entity :=
  mkEntity (x e) (y e) (width e) (height e) v (ent_velocity_y e)
    (facing_right e) (state e) (health e) (max_health e) (animation_frame e)
    (animation_timer e) (invincibility_frames e) (attack_cooldown e)
    (current_attack e) (attack_frame e).
Definition set_velocity_y (v : Q) (e : Entity) : Entity :=
  mkEntity (x e) (y e) (width e) (height e) (ent_velocity_x e) v
    (facing_right e) (state e) (health e) (max_health e) (animation_frame e)
    (animation_timer e) (invincibility_frames e) (attack_cooldown e)
    (current_attack e) (attack_frame e).
Definition set_facing_right (v : bool) (e : Entity) : Entity :=
  mkEntity (x e) (y e) (width e) (height e) (ent_velocity_x e) (ent_velocity_y e)
    v (state e) (health e) (max_health e) (animation_frame e)
    (animation_timer e) (invincibility_frames e) (attack_cooldown e)
    (current_attack e) (attack_frame e).
Definition set_state (v : EntityState) (e : Entity) : Entity :=
  mkEntity (x e) (y e) (width e) (height e) (ent_velocity_x e) (ent_velocity_y e)
    (facing_right e) v (health e) (max_health e) (animation_frame e)
    (animation_timer e) (invincibility_frames e) (attack_cooldown e)
    (current_attack e) (attack_frame e).
Definition set_health (v : Z) (e : Entity) : Entity :=
  mkEntity (x e) (y e) (width e) (height e) (ent_velocity_x e) (ent_velocity_y e)
    (facing_right e) (state e) v (max_health e) (animation_frame e)
    (animation_timer e) (invincibility_frames e) (attack_cooldown e)
    (current_attack e) (attack_frame e).
Definition set_max_health (v : Z) (e : Entity) : Entity :=
  mkEntity (x e) (y e) (width e) (height e) (ent_velocity_x e) (ent_velocity_y e)
    (facing_right e) (state e) (health e) v (animation_frame e)
    (animation_timer e) (invincibility_frames e) (attack_cooldown e)
    (current_attack e) (attack_frame e).
Definition set_animation (frame timer : Z) (e : Entity) : Entity :=
  mkEntity (x e) (y e) (width e) (height e) (ent_velocity_x e) (ent_velocity_y e)
    (facing_right e) (state e) (health e) (max_health e) frame
    timer (invincibility_frames e) (attack_cooldown e)
    (current_attack e) (attack_frame e).
Definition set_invincibility_frames (v : Z) (e : Entity) : Entity :=
  mkEntity (x e) (y e) (width e) (height e) (ent_velocity_x e) (ent_velocity_y e)
    (facing_right e) (state e) (health e) (max_health e) (animation_frame e)
    (animation_timer e) v (attack_cooldown e)
    (current_attack e) (attack_frame e).
Definition set_attack_cooldown (v : Z) (e : Entity) : Entity :=
  mkEntity (x e) (y e) (width e) (height e) (ent_velocity_x e) (ent_velocity_y e)
    (facing_right e) (state e) (health e) (max_health e) (animation_frame e)
    (animation_timer e) (invincibility_frames e) v
    (current_attack e) (attack_frame e).
Definition set_current_attack (v : AttackType) (e : Entity) : Entity :=
  mkEntity (x e) (y e) (width e) (height e) (ent_velocity_x e) (ent_velocity_y e)
    (facing_right e) (state e) (health e) (max_health e) (animation_frame e)
    (animation_timer e) (invincibility_frames e) (attack_cooldown e)
    v (attack_frame e).
Definition set_attack_frame (v : Z) (e : Entity) : Entity :=
  mkEntity (x e) (y e) (width e) (height e) (ent_velocity_x e) (ent_velocity_y e)
    (facing_right e) (state e) (health e) (max_health e) (animation_frame e)
    (animation_timer e) (invincibility_frames e) (attack_cooldown e)
    (current_attack e) v.

(** [Entity.get_rect]. *)
Definition Entity_get_rect (e : Entity) : Rect :=
  mkRect (x e) (y e) (width e) (height e).

(** [Entity.apply_gravity]. *)
Definition apply_gravity (e : Entity) : Entity :=
  let vy := (ent_velocity_y e + GRAVITY)%Q in
  set_velocity_y (if Qltb 20 vy then 20%Q else vy) e.

(** [Entity.is_on_ground]. *)
Definition is_on_ground (e : Entity) : bool :=
  Qle_bool (inject_Z GROUND_LEVEL) (y e + inject_Z (height e))%Q.

(** [Entity.take_damage]. *)
Definition Entity_take_damage (amount : Z) (knockback_direction : Z)
    (e : Entity) : Entity :=
  if 0 <? invincibility_frames e then e
  else
    let e1 := set_health (health e - amount) e in
    let e2 := set_invincibility_frames 30 e1 in
    let e3 := set_velocity_x (inject_Z knockback_direction * 5)%Q e2 in
    if health e3 <=? 0 then set_state DEAD (set_health 0 e3) else e3.

(** ** [class Player] *)

Record Player := mkPlayer {
  p_ent : Entity;
  jumps_remaining : Z;
  combo_count : Z;
  combo_timer : Z;
  score : Z;
  punch_cooldown : Z;
  kick_cooldown : Z;
  batarang_cooldown : Z;
  attack_duration : Z
}.

(** [Player.__init__]. *)
Definition new_Player (x0 y0 : Q) : Player :=
  {| p_ent := set_health MAX_HEALTH (set_max_health MAX_HEALTH
                (new_Entity x0 y0 50 80));
     jumps_remaining := MAX_JUMPS;
     combo_count := 0; combo_timer := 0; score := 0;
     punch_cooldown := 0; kick_cooldown := 0; batarang_cooldown := 0;
     attack_duration := 0 |}.

Definition with_ent (f : Entity -> Entity) (p : Player) : Player :=
  mkPlayer (f (p_ent p)) (jumps_remaining p) (combo_count p) (combo_timer p)
    (score p) (punch_cooldown p) (kick_cooldown p) (batarang_cooldown p)
    (attack_duration p).
Definition set_jumps_remaining (v : Z) (p : Player) : Player :=
  mkPlayer (p_ent p) v (combo_count p) (combo_timer p)
    (score p) (punch_cooldown p) (kick_cooldown p) (batarang_cooldown p)
    (attack_duration p).
Definition set_combo_count (v : Z) (p : Player) : Player :=
  mkPlayer (p_ent p) (jumps_remaining p) v (combo_timer p)
    (score p) (punch_cooldown p) (kick_cooldown p) (batarang_cooldown p)
    (attack_duration p).
Definition set_combo_timer (v : Z) (p : Player) : Player :=
  mkPlayer (p_ent p) (jumps_remaining p) (combo_count p) v
    (score p) (punch_cooldown p) (kick_cooldown p) (batarang_cooldown p)
    (attack_duration p).
Definition set_score (v : Z) (p : Player) : Player :=
  mkPlayer (p_ent p) (jumps_remaining p) (combo_count p) (combo_timer p)
    v (punch_cooldown p) (kick_cooldown p) (batarang_cooldown p)
    (attack_duration p).
Definition set_punch_cooldown (v : Z) (p : Player) : Player :=
  mkPlayer (p_ent p) (jumps_remaining p) (combo_count p) (combo_timer p)
    (score p) v (kick_cooldown p) (batarang_cooldown p)
    (attack_duration p).
Definition set_kick_cooldown (v : Z) (p : Player) : Player :=
  mkPlayer (p_ent p) (jumps_remaining p) (combo_count p) (combo_timer p)
    (score p) (punch_cooldown p) v (batarang_cooldown p)
    (attack_duration p).
Definition set_batarang_cooldown (v : Z) (p : Player) : Player :=
  mkPlayer (p_ent p) (jumps_remaining p) (combo_count p) (combo_timer p)
    (score p) (punch_cooldown p) (kick_cooldown p) v
    (attack_duration p).
Definition set_attack_duration (v : Z) (p : Player) : Player :=
  mkPlayer (p_ent p) (jumps_remaining p) (combo_count p) (combo_timer p)
    (score p) (punch_cooldown p) (kick_cooldown p) (batarang_cooldown p)
    v.

(** The keys read by [handle_input]: [K_LEFT or K_a], [K_RIGHT or K_d]. *)
Record Keys := mkKeys { key_left : bool; key_right : bool }.

(** [Player.handle_input] (it always returns [None]). *)
Definition handle_input (keys : Keys) (p : Player) : Player :=
  if is_dead (state (p_ent p)) then p
  else
    let e := p_ent p in
    let em :=
      if key_left keys then
        (set_facing_right false (set_velocity_x (- MOVE_SPEED)%Q e), true)
      else if key_right keys then
        (set_facing_right true (set_velocity_x MOVE_SPEED e), true)
      else
        let v := (ent_velocity_x e * (8 # 10))%Q in
        (set_velocity_x (if Qltb (Qabs v) (5 # 10) then 0%Q else v) e, false) in
    let e1 := fst em in
    let moving := snd em in
    let e2 :=
      match state e1 with
      | ATTACKING | JUMPING | FALLING => e1
      | _ => set_state (if moving then RUNNING else IDLE) e1
      end in
    let p1 := with_ent (fun _ => e2) p in
    let p2 := if 0 <? punch_cooldown p1
              then set_punch_cooldown (punch_cooldown p1 - 1) p1 else p1 in
    let p3 := if 0 <? kick_cooldown p2
              then set_kick_cooldown (kick_cooldown p2 - 1) p2 else p2 in
    let p4 := if 0 <? batarang_cooldown p3
              then set_batarang_cooldown (batarang_cooldown p3 - 1) p3 else p3 in
    let p5 :=
      if 0 <? attack_duration p4 then
        let q := set_attack_duration (attack_duration p4 - 1) p4 in
        if attack_duration q =? 0
        then with_ent (set_current_attack NONE) q else q
      else p4 in
    if 0 <? combo_timer p5
    then set_combo_timer (combo_timer p5 - 1) p5
    else set_combo_count 0 p5.

(** [Player.jump]. *)
Definition jump (p : Player) : Player :=
  if 0 <? jumps_remaining p then
    let power := if jumps_remaining p =? MAX_JUMPS
                 then JUMP_POWER else DOUBLE_JUMP_POWER in
    let p1 := with_ent (set_velocity_y power) p in
    let p2 := set_jumps_remaining (jumps_remaining p1 - 1) p1 in
    with_ent (set_state JUMPING) p2
  else p.

(** [Player.punch]: the result and the player afterwards. *)
Definition punch (p : Player) : bool * Player :=
  if (punch_cooldown p <=? 0) && (attack_duration p <=? 0) then
    let p1 := set_punch_cooldown PUNCH_COOLDOWN p in
    let p2 := with_ent (set_current_attack PUNCH) p1 in
    let p3 := set_attack_duration PUNCH_DURATION p2 in
    (true, with_ent (set_state ATTACKING) p3)
  else (false, p).

(** [Player.kick]. *)
Definition kick (p : Player) : bool * Player :=
  if (kick_cooldown p <=? 0) && (attack_duration p <=? 0) then
    let p1 := set_kick_cooldown KICK_COOLDOWN p in
    let p2 := with_ent (set_current_attack KICK) p1 in
    let p3 := set_attack_duration KICK_DURATION p2 in
    (true, with_ent (set_state ATTACKING) p3)
  else (false, p).

(** [Player.throw_batarang]. *)
Definition throw_batarang (p : Player) : option Projectile * Player :=
  if batarang_cooldown p <=? 0 then
    let p1 := set_batarang_cooldown BATARANG_COOLDOWN p in
    let p2 := with_ent (set_current_attack BATARANG) p1 in
    let p3 := set_attack_duration BATARANG_DURATION p2 in
    let e := p_ent p3 in
    let direction : Z := if facing_right e then 1 else -1 in
    let batarang :=
      new_Projectile
        (x e + inject_Z (if facing_right e then width e else 0))%Q
        (y e + inject_Z (height e / 3))%Q
        (BATARANG_SPEED * inject_Z direction)%Q 0%Q
        BATARANG_DAMAGE true BATARANG_MAX_DISTANCE in
    (Some batarang, p3)
  else (None, p).

(** [Player.get_attack_rect]. *)
Definition Player_get_attack_rect (p : Player) : option Rect :=
  let e := p_ent p in
  if AttackType_eqb (current_attack e) NONE || (attack_duration p <=? 0)
  then None
  else
    let range :=
      match current_attack e with
      | PUNCH => Some PUNCH_RANGE
      | KICK => Some KICK_RANGE
      | _ => None
      end in
    match range with
    | None => None
    | Some attack_range =>
        if facing_right e then
          Some (mkRect (x e + inject_Z (width e))%Q (y e + 20)%Q
                  attack_range (height e - 40))
        else
          Some (mkRect (x e - inject_Z attack_range)%Q (y e + 20)%Q
                  attack_range (height e - 40))
    end.

(** [Player.get_attack_damage]. *)
Definition get_attack_damage (p : Player) : Z :=
  let base :=
    match current_attack (p_ent p) with
    | PUNCH => Some PUNCH_DAMAGE
    | KICK => Some KICK_DAMAGE
    | _ => None
    end in
  match base with
  | None => 0
  | Some base_damage =>
      let multiplier := (1 + inject_Z (combo_count p) * COMBO_DAMAGE_BONUS)%Q in
      let multiplier := Qmin multiplier MAX_COMBO_MULTIPLIER in
      int_of_float (inject_Z base_damage * multiplier)%Q
  end.

(** [Player.register_hit]. *)
Definition register_hit (p : Player) : Player :=
  set_combo_timer COMBO_WINDOW (set_combo_count (combo_count p + 1) p).

(** [Player.take_damage]. *)
Definition Player_take_damage (amount : Z) (knockback_direction : Z)
    (p : Player) : Player :=
  if 0 <? invincibility_frames (p_ent p) then p
  else
    let p1 := with_ent (Entity_take_damage amount knockback_direction) p in
    let p2 := set_combo_timer 0 (set_combo_count 0 p1) in
    with_ent (set_invincibility_frames HIT_INVINCIBILITY) p2.

(** [Player.update]. *)
Definition Player_update (p : Player) : Player :=
  let e0 := apply_gravity (p_ent p) in
  let e1 := set_y (y e0 + ent_velocity_y e0)%Q
              (set_x (x e0 + ent_velocity_x e0)%Q e0) in
  let landed := Qltb (inject_Z GROUND_LEVEL) (y e1 + inject_Z (height e1))%Q in
  let e2 :=
    if landed then
      let g := set_velocity_y 0 (set_y (inject_Z (GROUND_LEVEL - height e1)) e1) in
      match state g with
      | JUMPING | FALLING => set_state IDLE g
      | _ => g
      end
    else e1 in
  let jumps := if landed then MAX_JUMPS else jumps_remaining p in
  let e3 :=
    if Qltb (ent_velocity_y e2) 0 then set_state JUMPING e2
    else if Qltb 2 (ent_velocity_y e2) && negb (is_on_ground e2)
         then set_state FALLING e2 else e2 in
  let e4 := if Qltb (x e3) 0 then set_x 0 e3 else e3 in
  let e5 := if Qltb (inject_Z (LEVEL_WIDTH - width e4)) (x e4)
            then set_x (inject_Z (LEVEL_WIDTH - width e4)) e4 else e4 in
  let e6 := if 0 <? invincibility_frames e5
            then set_invincibility_frames (invincibility_frames e5 - 1) e5
            else e5 in
  let timer := animation_timer e6 + 1 in
  let e7 := if 8 <=? timer
            then set_animation ((animation_frame e6 + 1) mod 4) 0 e6
            else set_animation (animation_frame e6) timer e6 in
  set_jumps_remaining jumps (with_ent (fun _ => e7) p).

(** ** [EnemyConfig] and [class Enemy]

    The two colour attributes of the configuration only reach the drawing
    code and are left out. *)

Record EnemyConfig := mkEnemyConfig {
  name : string;
  is_boss : bool;
  cfg_health : Z;
  cfg_damage : Z;
  cfg_speed : Q;
  cfg_attack_range : Z;
  cfg_attack_cooldown : Z;
  cfg_width : Z;
  cfg_height : Z;
  can_block : bool;
  can_dodge : bool;
  has_projectile : bool;
  projectile_damage : Z;
  projectile_speed : Q;
  aggression : Q;
  patrol_range : Z;
  score_value : Z;
  health_drop_chance : Q
}.

(** Three entries of [ENEMY_CONFIGS]. *)
Definition joker_thug : EnemyConfig :=
  {| name := "Joker Thug"; is_boss := false; cfg_health := 60;
     cfg_damage := 10; cfg_speed := 25 # 10; cfg_attack_range := 50;
     cfg_attack_cooldown := 45; cfg_width := 50; cfg_height := 80;
     can_block := false; can_dodge := false; has_projectile := false;
     projectile_damage := 0; projectile_speed := 0;
     aggression := 4 # 10; patrol_range := 200;
     score_value := 100; health_drop_chance := 1 # 10 |}.

Definition bane_mercenary : EnemyConfig :=
  {| name := "Bane Mercenary"; is_boss := false; cfg_health := 100;
     cfg_damage := 15; cfg_speed := 2; cfg_attack_range := 60;
     cfg_attack_cooldown := 50; cfg_width := 50; cfg_height := 80;
     can_block := true; can_dodge := false; has_projectile := false;
     projectile_damage := 0; projectile_speed := 0;
     aggression := 6 # 10; patrol_range := 200;
     score_value := 150; health_drop_chance := 15 # 100 |}.

Definition joker : EnemyConfig :=
  {| name := "THE JOKER"; is_boss := true; cfg_health := 500;
     cfg_damage := 25; cfg_speed := 35 # 10; cfg_attack_range := 80;
     cfg_attack_cooldown := 40; cfg_width := 60; cfg_height := 90;
     can_block := false; can_dodge := true; has_projectile := true;
     projectile_damage := 15; projectile_speed := 10;
     aggression := 7 # 10; patrol_range := 200;
     score_value := 5000; health_drop_chance := 3 # 10 |}.

Inductive AIState : Set := patrol | chase | attack | retreat.

(** [oid] stands for the identity of the Python object: the orchestrator
    compares enemies with [==] and removes them from its list, both of which
    go by identity for this class. *)
Record Enemy := mkEnemy {
  oid : nat;
  e_ent : Entity;
  config : EnemyConfig;
  spawn_x : Q;
  ai_timer : Z;
  ai_state : AIState;
  blocking : bool;
  projectile_cooldown : Z
}.

(** [Enemy.__init__]. *)
Definition new_Enemy (id : nat) (x0 y0 : Q) (c : EnemyConfig) : Enemy :=
  {| oid := id;
     e_ent := set_health (cfg_health c) (set_max_health (cfg_health c)
                (new_Entity x0 y0 (cfg_width c) (cfg_height c)));
     config := c; spawn_x := x0; ai_timer := 0; ai_state := patrol;
     blocking := false; projectile_cooldown := 0 |}.

Definition with_e_ent (f : Entity -> Entity) (e : Enemy) : Enemy :=
  mkEnemy (oid e) (f (e_ent e)) (config e) (spawn_x e) (ai_timer e)
    (ai_state e) (blocking e) (projectile_cooldown e).
Definition set_ai_timer (v : Z) (e : Enemy) : Enemy :=
  mkEnemy (oid e) (e_ent e) (config e) (spawn_x e) v
    (ai_state e) (blocking e) (projectile_cooldown e).
Definition set_ai_state (v : AIState) (e : Enemy) : Enemy :=
  mkEnemy (oid e) (e_ent e) (config e) (spawn_x e) (ai_timer e)
    v (blocking e) (projectile_cooldown e).
Definition set_blocking (v : bool) (e : Enemy) : Enemy :=
  mkEnemy (oid e) (e_ent e) (config e) (spawn_x e) (ai_timer e)
    (ai_state e) v (projectile_cooldown e).
Definition set_projectile_cooldown (v : Z) (e : Enemy) : Enemy :=
  mkEnemy (oid e) (e_ent e) (config e) (spawn_x e) (ai_timer e)
    (ai_state e) (blocking e) v.

(** [Enemy.get_attack_rect]. *)
Definition Enemy_get_attack_rect (e : Enemy) : option Rect :=
  let b := e_ent e in
  if negb (AttackType_eqb (current_attack b) ENEMY_MELEE)
     || (attack_frame b <? 5)
  then None
  else if facing_right b then
    Some (mkRect (x b + inject_Z (width b))%Q (y b + 20)%Q
            (cfg_attack_range (config e)) (height b - 40))
  else
    Some (mkRect (x b - inject_Z (cfg_attack_range (config e)))%Q (y b + 20)%Q
            (cfg_attack_range (config e)) (height b - 40)).

(** [Enemy.take_damage]. *)
Definition Enemy_take_damage (amount : Z) (knockback_direction : Z)
    (e : Enemy) : Enemy :=
  let amount :=
    if blocking e && can_block (config e) then amount / 3 else amount in
  with_e_ent (Entity_take_damage amount knockback_direction) e.

(** ** [Enemy.update]

    The update reads the random generator, the clock and two library
    functions.  One tick's readings for one enemy are gathered in [Dice]:
    a draw of [random.random()] for each place that calls it, and the value
    [wave] of [math.sin(pygame.time.get_ticks() / 1000)].  The distance
    [math.sqrt(dx*dx + dy*dy)] is only ever compared with a constant, which
    is done on the squares. *)

Record Dice := mkDice {
  roll_chase : Q;
  roll_mid : Q;
  roll_block : Q;
  roll_dodge : Q;
  roll_drop : Q;
  wave : Q
}.

(** [sqrt d2 < c] and [sqrt d2 > c], for [0 <= d2]. *)
Definition dist_lt (d2 c : Q) : bool := Qltb 0 c && Qltb d2 (c * c).
Definition dist_gt (d2 c : Q) : bool := Qltb c 0 || Qltb (c * c) d2.

(** The three countdowns at the head of [update]. *)
Definition Enemy_cooldowns (e : Enemy) : Enemy :=
  let e1 := if 0 <? attack_cooldown (e_ent e)
            then with_e_ent (set_attack_cooldown (attack_cooldown (e_ent e) - 1)) e
            else e in
  let e2 := if 0 <? projectile_cooldown e1
            then set_projectile_cooldown (projectile_cooldown e1 - 1) e1
            else e1 in
  if 0 <? invincibility_frames (e_ent e2)
  then with_e_ent
         (set_invincibility_frames (invincibility_frames (e_ent e2) - 1)) e2
  else e2.

(** The periodic choice of the behaviour state. *)
Definition Enemy_decide (dice : Dice) (d2 : Q) (e : Enemy) : Enemy :=
  let e1 := set_ai_timer (ai_timer e + 1) e in
  if 30 <=? ai_timer e1 then
    let e2 := set_ai_timer 0 e1 in
    let c := config e2 in
    if dist_lt d2 (inject_Z (cfg_attack_range c)) then set_ai_state attack e2
    else if dist_lt d2 300 && Qltb (roll_chase dice) (aggression c)
    then set_ai_state chase e2
    else if dist_gt d2 400 then set_ai_state patrol e2
    else if Qltb (roll_mid dice) (aggression c)
    then set_ai_state chase e2
    else set_ai_state retreat e2
  else e1.

(** The behaviour of the chosen state. *)
Definition Enemy_act (dice : Dice) (dx d2 : Q) (e : Enemy)
    : Enemy * option Projectile :=
  let c := config e in
  match ai_state e with
  | patrol =>
      let target_x := (spawn_x e + wave dice * inject_Z (patrol_range c))%Q in
      if Qltb (x (e_ent e)) target_x then
        (with_e_ent (fun b => set_facing_right true
                       (set_velocity_x (cfg_speed c * (5 # 10))%Q b)) e, None)
      else
        (with_e_ent (fun b => set_facing_right false
                       (set_velocity_x (- cfg_speed c * (5 # 10))%Q b)) e, None)
  | chase =>
      if Qltb 10 dx then (with_e_ent (set_velocity_x (cfg_speed c)) e, None)
      else if Qltb dx (-10)
      then (with_e_ent (set_velocity_x (- cfg_speed c)%Q) e, None)
      else (with_e_ent (set_velocity_x 0) e, None)
  | attack =>
      let e1 := with_e_ent (set_velocity_x 0) e in
      let e2 :=
        if (attack_cooldown (e_ent e1) <=? 0)
           && dist_lt d2 (inject_Z (cfg_attack_range c))
        then with_e_ent (fun b => set_attack_frame 15
               (set_attack_cooldown (cfg_attack_cooldown c)
                  (set_current_attack ENEMY_MELEE b))) e1
        else e1 in
      if has_projectile c && (projectile_cooldown e2 <=? 0)
         && dist_gt d2 100 && dist_lt d2 400
      then
        let b := e_ent e2 in
        let direction : Z := if facing_right b then 1 else -1 in
        let projectile :=
          new_Projectile
            (x b + inject_Z (if facing_right b then width b else 0))%Q
            (y b + inject_Z (height b / 3))%Q
            (projectile_speed c * inject_Z direction)%Q 0%Q
            (projectile_damage c) false 600 in
        (set_projectile_cooldown 90 e2, Some projectile)
      else (e2, None)
  | retreat =>
      if Qltb 0 dx then (with_e_ent (set_velocity_x (- cfg_speed c)%Q) e, None)
      else (with_e_ent (set_velocity_x (cfg_speed c)) e, None)
  end.

(** Blocking and dodging. *)
Definition Enemy_react (dice : Dice) (dx d2 : Q) (player : Player)
    (e : Enemy) : Enemy :=
  let c := config e in
  let e1 :=
    if can_block c && (0 <? attack_duration player) then
      if Qltb (roll_block dice) (3 # 10)
      then with_e_ent (set_state BLOCKING) (set_blocking true e)
      else e
    else set_blocking false e in
  if can_dodge c && (5 <? attack_duration player) then
    if dist_lt d2 100 && Qltb (roll_dodge dice) (2 # 10) then
      let dodge_dir : Z := if Qltb 0 dx then -1 else 1 in
      with_e_ent (set_velocity_x (inject_Z dodge_dir * cfg_speed c * 2)%Q) e1
    else e1
  else e1.

(** Gravity, motion, ground and level bounds, the attack frame counter and
    the animation counter. *)
Definition Enemy_physics (b0 : Entity) : Entity :=
  let b1 := apply_gravity b0 in
  let b2 := set_y (y b1 + ent_velocity_y b1)%Q
              (set_x (x b1 + ent_velocity_x b1)%Q b1) in
  let b3 := if Qltb (inject_Z GROUND_LEVEL) (y b2 + inject_Z (height b2))%Q
            then set_velocity_y 0
                   (set_y (inject_Z (GROUND_LEVEL - height b2)) b2)
            else b2 in
  let b4 := if Qltb (x b3) 0 then set_x 0 b3 else b3 in
  let b5 := if Qltb (inject_Z (LEVEL_WIDTH - width b4)) (x b4)
            then set_x (inject_Z (LEVEL_WIDTH - width b4)) b4 else b4 in
  let b6 :=
    if 0 <? attack_frame b5 then
      let b := set_attack_frame (attack_frame b5 - 1) b5 in
      if attack_frame b =? 0 then set_current_attack NONE b else b
    else b5 in
  let timer := animation_timer b6 + 1 in
  if 10 <=? timer
  then set_animation ((animation_frame b6 + 1) mod 4) 0 b6
  else set_animation (animation_frame b6) timer b6.

(** [Enemy.update]: the enemy afterwards and the projectile it fired. *)
Definition Enemy_update (dice : Dice) (player : Player) (e : Enemy)
    : Enemy * option Projectile :=
  if is_dead (state (e_ent e)) then (e, None)
  else
    let e1 := Enemy_cooldowns e in
    let dx := (x (p_ent player) - x (e_ent e1))%Q in
    let dy := (y (p_ent player) - y (e_ent e1))%Q in
    let d2 := (dx * dx + dy * dy)%Q in
    let e2 := with_e_ent (set_facing_right (Qltb 0 dx)) e1 in
    let e3 := Enemy_decide dice d2 e2 in
    let acted := Enemy_act dice dx d2 e3 in
    let e4 := Enemy_react dice dx d2 player (fst acted) in
    (with_e_ent Enemy_physics e4, snd acted).

(** ** [class HealthPickup] *)

Record HealthPickup := mkHealthPickup {
  hp_x : Q;
  hp_y : Q;
  hp_width : Z;
  hp_height : Z;
  heal_amount : Z;
  hp_active : bool;
  lifetime : Z
}.

Definition new_HealthPickup (x0 y0 : Q) : HealthPickup :=
  {| hp_x := x0; hp_y := y0; hp_width := 25; hp_height := 25;
     heal_amount := 20; hp_active := true; lifetime := 600 |}.

(** [HealthPickup.update]. *)
Definition HealthPickup_update (k : HealthPickup) : HealthPickup :=
  let l := lifetime k - 1 in
  mkHealthPickup (hp_x k) (hp_y k) (hp_width k) (hp_height k) (heal_amount k)
    (if l <=? 0 then false else hp_active k) l.

Definition HealthPickup_get_rect (k : HealthPickup) : Rect :=
  mkRect (hp_x k) (hp_y k) (hp_width k) (hp_height k).

(** ** The encounter: the collision half of [Game.update] *)

Record Encounter := mkEncounter {
  player : Player;
  enemies : list Enemy;
  projectiles : list Projectile;
  pickups : list HealthPickup
}.

Definition alive (e : Enemy) : bool := negb (is_dead (state (e_ent e))).

(** [Projectile.get_rect]. *)
Definition Projectile_get_rect (p : Projectile) : Rect :=
  mkRect (proj_x p - inject_Z (proj_width p / 2))%Q
         (proj_y p - inject_Z (proj_height p / 2))%Q
         (proj_width p) (proj_height p).

(** [1 if v > 0 else -1]. *)
Definition direction_of (v : Q) : Z := if Qltb 0 v then 1 else -1.
Definition facing_direction (b : Entity) : Z :=
  if facing_right b then 1 else -1.

Section Collisions.

Variable colliderect : Rect -> Rect -> bool.

(** The inner loop of the projectile phase: the first living enemy that
    the projectile overlaps takes the damage, and the loop breaks.  The
    boolean tells whether there was one. *)
Fixpoint projectile_hits_enemies (proj_rect : Rect) (damage direction : Z)
    (es : list Enemy) : bool * list Enemy :=
  match es with
  | [] => (false, [])
  | enemy :: rest =>
      if alive enemy
         && colliderect proj_rect (Entity_get_rect (e_ent enemy))
      then (true, Enemy_take_damage damage direction enemy :: rest)
      else
        let r := projectile_hits_enemies proj_rect damage direction rest in
        (fst r, enemy :: snd r)
  end.

(** One iteration of [for projectile in self.projectiles[:]].  [kept] is the
    part of [self.projectiles] already gone through. *)
Definition resolve_projectile (pl : Player) (es : list Enemy)
    (kept : list Projectile) (projectile : Projectile)
    : Player * list Enemy * list Projectile :=
  let projectile := Projectile_update 15 projectile in
  if negb (proj_active projectile) then (pl, es, kept)
  else
    let proj_rect := Projectile_get_rect projectile in
    let direction := direction_of (velocity_x projectile) in
    if owner_is_player projectile then
      let r := projectile_hits_enemies proj_rect (proj_damage projectile)
                 direction es in
      if fst r
      then (register_hit pl, snd r, kept ++ [Projectile_deactivate projectile])
      else (pl, es, kept ++ [projectile])
    else if colliderect proj_rect (Entity_get_rect (p_ent pl)) then
      (Player_take_damage (proj_damage projectile) direction pl, es,
       kept ++ [Projectile_deactivate projectile])
    else (pl, es, kept ++ [projectile]).

Fixpoint projectiles_loop (pl : Player) (es : list Enemy)
    (kept : list Projectile) (copy : list Projectile)
    : Player * list Enemy * list Projectile :=
  match copy with
  | [] => (pl, es, kept)
  | projectile :: rest =>
      let r := resolve_projectile pl es kept projectile in
      projectiles_loop (fst (fst r)) (snd (fst r)) (snd r) rest
  end.

(** Phase 1: "Update projectiles". *)
Definition update_projectiles (enc : Encounter) : Encounter :=
  let r := projectiles_loop (player enc) (enemies enc) [] (projectiles enc) in
  mkEncounter (fst (fst r)) (snd (fst r)) (snd r) (pickups enc).

(** The loop of the player melee phase. *)
Fixpoint melee_loop (player_attack_rect : Rect) (pl : Player)
    (es : list Enemy) : Player * list Enemy :=
  match es with
  | [] => (pl, [])
  | enemy :: rest =>
      if alive enemy
         && colliderect player_attack_rect (Entity_get_rect (e_ent enemy))
      then
        let direction := facing_direction (p_ent pl) in
        let damage := get_attack_damage pl in
        let enemy' := Enemy_take_damage damage direction enemy in
        let r := melee_loop player_attack_rect (register_hit pl) rest in
        (fst r, enemy' :: snd r)
      else
        let r := melee_loop player_attack_rect pl rest in
        (fst r, enemy :: snd r)
  end.

(** Phase 2: "Check player melee attacks hitting enemies".  The second
    conjunct of the source's test compares [attack_duration] with itself. *)
Definition player_melee (enc : Encounter) : Encounter :=
  let pl := player enc in
  match Player_get_attack_rect pl with
  | Some player_attack_rect =>
      if attack_duration pl =? attack_duration pl then
        let r := melee_loop player_attack_rect pl (enemies enc) in
        mkEncounter (fst r) (snd r) (projectiles enc) (pickups enc)
      else enc
  | None => enc
  end.

(** One enemy of phase 3. *)
Definition enemy_strikes (pl : Player) (enemy : Enemy) : Player :=
  if is_dead (state (e_ent enemy)) then pl
  else
    match Enemy_get_attack_rect enemy with
    | Some enemy_attack_rect =>
        if colliderect enemy_attack_rect (Entity_get_rect (p_ent pl))
        then Player_take_damage (cfg_damage (config enemy))
               (facing_direction (e_ent enemy)) pl
        else pl
    | None => pl
    end.

(** Phase 3: "Check enemy attacks hitting player". *)
Definition enemy_melee (enc : Encounter) : Encounter :=
  mkEncounter (fold_left enemy_strikes (enemies enc) (player enc))
    (enemies enc) (projectiles enc) (pickups enc).

(** One iteration of [for pickup in self.pickups[:]]. *)
Definition resolve_pickup (acc : Player * list HealthPickup)
    (pickup : HealthPickup) : Player * list HealthPickup :=
  let pl := fst acc in
  let pickup := HealthPickup_update pickup in
  if negb (hp_active pickup) then acc
  else if colliderect (HealthPickup_get_rect pickup)
            (Entity_get_rect (p_ent pl))
  then
    (with_ent (fun b => set_health
                 (Z.min (max_health b) (health b + heal_amount pickup)) b) pl,
     snd acc)
  else (pl, snd acc ++ [pickup]).

(** Phase 4: "Update and check pickups". *)
Definition update_pickups (enc : Encounter) : Encounter :=
  let r := fold_left resolve_pickup (pickups enc) (player enc, []) in
  mkEncounter (fst r) (enemies enc) (projectiles enc) (snd r).

(** Damage resolution of one tick. *)
Definition resolve_collisions (enc : Encounter) : Encounter :=
  enemy_melee (player_melee (update_projectiles enc)).

End Collisions.

(** ** [class Game]

    [self.player] is [None] until the first stage starts; the lists are
    empty until then, so the four attributes are kept together as an
    optional [Encounter].  [boss] is the identity of [self.boss]. *)

Inductive GameState : Set :=
  | title | playing | paused | level_intro | game_over.

Record Game := mkGame {
  game_state : GameState;
  won : bool;
  current_level_index : Z;
  level_intro_timer : Z;
  encounter : option Encounter;
  boss : option nat;
  camera_x : Q
}.

Definition set_game_state (v : GameState) (g : Game) : Game :=
  mkGame v (won g) (current_level_index g) (level_intro_timer g)
    (encounter g) (boss g) (camera_x g).
Definition set_won (v : bool) (g : Game) : Game :=
  mkGame (game_state g) v (current_level_index g) (level_intro_timer g)
    (encounter g) (boss g) (camera_x g).
Definition set_level_intro_timer (v : Z) (g : Game) : Game :=
  mkGame (game_state g) (won g) (current_level_index g) v
    (encounter g) (boss g) (camera_x g).
Definition set_encounter (v : option Encounter) (g : Game) : Game :=
  mkGame (game_state g) (won g) (current_level_index g) (level_intro_timer g)
    v (boss g) (camera_x g).
Definition set_camera_x (v : Q) (g : Game) : Game :=
  mkGame (game_state g) (won g) (current_level_index g) (level_intro_timer g)
    (encounter g) (boss g) v.

Definition on_encounter (f : Encounter -> Encounter) (g : Game) : Game :=
  match encounter g with
  | Some enc => set_encounter (Some (f enc)) g
  | None => g
  end.

Definition on_player (f : Player -> Player) (enc : Encounter) : Encounter :=
  mkEncounter (f (player enc)) (enemies enc) (projectiles enc) (pickups enc).

Definition SCREEN_WIDTH : Z := 1200.
Definition SCROLL_THRESHOLD : Z := 400.
Definition NUM_LEVEL_CONFIGS : Z := 5.

Definition is_boss_of (g : Game) (enemy : Enemy) : bool :=
  match boss g with
  | Some b => Nat.eqb b (oid enemy)
  | None => false
  end.

Section Orchestrator.

Variable colliderect : Rect -> Rect -> bool.

(** [Game.start_level] builds a stage from the level tables, placing the
    rank and file at random; the orchestrator below is stated for any such
    function. *)
Variable start_level : Z -> Game -> Game.

(** The branch of the enemy loop for an enemy found dead: a possible health
    drop, the score, the removal from the list (the enemy is simply not
    carried over to [done]) and, for the boss, the end of the stage. *)
Definition bury_enemy (dice : Dice) (enemy : Enemy) (g : Game) : Game :=
  let g1 :=
    on_encounter
      (fun enc =>
         let drops :=
           if Qltb (roll_drop dice) (health_drop_chance (config enemy))
           then pickups enc
                  ++ [new_HealthPickup (x (e_ent enemy)) (y (e_ent enemy))]
           else pickups enc in
         mkEncounter
           (set_score (score (player enc) + score_value (config enemy))
              (player enc))
           (enemies enc) (projectiles enc) drops) g in
  if is_boss_of g1 enemy then
    let next_level := current_level_index g1 + 1 in
    if NUM_LEVEL_CONFIGS <=? next_level
    then set_game_state game_over (set_won true g1)
    else
      match encounter g1 with
      | Some enc =>
          on_encounter (on_player (set_score (score (player enc))))
            (start_level next_level g1)
      | None => start_level next_level g1
      end
  else g1.

(** [for enemy in self.enemies[:]].  [done] holds the enemies of the copy
    already gone through and kept, [copy] the rest, so that
    [self.enemies] is [done ++ copy] at the head of every iteration.
    [start_level] puts the boss last in the list and removals keep the
    order, so the copy is exhausted when a stage ends; the loop stops
    there. *)
Fixpoint enemies_loop (dice : nat -> Dice) (i : nat) (done copy : list Enemy)
    (g : Game) : Game :=
  match copy with
  | [] => g
  | enemy :: rest =>
      if is_dead (state (e_ent enemy)) then
        let g1 := on_encounter
                    (fun enc => mkEncounter (player enc) (done ++ rest)
                                  (projectiles enc) (pickups enc)) g in
        let g2 := bury_enemy (dice i) enemy g1 in
        if is_boss_of g1 enemy then g2
        else enemies_loop dice (S i) done rest g2
      else
        match encounter g with
        | Some enc =>
            let r := Enemy_update (dice i) (player enc) enemy in
            let shots :=
              match snd r with
              | Some enemy_projectile => projectiles enc ++ [enemy_projectile]
              | None => projectiles enc
              end in
            let g1 := set_encounter
                        (Some (mkEncounter (player enc)
                                 (done ++ fst r :: rest) shots (pickups enc)))
                        g in
            enemies_loop dice (S i) (done ++ [fst r]) rest g1
        | None => g
        end
  end.

Definition update_enemies (dice : nat -> Dice) (g : Game) : Game :=
  match encounter g with
  | Some enc => enemies_loop dice 0 [] (enemies enc) g
  | None => g
  end.

(** "Check player death". *)
Definition check_player_death (g : Game) : Game :=
  match encounter g with
  | Some enc =>
      if is_dead (state (p_ent (player enc)))
      then set_game_state game_over (set_won false g)
      else g
  | None => g
  end.

(** The camera follows the player. *)
Definition update_camera (g : Game) : Game :=
  match encounter g with
  | Some enc =>
      let target := (x (p_ent (player enc)) - inject_Z SCROLL_THRESHOLD)%Q in
      let target :=
        Qmax 0 (Qmin target (inject_Z (LEVEL_WIDTH - SCREEN_WIDTH))) in
      set_camera_x (camera_x g + (target - camera_x g) * (1 # 10))%Q g
  | None => g
  end.

(** [Game.update]: one tick. *)
Definition Game_update (keys : Keys) (dice : nat -> Dice) (g : Game) : Game :=
  match game_state g with
  | level_intro =>
      let g1 := set_level_intro_timer (level_intro_timer g - 1) g in
      if level_intro_timer g1 <=? 0 then set_game_state playing g1 else g1
  | playing =>
      match encounter g with
      | None => g
      | Some _ =>
          let g1 := on_encounter
                      (on_player (fun p => Player_update (handle_input keys p)))
                      g in
          let g2 := update_camera g1 in
          let g3 := update_enemies dice g2 in
          let g4 := on_encounter (update_projectiles colliderect) g3 in
          let g5 := on_encounter (player_melee colliderect) g4 in
          let g6 := on_encounter (enemy_melee colliderect) g5 in
          let g7 := on_encounter (update_pickups colliderect) g6 in
          check_player_death g7
      end
  | _ => g
  end.

End Orchestrator.

(** ** Sample values *)

(** The player at the start of a stage, standing on the ground. *)
Definition player0 : Player := new_Player 100 470.

(** No key held. *)
Definition idle_keys : Keys := mkKeys false false.

(** The player on the [k]-th tick after a punch, and after a kick, with no
    key held. *)
Definition punch_frame (k : nat) : Player :=
  Nat.iter k (handle_input idle_keys) (snd (punch player0)).
Definition kick_frame (k : nat) : Player :=
  Nat.iter k (handle_input idle_keys) (snd (kick player0)).

Definition has_rect (r : option Rect) : bool :=
  match r with Some _ => true | None => false end.




(** The punch key is pressed and the tick starts. *)
Definition ready (pl : Player) : Player :=
  handle_input idle_keys (snd (punch pl)).


(** The rewards of the dead enemies of a list. *)
Definition bounty (es : list Enemy) : Z :=
  fold_right (fun e acc => if alive e then acc else score_value (config e) + acc)
    0 es.

(** The well-formedness of an actor's health. *)
Definition health_ok (b : Entity) : Prop :=
  0 <= health b <= max_health b /\ (health b = 0 <-> state b = DEAD).


(** Readings under which no random branch is taken, and a stage function
    that keeps the game as it is, for running the orchestrator on
    examples. *)
Definition calm : Dice := mkDice 1 1 1 1 1 0.
Definition calm_dice (k : nat) : Dice := calm.
Definition same_level (level_index : Z) (g : Game) : Game := g.



(** A player who has just punched, next to the Joker, who is the boss and
    the only enemy; and that game [n] ticks later, on integer pixels, with
    no key held. *)
Definition brawl : Game :=
  mkGame playing false 0 0
    (Some (mkEncounter (snd (punch player0))
             [new_Enemy 0 160 460 joker] [] []))
    (Some 0%nat) 0.

Definition brawl_after (n : nat) : Game :=
  Nat.iter n (Game_update pixel_colliderect same_level idle_keys calm_dice)
    brawl.

Definition combo_of (g : Game) : Z :=
  match encounter g with
  | Some enc => combo_count (player enc)
  | None => 0
  end.

Definition healths_of (g : Game) : list Z :=
  match encounter g with
  | Some enc => map (fun e => health (e_ent e)) (enemies enc)
  | None => []
  end.

(** The enemies that the melee loop hits: alive and overlapped. *)
Definition overlapped (colliderect : Rect -> Rect -> bool) (r : Rect)
    (e : Enemy) : bool :=
  alive e && colliderect r (Entity_get_rect (e_ent e)).

(** The Joker within reach and still invincible from an earlier hit, and the
    encounter in which the player's punch overlaps him. *)
Definition dazed_joker : Enemy :=
  with_e_ent (set_invincibility_frames 29) (new_Enemy 0 160 460 joker).

Definition dazed_encounter : Encounter :=
  mkEncounter (ready player0) [dazed_joker] [] [].

Definition punch_rect : Rect := mkRect 150 490 70 40.

(** [dead_untouched e e']: if [e] is dead, [e'] is [e]. *)
Definition dead_untouched (e e' : Enemy) : Prop :=
  alive e = false -> e' = e.

(** An encounter with its dead enemies taken out of the list. *)
Definition without_dead (enc : Encounter) : Encounter :=
  mkEncounter (player enc) (filter alive (enemies enc)) (projectiles enc)
    (pickups enc).

(** A player down to 10 health who runs to the right, towards a pickup
    lying at (125, 470), while a thug five ticks into its attack stands
    just beyond it; and that game one tick later. *)
Definition cornered : Player :=
  with_ent (fun b => set_health 10 (set_x 70 b)) player0.

Definition striking_thug : Enemy :=
  set_ai_state attack
    (with_e_ent
       (fun b => set_attack_cooldown 40
                   (set_attack_frame 10
                      (set_current_attack ENEMY_MELEE
                         (set_facing_right false b))))
       (new_Enemy 1 167 470 joker_thug)).

Definition last_stand : Game :=
  mkGame playing false 0 0
    (Some (mkEncounter cornered [striking_thug] []
             [new_HealthPickup 125 470]))
    (Some 0%nat) 0.

Definition right_key : Keys := mkKeys false true.

Definition last_stand_after : Game :=
  Game_update pixel_colliderect same_level right_key calm_dice last_stand.

Definition player_of (g : Game) : Player :=
  match encounter g with
  | Some enc => player enc
  | None => player0
  end.

(** The same tick stopped before the pickups are gone through. *)
Definition last_stand_struck : Game :=
  on_encounter (enemy_melee pixel_colliderect)
    (on_encounter (player_melee pixel_colliderect)
       (on_encounter (update_projectiles pixel_colliderect)
          (update_enemies same_level calm_dice
             (update_camera
                (on_encounter
                   (on_player
                      (fun p => Player_update (handle_input right_key p)))
                   last_stand))))).

(** ** The blocks of [Player.update] and of the tail of [Enemy.update]

    The same code as in [Player_update] and [Enemy_physics], one definition
    for each block of the source, for reasoning on one block at a time. *)

(** "Apply gravity", "Update position". *)
Definition fall (b : Entity) : Entity :=
  let e0 := apply_gravity b in
  set_y (y e0 + ent_velocity_y e0)%Q (set_x (x e0 + ent_velocity_x e0)%Q e0).

(** "Ground collision": the test, what it does to the player, and what it
    does to an enemy. *)
Definition lands (e1 : Entity) : bool :=
  Qltb (inject_Z GROUND_LEVEL) (y e1 + inject_Z (height e1))%Q.

Definition land (e1 : Entity) : Entity :=
  if lands e1 then
    let g := set_velocity_y 0 (set_y (inject_Z (GROUND_LEVEL - height e1)) e1) in
    match state g with
    | JUMPING | FALLING => set_state IDLE g
    | _ => g
    end
  else e1.

Definition settle (e1 : Entity) : Entity :=
  if lands e1
  then set_velocity_y 0 (set_y (inject_Z (GROUND_LEVEL - height e1)) e1)
  else e1.

(** "Update jumping/falling state". *)
Definition airborne (e2 : Entity) : Entity :=
  if Qltb (ent_velocity_y e2) 0 then set_state JUMPING e2
  else if Qltb 2 (ent_velocity_y e2) && negb (is_on_ground e2)
       then set_state FALLING e2 else e2.

(** "Keep in bounds". *)
Definition keep_in_bounds (e3 : Entity) : Entity :=
  let e4 := if Qltb (x e3) 0 then set_x 0 e3 else e3 in
  if Qltb (inject_Z (LEVEL_WIDTH - width e4)) (x e4)
  then set_x (inject_Z (LEVEL_WIDTH - width e4)) e4 else e4.

(** "Invincibility countdown". *)
Definition count_down (e5 : Entity) : Entity :=
  if 0 <? invincibility_frames e5
  then set_invincibility_frames (invincibility_frames e5 - 1) e5 else e5.

(** "Update attack frame" of an enemy. *)
Definition attack_tick (b5 : Entity) : Entity :=
  if 0 <? attack_frame b5 then
    let b := set_attack_frame (attack_frame b5 - 1) b5 in
    if attack_frame b =? 0 then set_current_attack NONE b else b
  else b5.

(** "Animation", every [period] ticks. *)
Definition animate (period : Z) (e6 : Entity) : Entity :=
  let timer := animation_timer e6 + 1 in
  if period <=? timer
  then set_animation ((animation_frame e6 + 1) mod 4) 0 e6
  else set_animation (animation_frame e6) timer e6.

(** ** The blocks of [Player.handle_input] *)

(** "Movement": the entity and the flag [moving]. *)
Definition steer (keys : Keys) (e : Entity) : Entity * bool :=
  if key_left keys then
    (set_facing_right false (set_velocity_x (- MOVE_SPEED)%Q e), true)
  else if key_right keys then
    (set_facing_right true (set_velocity_x MOVE_SPEED e), true)
  else
    let v := (ent_velocity_x e * (8 # 10))%Q in
    (set_velocity_x (if Qltb (Qabs v) (5 # 10) then 0%Q else v) e, false).

(** "Update state based on movement". *)
Definition stance (em : Entity * bool) : Entity :=
  match state (fst em) with
  | ATTACKING | JUMPING | FALLING => fst em
  | _ => set_state (if snd em then RUNNING else IDLE) (fst em)
  end.

(** "Update cooldowns", "Update attack duration", "Update combo timer". *)
Definition tick_punch (p1 : Player) : Player :=
  if 0 <? punch_cooldown p1
  then set_punch_cooldown (punch_cooldown p1 - 1) p1 else p1.

Definition tick_kick (p2 : Player) : Player :=
  if 0 <? kick_cooldown p2
  then set_kick_cooldown (kick_cooldown p2 - 1) p2 else p2.

Definition tick_batarang (p3 : Player) : Player :=
  if 0 <? batarang_cooldown p3
  then set_batarang_cooldown (batarang_cooldown p3 - 1) p3 else p3.

Definition tick_attack (p4 : Player) : Player :=
  if 0 <? attack_duration p4 then
    let q := set_attack_duration (attack_duration p4 - 1) p4 in
    if attack_duration q =? 0
    then with_ent (set_current_attack NONE) q else q
  else p4.

Definition tick_combo (p5 : Player) : Player :=
  if 0 <? combo_timer p5
  then set_combo_timer (combo_timer p5 - 1) p5
  else set_combo_count 0 p5.

(** The player after the ticks of a list of key states, with
    [handle_input] alone and with the whole of the player's tick. *)
Definition inputs (ks : list Keys) (p : Player) : Player :=
  fold_left (fun q k => handle_input k q) ks p.

Definition player_ticks (ks : list Keys) (p : Player) : Player :=
  fold_left (fun q k => Player_update (handle_input k q)) ks p.

(** Standing on the ground, at rest. *)
Definition standing (b : Entity) : Prop :=
  (y b + inject_Z (height b) == inject_Z GROUND_LEVEL)%Q /\
  (ent_velocity_y b == 0)%Q.

(** An enemy whose attack reaches the player: alive, with an attack
    rectangle that overlaps the player's. *)
Definition strikes (colliderect : Rect -> Rect -> bool) (pl : Player)
    (enemy : Enemy) : bool :=
  alive enemy
  && match Enemy_get_attack_rect enemy with
     | Some enemy_attack_rect =>
         colliderect enemy_attack_rect (Entity_get_rect (p_ent pl))
     | None => false
     end.

(** The number of enemies of a list that are not alive. *)
Definition dead_count (es : list Enemy) : nat :=
  List.length (filter (fun e => negb (alive e)) es).

(** A thug and the Joker, dead; a game of the first stage with the dead thug
    and the living Joker, who is the boss, and a game of the last stage
    with the dead Joker alone. *)
Definition fallen_thug : Enemy :=
  with_e_ent (fun b => set_state DEAD (set_health 0 b))
    (new_Enemy 1 300 470 joker_thug).

Definition fallen_joker : Enemy :=
  with_e_ent (fun b => set_state DEAD (set_health 0 b))
    (new_Enemy 0 160 460 joker).

Definition mop_up : Game :=
  mkGame playing false 0 0
    (Some (mkEncounter player0 [fallen_thug; new_Enemy 0 160 460 joker]
             [] []))
    (Some 0%nat) 0.

Definition finale : Game :=
  mkGame playing false 4 0
    (Some (mkEncounter player0 [fallen_joker] [] []))
    (Some 0%nat) 0.

(** ** The other entries of [ENEMY_CONFIGS], and [LEVEL_CONFIGS] *)

Definition bane : EnemyConfig :=
  {| name := "BANE"; is_boss := true; cfg_health := 800;
     cfg_damage := 40; cfg_speed := 2; cfg_attack_range := 100;
     cfg_attack_cooldown := 60; cfg_width := 80; cfg_height := 110;
     can_block := true; can_dodge := false; has_projectile := false;
     projectile_damage := 0; projectile_speed := 0;
     aggression := 9 # 10; patrol_range := 200;
     score_value := 6000; health_drop_chance := 4 # 10 |}.

Definition scarecrow : EnemyConfig :=
  {| name := "SCARECROW"; is_boss := true; cfg_health := 450;
     cfg_damage := 22; cfg_speed := 35 # 10; cfg_attack_range := 85;
     cfg_attack_cooldown := 35; cfg_width := 60; cfg_height := 95;
     can_block := false; can_dodge := true; has_projectile := true;
     projectile_damage := 15; projectile_speed := 8;
     aggression := 65 # 100; patrol_range := 200;
     score_value := 4500; health_drop_chance := 25 # 100 |}.

Definition twoface : EnemyConfig :=
  {| name := "TWO-FACE"; is_boss := true; cfg_health := 550;
     cfg_damage := 30; cfg_speed := 35 # 10; cfg_attack_range := 75;
     cfg_attack_cooldown := 45; cfg_width := 60; cfg_height := 90;
     can_block := true; can_dodge := false; has_projectile := true;
     projectile_damage := 18; projectile_speed := 12;
     aggression := 8 # 10; patrol_range := 200;
     score_value := 5500; health_drop_chance := 35 # 100 |}.

Definition deathstroke : EnemyConfig :=
  {| name := "DEATHSTROKE"; is_boss := true; cfg_health := 750;
     cfg_damage := 38; cfg_speed := 55 # 10; cfg_attack_range := 95;
     cfg_attack_cooldown := 25; cfg_width := 70; cfg_height := 100;
     can_block := true; can_dodge := true; has_projectile := true;
     projectile_damage := 20; projectile_speed := 15;
     aggression := 95 # 100; patrol_range := 200;
     score_value := 8000; health_drop_chance := 5 # 10 |}.

Definition scarecrow_thug : EnemyConfig :=
  {| name := "Fear Thug"; is_boss := false; cfg_health := 55;
     cfg_damage := 10; cfg_speed := 3; cfg_attack_range := 50;
     cfg_attack_cooldown := 40; cfg_width := 50; cfg_height := 80;
     can_block := false; can_dodge := false; has_projectile := true;
     projectile_damage := 8; projectile_speed := 8;
     aggression := 55 # 100; patrol_range := 200;
     score_value := 120; health_drop_chance := 12 # 100 |}.

Definition twoface_goon : EnemyConfig :=
  {| name := "Two-Face Goon"; is_boss := false; cfg_health := 70;
     cfg_damage := 12; cfg_speed := 25 # 10; cfg_attack_range := 55;
     cfg_attack_cooldown := 42; cfg_width := 50; cfg_height := 80;
     can_block := false; can_dodge := false; has_projectile := false;
     projectile_damage := 0; projectile_speed := 0;
     aggression := 55 # 100; patrol_range := 200;
     score_value := 130; health_drop_chance := 12 # 100 |}.

Definition deathstroke_soldier : EnemyConfig :=
  {| name := "Deathstroke Soldier"; is_boss := false; cfg_health := 90;
     cfg_damage := 20; cfg_speed := 42 # 10; cfg_attack_range := 65;
     cfg_attack_cooldown := 32; cfg_width := 50; cfg_height := 80;
     can_block := false; can_dodge := true; has_projectile := true;
     projectile_damage := 12; projectile_speed := 14;
     aggression := 75 # 100; patrol_range := 200;
     score_value := 200; health_drop_chance := 18 # 100 |}.

(** [LevelConfig], with the keys of [ENEMY_CONFIGS] resolved; the level's
    number, name, colour and description only reach the drawing code. *)
Record LevelConfig := mkLevelConfig {
  boss_type : EnemyConfig;
  henchman_types : list EnemyConfig;
  num_henchmen : nat
}.

Definition LEVEL_CONFIGS : list LevelConfig :=
  [ mkLevelConfig joker [joker_thug] 8;
    mkLevelConfig bane [bane_mercenary] 6;
    mkLevelConfig scarecrow [scarecrow_thug] 10;
    mkLevelConfig twoface [twoface_goon; scarecrow_thug] 8;
    mkLevelConfig deathstroke [deathstroke_soldier] 12 ].

(** ** [Game.start_level]

    The readings of the random generator for one stage: for the henchman
    [i], the index that [random.choice] draws in the level's list of kinds
    and the value of [random.randint(-50, 50)]. *)
Record Spawn := mkSpawn {
  choice : nat -> nat;
  jitter : nat -> Z
}.

(** The henchman [i] of a level.  Its identity is [S i]; the boss has the
    identity 0. *)
Definition spawn_henchman (rolls : Spawn) (level : LevelConfig) (i : nat)
    : option Enemy :=
  match nth_error (henchman_types level) (choice rolls i) with
  | Some config =>
      let henchman_spacing :=
        (LEVEL_WIDTH - 500) / (Z.of_nat (num_henchmen level) + 1) in
      let x0 := 400 + Z.of_nat i * henchman_spacing + jitter rolls i in
      let y0 := GROUND_LEVEL - cfg_height config in
      Some (new_Enemy (S i) (inject_Z x0) (inject_Z y0) config)
  | None => None
  end.

Fixpoint spawn_henchmen (rolls : Spawn) (level : LevelConfig) (i n : nat)
    : option (list Enemy) :=
  match n with
  | O => Some []
  | S k =>
      match spawn_henchman rolls level i with
      | Some enemy =>
          match spawn_henchmen rolls level (S i) k with
          | Some rest => Some (enemy :: rest)
          | None => None
          end
      | None => None
      end
  end.

(** [Game.start_level]; [None] where Python raises [IndexError]: an index
    below [-len(LEVEL_CONFIGS)], or a draw outside the list of kinds. *)
Definition start_level (rolls : Spawn) (level_index : Z) (g : Game)
    : option Game :=
  let len := Z.of_nat (List.length LEVEL_CONFIGS) in
  if len <=? level_index then Some (set_game_state game_over (set_won true g))
  else
    let position := if level_index <? 0 then level_index + len
                    else level_index in
    if position <? 0 then None
    else
      match nth_error LEVEL_CONFIGS (Z.to_nat position) with
      | None => None
      | Some level =>
          let player0 := new_Player 100 (inject_Z (GROUND_LEVEL - 100)) in
          let player1 :=
            match game_state g with
            | playing => player0
            | _ => set_score 0 player0
            end in
          match spawn_henchmen rolls level 0 (num_henchmen level) with
          | None => None
          | Some henchmen =>
              let boss_config := boss_type level in
              let boss_x := LEVEL_WIDTH - 300 in
              let boss_y := GROUND_LEVEL - cfg_height boss_config in
              let the_boss :=
                new_Enemy 0 (inject_Z boss_x) (inject_Z boss_y) boss_config in
              Some (mkGame level_intro (won g) level_index 180
                      (Some (mkEncounter player1 (henchmen ++ [the_boss])
                               [] []))
                      (Some (oid the_boss)) 0)
          end
      end.

(** [start_level] as the orchestrator takes it; it is used where the index
    is in the table. *)
Definition start_level_of (rolls : Spawn) (level_index : Z) (g : Game)
    : Game :=
  match start_level rolls level_index g with
  | Some g' => g'
  | None => g
  end.

(** ** [Game.handle_events] *)

Inductive Key : Set :=
  | K_ESCAPE | K_RETURN | K_p | K_r | K_SPACE | K_z | K_j | K_x | K_k
  | K_c | K_l | K_other.

Inductive Event : Set :=
  | QUIT
  | KEYDOWN (key : Key)
  | other_event.

(** The game together with [self.running]. *)
Definition App : Type := (Game * bool)%type.

Section Events.

Variable start_level : Z -> Game -> Game.

(** The branch "Playing" of the key handler. *)
Definition playing_key (key : Key) (g : Game) : Game :=
  match encounter g with
  | None => g
  | Some enc =>
      match key with
      | K_p => set_game_state paused g
      | K_SPACE => set_encounter (Some (on_player jump enc)) g
      | K_z | K_j =>
          set_encounter (Some (on_player (fun p => snd (punch p)) enc)) g
      | K_x | K_k =>
          set_encounter (Some (on_player (fun p => snd (kick p)) enc)) g
      | K_c | K_l =>
          let r := throw_batarang (player enc) in
          let shots :=
            match fst r with
            | Some batarang => projectiles enc ++ [batarang]
            | None => projectiles enc
            end in
          set_encounter
            (Some (mkEncounter (snd r) (enemies enc) shots (pickups enc))) g
      | _ => g
      end
  end.

(** One event of the loop of [handle_events]. *)
Definition handle_event (app : App) (event : Event) : App :=
  let g := fst app in
  match event with
  | QUIT => (g, false)
  | KEYDOWN K_ESCAPE =>
      match game_state g with
      | playing => (set_game_state paused g, snd app)
      | _ => (g, false)
      end
  | KEYDOWN key =>
      match game_state g with
      | title =>
          match key with
          | K_RETURN => (start_level 0 g, snd app)
          | _ => app
          end
      | paused =>
          match key with
          | K_p => (set_game_state playing g, snd app)
          | _ => app
          end
      | game_over =>
          match key with
          | K_r => (start_level 0 g, snd app)
          | _ => app
          end
      | playing => (playing_key key g, snd app)
      | level_intro => app
      end
  | other_event => app
  end.

Definition handle_events (events : list Event) (app : App) : App :=
  fold_left handle_event events app.

End Events.

(** ** Samples and predicates for the stage and the game states *)

(** What [start_level] gives every enemy. *)
Definition fresh_enemy (e : Enemy) : Prop :=
  alive e = true /\
  health (e_ent e) = cfg_health (config e) /\
  max_health (e_ent e) = cfg_health (config e) /\
  0 < health (e_ent e) /\
  invincibility_frames (e_ent e) = 0 /\
  (y (e_ent e) + inject_Z (height (e_ent e)) == inject_Z GROUND_LEVEL)%Q /\
  (0 <= x (e_ent e))%Q /\
  (x (e_ent e) <= inject_Z (LEVEL_WIDTH - width (e_ent e)))%Q.

(** The game as [Game.__init__] leaves it. *)
Definition new_Game : Game := mkGame title false 0 0 None None 0.

(** Draws that always take the first kind of the list and add nothing to
    the place. *)
Definition steady : Spawn := mkSpawn (fun _ => 0%nat) (fun _ => 0).

(** The ticks of a list of readings of the keys and of the random
    generator. *)
Definition game_ticks (colliderect : Rect -> Rect -> bool)
    (start_level : Z -> Game -> Game)
    (inputs : list (Keys * (nat -> Dice))) (g : Game) : Game :=
  fold_left (fun g0 kd => Game_update colliderect start_level (fst kd)
                            (snd kd) g0) inputs g.

(** The events with no effect on a paused game: any but closing the
    window and the keys Escape and P. *)
Definition passive (event : Event) : bool :=
  match event with
  | QUIT | KEYDOWN K_ESCAPE | KEYDOWN K_p => false
  | _ => true
  end.

(** The events with no effect during the level intro: any but closing the
    window and Escape. *)
Definition ignored_in_intro (event : Event) : bool :=
  match event with
  | QUIT | KEYDOWN K_ESCAPE => false
  | _ => true
  end.

(** The player's part of a tick. *)
Definition player_tick (keys : Keys) (p : Player) : Player :=
  Player_update (handle_input keys p).

End Arkham2D.

(** * Second variant: [batman_arkham_shadows.py] *)

Module Shadows.

(** ** Configuration: [GameConfig] and [PlayerStats] *)

Definition GRAVITY : Q := 8 # 10.
Definition GROUND_LEVEL : Z := 580.
Definition LEVEL_WIDTH : Z := 6000.

Definition MAX_HEALTH : Z := 150.
Definition MAX_LIVES : Z := 3.
Definition MOVE_SPEED : Q := 7.
Definition JUMP_POWER : Q := -19.
Definition DOUBLE_JUMP_POWER : Q := -16.
Definition MAX_JUMPS : Z := 2.
Definition PUNCH_DAMAGE : Z := 35.
Definition KICK_DAMAGE : Z := 45.
Definition BATARANG_DAMAGE : Z := 25.
Definition PUNCH_RANGE : Z := 75.
Definition KICK_RANGE : Z := 90.
Definition BATARANG_SPEED : Q := 18.
Definition BATARANG_MAX_DISTANCE : Z := 600.
Definition PUNCH_COOLDOWN : Z := 10.
Definition KICK_COOLDOWN : Z := 18.
Definition BATARANG_COOLDOWN : Z := 30.
Definition HIT_INVINCIBILITY : Z := 45.
Definition COMBO_WINDOW : Z := 100.
Definition COMBO_DAMAGE_BONUS : Q := 15 # 100.
Definition MAX_COMBO_MULTIPLIER : Q := 25 # 10.
Definition RESPAWN_INVINCIBILITY : Z := 120.

(** ** States *)

(** [EntityState.SPECIAL] is [SPECIAL_STATE] here, [AttackType.SPECIAL]
    keeps its name. *)
Inductive EntityState : Set :=
  | IDLE | RUNNING | JUMPING | FALLING | PUNCHING | KICKING | THROWING
  | BLOCKING | HIT | DEAD | SPECIAL_STATE.

Inductive AttackType : Set :=
  | NONE | PUNCH | KICK | BATARANG | PROJECTILE | SPECIAL.

Definition is_dead (s : EntityState) : bool :=
  match s with DEAD => true | _ => false end.

Definition is_blocking (s : EntityState) : bool :=
  match s with BLOCKING => true | _ => false end.

Definition is_none (a : AttackType) : bool :=
  match a with NONE => true | _ => false end.

(** ** [class Entity] *)

Record Entity := mkEntity {
  x : Q;
  y : Q;
  width : Z;
  height : Z;
  vx : Q;
  vy : Q;
  facing_right : bool;
  state : EntityState;
  health : Z;
  max_health : Z;
  invincibility : Z;
  attack_cooldown : Z;
  current_attack : AttackType;
  attack_frame : Z;
  anim_frame : Z;
  anim_timer : Z
}.

(** [Entity.__init__]. *)
Definition new_Entity (x0 y0 : Q) (w h : Z) : Entity :=
  {| x := x0; y := y0; width := w; height := h; vx := 0; vy := 0;
     facing_right := true; state := IDLE; health := 100; max_health := 100;
     invincibility := 0; attack_cooldown := 0; current_attack := NONE;
     attack_frame := 0; anim_frame := 0; anim_timer := 0 |}.

(** Assignments to one attribute. *)
Definition set_x (v : Q) (e : Entity) : Entity :=
  mkEntity v (y e) (width e) (height e) (vx e) (vy e) (facing_right e)
    (state e) (health e) (max_health e) (invincibility e) (attack_cooldown e)
    (current_attack e) (attack_frame e) (anim_frame e) (anim_timer e).
Definition set_y (v : Q) (e : Entity) : Entity :=
  mkEntity (x e) v (width e) (height e) (vx e) (vy e) (facing_right e)
    (state e) (health e) (max_health e) (invincibility e) (attack_cooldown e)
    (current_attack e) (attack_frame e) (anim_frame e) (anim_timer e).
Definition set_vx (v : Q) (e : Entity) : Entity :=
  mkEntity (x e) (y e) (width e) (height e) v (vy e) (facing_right e)
    (state e) (health e) (max_health e) (invincibility e) (attack_cooldown e)
    (current_attack e) (attack_frame e) (anim_frame e) (anim_timer e).
Definition set_vy (v : Q) (e : Entity) : Entity :=
  mkEntity (x e) (y e) (width e) (height e) (vx e) v (facing_right e)
    (state e) (health e) (max_health e) (invincibility e) (attack_cooldown e)
    (current_attack e) (attack_frame e) (anim_frame e) (anim_timer e).
Definition set_facing_right (v : bool) (e : Entity) : Entity :=
  mkEntity (x e) (y e) (width e) (height e) (vx e) (vy e) v
    (state e) (health e) (max_health e) (invincibility e) (attack_cooldown e)
    (current_attack e) (attack_frame e) (anim_frame e) (anim_timer e).
Definition set_state (v : EntityState) (e : Entity) : Entity :=
  mkEntity (x e) (y e) (width e) (height e) (vx e) (vy e) (facing_right e)
    v (health e) (max_health e) (invincibility e) (attack_cooldown e)
    (current_attack e) (attack_frame e) (anim_frame e) (anim_timer e).
Definition set_health (v : Z) (e : Entity) : Entity :=
  mkEntity (x e) (y e) (width e) (height e) (vx e) (vy e) (facing_right e)
    (state e) v (max_health e) (invincibility e) (attack_cooldown e)
    (current_attack e) (attack_frame e) (anim_frame e) (anim_timer e).
Definition set_max_health (v : Z) (e : Entity) : Entity :=
  mkEntity (x e) (y e) (width e) (height e) (vx e) (vy e) (facing_right e)
    (state e) (health e) v (invincibility e) (attack_cooldown e)
    (current_attack e) (attack_frame e) (anim_frame e) (anim_timer e).
Definition set_invincibility (v : Z) (e : Entity) : Entity :=
  mkEntity (x e) (y e) (width e) (height e) (vx e) (vy e) (facing_right e)
    (state e) (health e) (max_health e) v (attack_cooldown e)
    (current_attack e) (attack_frame e) (anim_frame e) (anim_timer e).
Definition set_attack_cooldown (v : Z) (e : Entity) : Entity :=
  mkEntity (x e) (y e) (width e) (height e) (vx e) (vy e) (facing_right e)
    (state e) (health e) (max_health e) (invincibility e) v
    (current_attack e) (attack_frame e) (anim_frame e) (anim_timer e).
Definition set_current_attack (v : AttackType) (e : Entity) : Entity :=
  mkEntity (x e) (y e) (width e) (height e) (vx e) (vy e) (facing_right e)
    (state e) (health e) (max_health e) (invincibility e) (attack_cooldown e)
    v (attack_frame e) (anim_frame e) (anim_timer e).
Definition set_attack_frame (v : Z) (e : Entity) : Entity :=
  mkEntity (x e) (y e) (width e) (height e) (vx e) (vy e) (facing_right e)
    (state e) (health e) (max_health e) (invincibility e) (attack_cooldown e)
    (current_attack e) v (anim_frame e) (anim_timer e).
Definition set_anim (frame timer : Z) (e : Entity) : Entity :=
  mkEntity (x e) (y e) (width e) (height e) (vx e) (vy e) (facing_right e)
    (state e) (health e) (max_health e) (invincibility e) (attack_cooldown e)
    (current_attack e) (attack_frame e) frame timer.

(** [Entity.get_rect], [is_on_ground], [apply_gravity]. *)
Definition Entity_get_rect (e : Entity) : Rect :=
  mkRect (x e) (y e) (width e) (height e).

Definition is_on_ground (e : Entity) : bool :=
  Qle_bool (inject_Z GROUND_LEVEL) (y e + inject_Z (height e))%Q.

Definition apply_gravity (e : Entity) : Entity :=
  let v := (vy e + GRAVITY)%Q in
  set_vy (if Qltb 20 v then 20%Q else v) e.

(** [Entity.take_damage]. *)
Definition Entity_take_damage (amount : Z) (knockback_dir : Z) (e : Entity)
    : Entity :=
  if 0 <? invincibility e then e
  else
    let e1 := set_health (health e - amount) e in
    let e2 := set_invincibility 30 e1 in
    let e3 := set_vx (inject_Z knockback_dir * 5)%Q e2 in
    if health e3 <=? 0 then set_state DEAD (set_health 0 e3) else e3.

(** Clamping of [x] to the level: [max(0, min(x, LEVEL_WIDTH - width))]. *)
Definition keep_in_level (e : Entity) : Entity :=
  set_x (Qmax 0 (Qmin (x e) (inject_Z (LEVEL_WIDTH - width e)))) e.

(** ** [class Player] *)

Record Player := mkPlayer {
  p_ent : Entity;
  lives : Z;
  jumps_left : Z;
  combo : Z;
  combo_timer : Z;
  score : Z;
  punch_cd : Z;
  kick_cd : Z;
  batarang_cd : Z;
  attack_duration : Z;
  checkpoint_x : Q;
  checkpoint_y : Q;
  last_safe_x : Q;
  last_safe_y : Q
}.

(** [Player.__init__]. *)
Definition new_Player (x0 y0 : Q) : Player :=
  {| p_ent := set_health MAX_HEALTH (set_max_health MAX_HEALTH
                (new_Entity x0 y0 60 95));
     lives := MAX_LIVES; jumps_left := MAX_JUMPS;
     combo := 0; combo_timer := 0; score := 0;
     punch_cd := 0; kick_cd := 0; batarang_cd := 0; attack_duration := 0;
     checkpoint_x := x0; checkpoint_y := y0;
     last_safe_x := x0; last_safe_y := y0 |}.

Definition with_ent (f : Entity -> Entity) (p : Player) : Player :=
  mkPlayer (f (p_ent p)) (lives p) (jumps_left p) (combo p) (combo_timer p)
    (score p) (punch_cd p) (kick_cd p) (batarang_cd p) (attack_duration p)
    (checkpoint_x p) (checkpoint_y p) (last_safe_x p) (last_safe_y p).
Definition set_lives (v : Z) (p : Player) : Player :=
  mkPlayer (p_ent p) v (jumps_left p) (combo p) (combo_timer p)
    (score p) (punch_cd p) (kick_cd p) (batarang_cd p) (attack_duration p)
    (checkpoint_x p) (checkpoint_y p) (last_safe_x p) (last_safe_y p).
Definition set_jumps_left (v : Z) (p : Player) : Player :=
  mkPlayer (p_ent p) (lives p) v (combo p) (combo_timer p)
    (score p) (punch_cd p) (kick_cd p) (batarang_cd p) (attack_duration p)
    (checkpoint_x p) (checkpoint_y p) (last_safe_x p) (last_safe_y p).
Definition set_combo (v : Z) (p : Player) : Player :=
  mkPlayer (p_ent p) (lives p) (jumps_left p) v (combo_timer p)
    (score p) (punch_cd p) (kick_cd p) (batarang_cd p) (attack_duration p)
    (checkpoint_x p) (checkpoint_y p) (last_safe_x p) (last_safe_y p).
Definition set_combo_timer (v : Z) (p : Player) : Player :=
  mkPlayer (p_ent p) (lives p) (jumps_left p) (combo p) v
    (score p) (punch_cd p) (kick_cd p) (batarang_cd p) (attack_duration p)
    (checkpoint_x p) (checkpoint_y p) (last_safe_x p) (last_safe_y p).
Definition set_score (v : Z) (p : Player) : Player :=
  mkPlayer (p_ent p) (lives p) (jumps_left p) (combo p) (combo_timer p)
    v (punch_cd p) (kick_cd p) (batarang_cd p) (attack_duration p)
    (checkpoint_x p) (checkpoint_y p) (last_safe_x p) (last_safe_y p).
Definition set_punch_cd (v : Z) (p : Player) : Player :=
  mkPlayer (p_ent p) (lives p) (jumps_left p) (combo p) (combo_timer p)
    (score p) v (kick_cd p) (batarang_cd p) (attack_duration p)
    (checkpoint_x p) (checkpoint_y p) (last_safe_x p) (last_safe_y p).
Definition set_kick_cd (v : Z) (p : Player) : Player :=
  mkPlayer (p_ent p) (lives p) (jumps_left p) (combo p) (combo_timer p)
    (score p) (punch_cd p) v (batarang_cd p) (attack_duration p)
    (checkpoint_x p) (checkpoint_y p) (last_safe_x p) (last_safe_y p).
Definition set_batarang_cd (v : Z) (p : Player) : Player :=
  mkPlayer (p_ent p) (lives p) (jumps_left p) (combo p) (combo_timer p)
    (score p) (punch_cd p) (kick_cd p) v (attack_duration p)
    (checkpoint_x p) (checkpoint_y p) (last_safe_x p) (last_safe_y p).
Definition set_attack_duration (v : Z) (p : Player) : Player :=
  mkPlayer (p_ent p) (lives p) (jumps_left p) (combo p) (combo_timer p)
    (score p) (punch_cd p) (kick_cd p) (batarang_cd p) v
    (checkpoint_x p) (checkpoint_y p) (last_safe_x p) (last_safe_y p).
Definition set_last_safe (sx sy : Q) (p : Player) : Player :=
  mkPlayer (p_ent p) (lives p) (jumps_left p) (combo p) (combo_timer p)
    (score p) (punch_cd p) (kick_cd p) (batarang_cd p) (attack_duration p)
    (checkpoint_x p) (checkpoint_y p) sx sy.

(** [Player.update_checkpoint]. *)
Definition update_checkpoint (p : Player) : Player :=
  if is_on_ground (p_ent p) && negb (is_dead (state (p_ent p)))
  then set_last_safe (x (p_ent p)) (y (p_ent p)) p
  else p.

(** [Player.respawn]: the result and the player afterwards. *)
Definition respawn (p : Player) : bool * Player :=
  if lives p <=? 0 then (false, p)
  else
    let p1 := set_lives (lives p - 1) p in
    let p2 := with_ent (fun b =>
                set_invincibility RESPAWN_INVINCIBILITY
                  (set_state IDLE
                     (set_vy 0 (set_vx 0
                        (set_y (last_safe_y p1) (set_x (last_safe_x p1)
                           (set_health (max_health b) b))))))) p1 in
    let p3 := set_combo_timer 0 (set_combo 0 p2) in
    let p4 := with_ent (set_current_attack NONE) p3 in
    (true, set_attack_duration 0 p4).

(** The keys read by [handle_input]. *)
Record Keys := mkKeys { key_left : bool; key_right : bool }.

(** [Player.handle_input] (it always returns [None]). *)
Definition handle_input (keys : Keys) (p : Player) : Player :=
  if is_dead (state (p_ent p)) then p
  else
    let e := p_ent p in
    let em :=
      if key_left keys then
        (set_facing_right false (set_vx (- MOVE_SPEED)%Q e), true)
      else if key_right keys then
        (set_facing_right true (set_vx MOVE_SPEED e), true)
      else
        let v := (vx e * (8 # 10))%Q in
        (set_vx (if Qltb (Qabs v) (5 # 10) then 0%Q else v) e, false) in
    let e1 := fst em in
    let moving := snd em in
    let e2 :=
      match state e1 with
      | PUNCHING | KICKING | THROWING | JUMPING | FALLING => e1
      | _ => set_state (if moving then RUNNING else IDLE) e1
      end in
    let p1 := with_ent (fun _ => e2) p in
    let p2 := if 0 <? punch_cd p1
              then set_punch_cd (punch_cd p1 - 1) p1 else p1 in
    let p3 := if 0 <? kick_cd p2
              then set_kick_cd (kick_cd p2 - 1) p2 else p2 in
    let p4 := if 0 <? batarang_cd p3
              then set_batarang_cd (batarang_cd p3 - 1) p3 else p3 in
    let p5 :=
      if 0 <? attack_duration p4 then
        let q := set_attack_duration (attack_duration p4 - 1) p4 in
        if attack_duration q =? 0
        then with_ent (set_current_attack NONE) q else q
      else p4 in
    if 0 <? combo_timer p5
    then set_combo_timer (combo_timer p5 - 1) p5
    else set_combo 0 p5.

(** [Player.jump]. *)
Definition jump (p : Player) : Player :=
  if 0 <? jumps_left p then
    let power := if jumps_left p =? MAX_JUMPS
                 then JUMP_POWER else DOUBLE_JUMP_POWER in
    let p1 := with_ent (set_vy power) p in
    let p2 := set_jumps_left (jumps_left p1 - 1) p1 in
    with_ent (set_state JUMPING) p2
  else p.

(** [Player.punch], [Player.kick], [Player.throw_batarang]. *)
Definition punch (p : Player) : bool * Player :=
  if (punch_cd p <=? 0) && (attack_duration p <=? 0) then
    let p1 := set_punch_cd PUNCH_COOLDOWN p in
    let p2 := with_ent (set_current_attack PUNCH) p1 in
    let p3 := set_attack_duration 12 p2 in
    (true, with_ent (set_state PUNCHING) p3)
  else (false, p).

Definition kick (p : Player) : bool * Player :=
  if (kick_cd p <=? 0) && (attack_duration p <=? 0) then
    let p1 := set_kick_cd KICK_COOLDOWN p in
    let p2 := with_ent (set_current_attack KICK) p1 in
    let p3 := set_attack_duration 16 p2 in
    (true, with_ent (set_state KICKING) p3)
  else (false, p).

Definition throw_batarang (p : Player) : option Projectile * Player :=
  if batarang_cd p <=? 0 then
    let p1 := set_batarang_cd BATARANG_COOLDOWN p in
    let p2 := with_ent (set_current_attack BATARANG) p1 in
    let p3 := set_attack_duration 8 p2 in
    let p4 := with_ent (set_state THROWING) p3 in
    let e := p_ent p4 in
    let direction : Z := if facing_right e then 1 else -1 in
    (Some (new_Projectile
             (x e + inject_Z (if facing_right e then width e else 0))%Q
             (y e + inject_Z (height e / 3))%Q
             (BATARANG_SPEED * inject_Z direction)%Q 0%Q
             BATARANG_DAMAGE true BATARANG_MAX_DISTANCE), p4)
  else (None, p).

(** [Player.get_attack_rect]. *)
Definition Player_get_attack_rect (p : Player) : option Rect :=
  let e := p_ent p in
  if is_none (current_attack e) || (attack_duration p <=? 0) then None
  else
    let range :=
      match current_attack e with
      | PUNCH => Some PUNCH_RANGE
      | KICK => Some KICK_RANGE
      | _ => None
      end in
    match range with
    | None => None
    | Some r =>
        if facing_right e then
          Some (mkRect (x e + inject_Z (width e))%Q (y e + 15)%Q
                  r (height e - 30))
        else
          Some (mkRect (x e - inject_Z r)%Q (y e + 15)%Q r (height e - 30))
    end.

(** [Player.get_damage]. *)
Definition get_damage (p : Player) : Z :=
  let base := match current_attack (p_ent p) with
              | PUNCH => PUNCH_DAMAGE
              | _ => KICK_DAMAGE
              end in
  let mult := Qmin (1 + inject_Z (combo p) * COMBO_DAMAGE_BONUS)%Q
                MAX_COMBO_MULTIPLIER in
  int_of_float (inject_Z base * mult)%Q.

(** [Player.register_hit]. *)
Definition register_hit (p : Player) : Player :=
  set_combo_timer COMBO_WINDOW (set_combo (combo p + 1) p).

(** [Player.take_damage]. *)
Definition Player_take_damage (amount : Z) (knockback_dir : Z) (p : Player)
    : Player :=
  if 0 <? invincibility (p_ent p) then p
  else
    let p1 := with_ent (Entity_take_damage amount knockback_dir) p in
    let p2 := set_combo_timer 0 (set_combo 0 p1) in
    with_ent (set_invincibility HIT_INVINCIBILITY) p2.

(** [Player.update]. *)
Definition Player_update (p : Player) : Player :=
  let e0 := apply_gravity (p_ent p) in
  let e1 := set_y (y e0 + vy e0)%Q (set_x (x e0 + vx e0)%Q e0) in
  let landed := Qltb (inject_Z GROUND_LEVEL) (y e1 + inject_Z (height e1))%Q in
  let e2 :=
    if landed then
      let g := set_vy 0 (set_y (inject_Z (GROUND_LEVEL - height e1)) e1) in
      match state g with
      | JUMPING | FALLING => set_state IDLE g
      | _ => g
      end
    else e1 in
  let jumps := if landed then MAX_JUMPS else jumps_left p in
  let e3 :=
    if Qltb (vy e2) 0 then set_state JUMPING e2
    else if Qltb 2 (vy e2) && negb (is_on_ground e2)
         then set_state FALLING e2 else e2 in
  let e4 := keep_in_level e3 in
  let e5 := if 0 <? invincibility e4
            then set_invincibility (invincibility e4 - 1) e4 else e4 in
  let p1 := set_jumps_left jumps (with_ent (fun _ => e5) p) in
  let p2 := if anim_timer (p_ent p1) =? 0 then update_checkpoint p1 else p1 in
  let timer := anim_timer (p_ent p2) + 1 in
  with_ent (fun b =>
              if 8 <=? timer
              then set_anim ((anim_frame b + 1) mod 4) 0 b
              else set_anim (anim_frame b) timer b) p2.

(** ** Villains

    [VILLAIN_CONFIGS] is a module-level dictionary of mutable
    [VillainConfig] objects.  A [Villain] stores in [self.config] a
    reference to the entry of its type, [VILLAIN_CONFIGS[villain_type]]:
    every villain of one type reads and writes the same object.  The
    dictionary is therefore a store, [Configs], that is threaded through the
    code; a villain reaches its configuration through its [villain_type]. *)

Inductive VillainType : Set :=
  | TWOFACE | JOKER | PENGUIN | SCARECROW | CROC | BANE | DEATHSTROKE.


Record VillainConfig := mkVillainConfig {
  name : string;
  display_name : string;
  territory_name : string;
  cfg_health : Z;
  damage : Z;
  speed : Q;
  attack_range : Z;
  cfg_attack_cooldown : Z;
  cfg_width : Z;
  cfg_height : Z;
  can_block : bool;
  can_dodge : bool;
  can_counter : bool;
  has_projectile : bool;
  projectile_damage : Z;
  has_special : bool;
  special_damage : Z;
  phases : Z;
  aggression : Q;
  score_value : Z;
  num_henchmen : Z
}.

Definition Configs : Type := VillainType -> VillainConfig.

(** [VILLAIN_CONFIGS] as the module defines it. *)
Definition VILLAIN_CONFIGS : Configs := fun t =>
  match t with
  | TWOFACE =>
    {| name := "twoface"; display_name := "TWO-FACE";
       territory_name := "THE COURTS";
       cfg_health := 500; damage := 25; speed := 35 # 10;
       attack_range := 80; cfg_attack_cooldown := 40;
       cfg_width := 70; cfg_height := 100;
       can_block := true; can_dodge := false;
       can_counter := false; has_projectile := true;
       projectile_damage := 18; has_special := false;
       special_damage := 0; phases := 1;
       aggression := 6 # 10; score_value := 5000;
       num_henchmen := 8 |}
  | JOKER =>
    {| name := "joker"; display_name := "THE JOKER";
       territory_name := "ACE CHEMICALS";
       cfg_health := 550; damage := 22; speed := 4;
       attack_range := 75; cfg_attack_cooldown := 35;
       cfg_width := 65; cfg_height := 100;
       can_block := false; can_dodge := true;
       can_counter := false; has_projectile := true;
       projectile_damage := 15; has_special := true;
       special_damage := 0; phases := 1;
       aggression := 7 # 10; score_value := 6000;
       num_henchmen := 10 |}
  | PENGUIN =>
    {| name := "penguin"; display_name := "THE PENGUIN";
       territory_name := "ICEBERG LOUNGE";
       cfg_health := 450; damage := 20; speed := 25 # 10;
       attack_range := 120; cfg_attack_cooldown := 45;
       cfg_width := 70; cfg_height := 85;
       can_block := false; can_dodge := false;
       can_counter := false; has_projectile := true;
       projectile_damage := 20; has_special := false;
       special_damage := 0; phases := 1;
       aggression := 5 # 10; score_value := 5500;
       num_henchmen := 10 |}
  | SCARECROW =>
    {| name := "scarecrow"; display_name := "SCARECROW";
       territory_name := "ARKHAM ASYLUM";
       cfg_health := 480; damage := 24; speed := 38 # 10;
       attack_range := 90; cfg_attack_cooldown := 38;
       cfg_width := 65; cfg_height := 105;
       can_block := false; can_dodge := true;
       can_counter := false; has_projectile := true;
       projectile_damage := 12; has_special := true;
       special_damage := 30; phases := 1;
       aggression := 65 # 100; score_value := 6000;
       num_henchmen := 9 |}
  | CROC =>
    {| name := "croc"; display_name := "KILLER CROC";
       territory_name := "GOTHAM SEWERS";
       cfg_health := 900; damage := 45; speed := 22 # 10;
       attack_range := 100; cfg_attack_cooldown := 55;
       cfg_width := 90; cfg_height := 120;
       can_block := true; can_dodge := false;
       can_counter := false; has_projectile := false;
       projectile_damage := 0; has_special := true;
       special_damage := 60; phases := 1;
       aggression := 8 # 10; score_value := 7000;
       num_henchmen := 6 |}
  | BANE =>
    {| name := "bane"; display_name := "BANE";
       territory_name := "SANTA PRISCA";
       cfg_health := 1000; damage := 50; speed := 25 # 10;
       attack_range := 110; cfg_attack_cooldown := 50;
       cfg_width := 95; cfg_height := 125;
       can_block := true; can_dodge := false;
       can_counter := false; has_projectile := false;
       projectile_damage := 0; has_special := true;
       special_damage := 70; phases := 2;
       aggression := 85 # 100; score_value := 8000;
       num_henchmen := 7 |}
  | DEATHSTROKE =>
    {| name := "deathstroke"; display_name := "DEATHSTROKE";
       territory_name := "MILITIA HQ";
       cfg_health := 850; damage := 40; speed := 55 # 10;
       attack_range := 100; cfg_attack_cooldown := 25;
       cfg_width := 75; cfg_height := 105;
       can_block := true; can_dodge := true;
       can_counter := true; has_projectile := true;
       projectile_damage := 25; has_special := false;
       special_damage := 0; phases := 3;
       aggression := 95 # 100; score_value := 10000;
       num_henchmen := 12 |}
  end.



Inductive AIState : Set := patrol | chase | attack | retreat.

(** [class Villain].  [self.config] is [configs (villain_type v)]. *)
Record Villain := mkVillain {
  v_ent : Entity;
  villain_type : VillainType;
  spawn_x : Q;
  ai_state : AIState;
  ai_timer : Z;
  special_cooldown : Z;
  projectile_cooldown : Z;
  phase : Z;
  phase_triggered : bool;
  coin_flip_timer : Z;
  erratic_timer : Z;
  venom_active : bool;
  counter_window : Z
}.

(** [Villain.__init__], reading the configuration in the store. *)
Definition new_Villain (configs : Configs) (x0 y0 : Q) (t : VillainType)
    : Villain :=
  let c := configs t in
  {| v_ent := set_health (cfg_health c) (set_max_health (cfg_health c)
                (new_Entity x0 y0 (cfg_width c) (cfg_height c)));
     villain_type := t; spawn_x := x0; ai_state := patrol; ai_timer := 0;
     special_cooldown := 0; projectile_cooldown := 0;
     phase := 1; phase_triggered := false;
     coin_flip_timer := 0; erratic_timer := 0; venom_active := false;
     counter_window := 0 |}.

Definition with_v_ent (f : Entity -> Entity) (v : Villain) : Villain :=
  mkVillain (f (v_ent v)) (villain_type v) (spawn_x v) (ai_state v)
    (ai_timer v) (special_cooldown v) (projectile_cooldown v) (phase v)
    (phase_triggered v) (coin_flip_timer v) (erratic_timer v)
    (venom_active v) (counter_window v).



(** [Villain.get_attack_rect]. *)
Definition Villain_get_attack_rect (configs : Configs) (v : Villain)
    : option Rect :=
  let b := v_ent v in
  let range := attack_range (configs (villain_type v)) in
  if is_none (current_attack b) || (attack_frame b <? 5) then None
  else if facing_right b then
    Some (mkRect (x b + inject_Z (width b))%Q (y b + 20)%Q range
            (height b - 40))
  else
    Some (mkRect (x b - inject_Z range)%Q (y b + 20)%Q range (height b - 40)).

(** [Villain.take_damage]. *)
Definition Villain_take_damage (configs : Configs) (amount : Z)
    (knockback_dir : Z) (v : Villain) : Villain :=
  let amount :=
    if is_blocking (state (v_ent v)) && can_block (configs (villain_type v))
    then amount / 3 else amount in
  with_v_ent (Entity_take_damage amount knockback_dir) v.

(** What a hit of the villain costs the player, as the orchestrator reads
    it. *)
Definition Villain_damage (configs : Configs) (v : Villain) : Z :=
  match current_attack (v_ent v) with
  | SPECIAL => special_damage (configs (villain_type v))
  | _ => damage (configs (villain_type v))
  end.

(** ** [class Henchman]

    [max_health] is [60 + hash(villain_type.value) % 40], where the hash of
    a string changes from one run of the interpreter to the next; it is the
    argument [h] of the constructor. *)

Record Henchman := mkHenchman {
  h_ent : Entity;
  h_villain_type : VillainType;
  h_damage : Z;
  h_speed : Q;
  h_attack_range : Z;
  h_spawn_x : Q;
  h_ai_timer : Z;
  h_score_value : Z
}.

Definition new_Henchman (h : Z) (x0 y0 : Q) (t : VillainType) : Henchman :=
  {| h_ent := set_health (60 + h mod 40) (set_max_health (60 + h mod 40)
                (new_Entity x0 y0 45 75));
     h_villain_type := t; h_damage := 12; h_speed := 25 # 10;
     h_attack_range := 55; h_spawn_x := x0; h_ai_timer := 0;
     h_score_value := 150 |}.

Definition with_h_ent (f : Entity -> Entity) (h : Henchman) : Henchman :=
  mkHenchman (f (h_ent h)) (h_villain_type h) (h_damage h) (h_speed h)
    (h_attack_range h) (h_spawn_x h) (h_ai_timer h) (h_score_value h).

(** [Henchman.get_attack_rect]. *)
Definition Henchman_get_attack_rect (h : Henchman) : option Rect :=
  let b := h_ent h in
  if is_none (current_attack b) || (attack_frame b <? 4) then None
  else if facing_right b then
    Some (mkRect (x b + inject_Z (width b))%Q (y b + 15)%Q
            (h_attack_range h) (height b - 30))
  else
    Some (mkRect (x b - inject_Z (h_attack_range h))%Q (y b + 15)%Q
            (h_attack_range h) (height b - 30)).

(** ** [class HealthPickup] *)

Record HealthPickup := mkHealthPickup {
  hp_x : Q;
  hp_y : Q;
  hp_width : Z;
  hp_height : Z;
  heal : Z;
  hp_active : bool;
  lifetime : Z
}.

Definition new_HealthPickup (x0 y0 : Q) : HealthPickup :=
  {| hp_x := x0; hp_y := y0; hp_width := 25; hp_height := 25;
     heal := 25; hp_active := true; lifetime := 600 |}.

Definition HealthPickup_update (k : HealthPickup) : HealthPickup :=
  let l := lifetime k - 1 in
  mkHealthPickup (hp_x k) (hp_y k) (hp_width k) (hp_height k) (heal k)
    (if l <=? 0 then false else hp_active k) l.

Definition HealthPickup_get_rect (k : HealthPickup) : Rect :=
  mkRect (hp_x k) (hp_y k) (hp_width k) (hp_height k).

(** ** The stage: the second half of [Game.update] *)

Record Arena := mkArena {
  player : Player;
  villain : option Villain;
  henchmen : list Henchman;
  projectiles : list Projectile;
  pickups : list HealthPickup
}.

Definition villain_alive (v : Villain) : bool :=
  negb (is_dead (state (v_ent v))).
Definition henchman_alive (h : Henchman) : bool :=
  negb (is_dead (state (h_ent h))).

(** [Projectile.get_rect] of this variant. *)
Definition Projectile_get_rect (p : Projectile) : Rect :=
  mkRect (proj_x p - 10)%Q (proj_y p - 5)%Q (proj_width p) (proj_height p).

Definition direction_of (v : Q) : Z := if Qltb 0 v then 1 else -1.
Definition facing_direction (b : Entity) : Z :=
  if facing_right b then 1 else -1.

Section Collisions.

Variable colliderect : Rect -> Rect -> bool.
Variable configs : Configs.

(** The henchmen loop of a player projectile: the first living henchman
    overlapped takes the damage and the loop breaks. *)
Fixpoint projectile_hits_henchmen (prect : Rect) (dmg d : Z)
    (hs : list Henchman) : bool * list Henchman :=
  match hs with
  | [] => (false, [])
  | h :: rest =>
      if henchman_alive h && colliderect prect (Entity_get_rect (h_ent h))
      then (true, with_h_ent (Entity_take_damage dmg d) h :: rest)
      else
        let r := projectile_hits_henchmen prect dmg d rest in
        (fst r, h :: snd r)
  end.

(** Does the projectile hit the villain?  It is tested before the
    henchmen. *)
Definition projectile_meets_villain (prect : Rect) (v : option Villain)
    : bool :=
  match v with
  | Some w => villain_alive w && colliderect prect (Entity_get_rect (v_ent w))
  | None => false
  end.

(** One iteration of [for p in self.projectiles[:]]; [kept] is the part of
    the list already gone through. *)
Definition resolve_projectile (a : Arena) (kept : list Projectile)
    (p : Projectile) : Arena * list Projectile :=
  let p := Projectile_update 12 p in
  if negb (proj_active p) then (a, kept)
  else
    let prect := Projectile_get_rect p in
    let d := direction_of (velocity_x p) in
    if owner_is_player p then
      if projectile_meets_villain prect (villain a) then
        (mkArena (register_hit (player a))
           (option_map (Villain_take_damage configs (proj_damage p) d)
              (villain a))
           (henchmen a) (projectiles a) (pickups a),
         kept ++ [Projectile_deactivate p])
      else
        let r := projectile_hits_henchmen prect (proj_damage p) d
                   (henchmen a) in
        if fst r then
          (mkArena (register_hit (player a)) (villain a) (snd r)
             (projectiles a) (pickups a),
           kept ++ [Projectile_deactivate p])
        else (a, kept ++ [p])
    else if colliderect prect (Entity_get_rect (p_ent (player a))) then
      (mkArena (Player_take_damage (proj_damage p) d (player a)) (villain a)
         (henchmen a) (projectiles a) (pickups a),
       kept ++ [Projectile_deactivate p])
    else (a, kept ++ [p]).

Fixpoint projectiles_loop (a : Arena) (kept copy : list Projectile)
    : Arena * list Projectile :=
  match copy with
  | [] => (a, kept)
  | p :: rest =>
      let r := resolve_projectile a kept p in
      projectiles_loop (fst r) (snd r) rest
  end.

(** Phase 1: "Update projectiles". *)
Definition update_projectiles (a : Arena) : Arena :=
  let r := projectiles_loop a [] (projectiles a) in
  mkArena (player (fst r)) (villain (fst r)) (henchmen (fst r)) (snd r)
    (pickups (fst r)).

(** The player's melee against the villain. *)
Definition melee_villain (atk_rect : Rect) (pl : Player) (v : option Villain)
    : Player * option Villain :=
  match v with
  | Some w =>
      if villain_alive w && colliderect atk_rect (Entity_get_rect (v_ent w))
      then (register_hit pl,
            Some (Villain_take_damage configs (get_damage pl)
                    (facing_direction (p_ent pl)) w))
      else (pl, v)
  | None => (pl, v)
  end.

(** The player's melee against the henchmen. *)
Fixpoint melee_henchmen (atk_rect : Rect) (pl : Player) (hs : list Henchman)
    : Player * list Henchman :=
  match hs with
  | [] => (pl, [])
  | h :: rest =>
      if henchman_alive h
         && colliderect atk_rect (Entity_get_rect (h_ent h))
      then
        let h' := with_h_ent (Entity_take_damage (get_damage pl)
                                (facing_direction (p_ent pl))) h in
        let r := melee_henchmen atk_rect (register_hit pl) rest in
        (fst r, h' :: snd r)
      else
        let r := melee_henchmen atk_rect pl rest in
        (fst r, h :: snd r)
  end.

(** Phase 2: "Player melee attacks". *)
Definition player_melee (a : Arena) : Arena :=
  match Player_get_attack_rect (player a) with
  | Some atk_rect =>
      let rv := melee_villain atk_rect (player a) (villain a) in
      let rh := melee_henchmen atk_rect (fst rv) (henchmen a) in
      mkArena (fst rh) (snd rv) (snd rh) (projectiles a) (pickups a)
  | None => a
  end.

(** The villain's and one henchman's attack on the player. *)
Definition villain_strikes (pl : Player) (v : option Villain) : Player :=
  match v with
  | Some w =>
      if villain_alive w then
        match Villain_get_attack_rect configs w with
        | Some vatk =>
            if colliderect vatk (Entity_get_rect (p_ent pl))
            then Player_take_damage (Villain_damage configs w)
                   (facing_direction (v_ent w)) pl
            else pl
        | None => pl
        end
      else pl
  | None => pl
  end.

Definition henchman_strikes (pl : Player) (h : Henchman) : Player :=
  if henchman_alive h then
    match Henchman_get_attack_rect h with
    | Some hatk =>
        if colliderect hatk (Entity_get_rect (p_ent pl))
        then Player_take_damage (h_damage h) (facing_direction (h_ent h)) pl
        else pl
    | None => pl
    end
  else pl.

(** Phase 3: "Enemy attacks hit player". *)
Definition enemy_melee (a : Arena) : Arena :=
  mkArena
    (fold_left henchman_strikes (henchmen a)
       (villain_strikes (player a) (villain a)))
    (villain a) (henchmen a) (projectiles a) (pickups a).

(** Phase 4: "Pickups". *)
Definition resolve_pickup (acc : Player * list HealthPickup)
    (pk : HealthPickup) : Player * list HealthPickup :=
  let pl := fst acc in
  let pk := HealthPickup_update pk in
  if negb (hp_active pk) then acc
  else if colliderect (HealthPickup_get_rect pk) (Entity_get_rect (p_ent pl))
  then
    (with_ent (fun b => set_health
                 (Z.min (max_health b) (health b + heal pk)) b) pl,
     snd acc)
  else (pl, snd acc ++ [pk]).

Definition update_pickups (a : Arena) : Arena :=
  let r := fold_left resolve_pickup (pickups a) (player a, []) in
  mkArena (fst r) (villain a) (henchmen a) (projectiles a) (snd r).

(** Damage resolution of one tick. *)
Definition resolve_collisions (a : Arena) : Arena :=
  enemy_melee (player_melee (update_projectiles a)).

End Collisions.

(** ** [class Game] *)

Inductive GameState : Set :=
  | title | playing | paused | level_intro | game_over.

Record Game := mkGame {
  game_state : GameState;
  won : bool;
  current_level : Z;
  intro_timer : Z;
  arena : option Arena;
  camera_x : Q
}.

(** "Player death - check for respawn", the end of [Game.update]. *)
Definition check_player_death (g : Game) : Game :=
  match arena g with
  | Some a =>
      if is_dead (state (p_ent (player a))) then
        let r := respawn (player a) in
        if fst r then
          mkGame (game_state g) (won g) (current_level g) (intro_timer g)
            (Some (mkArena (snd r) (villain a) (henchmen a) (projectiles a)
                     (pickups a)))
            (camera_x g)
        else
          mkGame game_over false (current_level g) (intro_timer g)
            (Some (mkArena (snd r) (villain a) (henchmen a) (projectiles a)
                     (pickups a)))
            (camera_x g)
      else g
  | None => g
  end.



(** The boss of a stage as [start_level] places it, and the same boss once
    its health is [h]. *)
Definition spawn (configs : Configs) (t : VillainType) : Villain :=
  new_Villain configs 5650 (inject_Z (GROUND_LEVEL - cfg_height (configs t) - 10)) t.



(** ** Sample values *)

(** A player with two lives left who stood on the ground at (300, 485),
    where the checkpoint was taken, and died in the air at (350, 400); the
    same player with no life left; and the games they are in. *)
Definition grounded : Player :=
  update_checkpoint
    (with_ent (fun b => set_y 485 (set_x 300 b))
       (set_lives 2 (new_Player 100 460))).

Definition fallen : Player :=
  with_ent (fun b => set_state DEAD (set_health 0 (set_y 400 (set_x 350 b))))
    grounded.

Definition spent : Player := set_lives 0 fallen.

Definition game_of (p : Player) : Game :=
  mkGame playing false 0 0 (Some (mkArena p None [] [] [])) 0.

(** [h'] is [h] if [h] is dead; likewise for the villain of a stage. *)
Definition dead_untouched (h h' : Henchman) : Prop :=
  henchman_alive h = false -> h' = h.


(** A stage with its dead taken out. *)
Definition living_villain (v : option Villain) : option Villain :=
  match v with
  | Some w => if villain_alive w then v else None
  | None => None
  end.

Definition without_dead (a : Arena) : Arena :=
  mkArena (player a) (living_villain (villain a))
    (filter henchman_alive (henchmen a)) (projectiles a) (pickups a).

(** ** [class SpriteSheetSplitter]

    An image is known by its size, and a frame by the part of the sheet it
    is copied from: [blit(image, (0, 0), (x, y, frame_w, frame_h))].  The
    dictionary of frames is a list in the order of insertion. *)

Record Region := mkRegion {
  region_x : Z;
  region_y : Z;
  region_w : Z;
  region_h : Z
}.

(** [detect_grid]; [None] where the division by the height raises
    [ZeroDivisionError]. *)
Definition detect_grid (width height : Z) : option (Z * Z) :=
  if height =? 0 then None
  else
    let aspect := (inject_Z width / inject_Z height)%Q in
    if Qltb (14 # 10) aspect then
      if height <? width then Some (3, 2) else Some (2, 3)
    else Some (2, 2).

(** The cells of the default layout, row by row. *)
Definition grid_cells (cols rows : Z) : list (Z * Z) :=
  flat_map (fun row => map (fun col => (Z.of_nat col, Z.of_nat row))
                         (seq 0 (Z.to_nat cols)))
    (seq 0 (Z.to_nat rows)).

Definition frame_names : list string :=
  ["kick"; "punch"; "jump"; "run"; "idle"; "special"]%string.

Definition frame_map (cols rows : Z) : list (string * (Z * Z)) :=
  if (cols =? 2) && (rows =? 2) then
    [("kick", (0, 0)); ("punch", (1, 0)); ("jump", (0, 1));
     ("run", (1, 1))]%string
  else if (cols =? 3) && (rows =? 2) then
    [("kick", (0, 0)); ("punch", (1, 0)); ("special", (2, 0));
     ("jump", (0, 1)); ("run", (1, 1)); ("idle", (2, 1))]%string
  else if (cols =? 2) && (rows =? 3) then
    [("kick", (0, 0)); ("punch", (1, 0)); ("jump", (0, 1));
     ("run", (1, 1)); ("idle", (0, 2)); ("special", (1, 2))]%string
  else combine frame_names (grid_cells cols rows).

(** [frames[key]] and [key in frames]. *)
Fixpoint frame_of (key : string) (frames : list (string * Region))
    : option Region :=
  match frames with
  | [] => None
  | (name, r) :: rest =>
      if String.eqb name key then Some r else frame_of key rest
  end.

(** "Ensure we have all needed frames": a key that is missing gets the
    first frame of the dictionary, if there is one. *)
Definition ensure (frames : list (string * Region)) (key : string)
    : list (string * Region) :=
  match frame_of key frames with
  | Some _ => frames
  | None =>
      match frames with
      | (_, fallback) :: _ => frames ++ [(key, fallback)]
      | [] => frames
      end
  end.

Definition needed : list string :=
  ["kick"; "punch"; "jump"; "run"; "idle"]%string.

(** [split_sprite_sheet]; [None] where Python raises: no grid detected, a
    division by 0 columns or rows, or a frame of negative size. *)
Definition split_sprite_sheet (width height : Z) (cols rows : option Z)
    : option (list (string * Region)) :=
  let grid :=
    match cols, rows with
    | Some c, Some r => Some (c, r)
    | _, _ => detect_grid width height
    end in
  match grid with
  | None => None
  | Some (c, r) =>
      if (c =? 0) || (r =? 0) then None
      else
        let frame_w := width / c in
        let frame_h := height / r in
        let cells := frame_map c r in
        if match cells with [] => false | _ => (frame_w <? 0) || (frame_h <? 0) end
        then None
        else
          let frames :=
            map (fun entry =>
                   (fst entry,
                    mkRegion (fst (snd entry) * frame_w)
                      (snd (snd entry) * frame_h) frame_w frame_h))
              cells in
          Some (fold_left ensure needed frames)
  end.

(** A region inside an image of the given size. *)
Definition inside (width height : Z) (r : Region) : Prop :=
  0 <= region_x r /\ 0 <= region_y r /\ 0 <= region_w r /\ 0 <= region_h r /\
  region_x r + region_w r <= width /\ region_y r + region_h r <= height.

(** ** Lives, and the blocks of [Player.update] *)

(** The player after [k] calls of [respawn]. *)
Fixpoint respawns (k : nat) (p : Player) : Player :=
  match k with
  | O => p
  | S n => snd (respawn (respawns n p))
  end.

Definition fall (b : Entity) : Entity :=
  let e0 := apply_gravity b in
  set_y (y e0 + vy e0)%Q (set_x (x e0 + vx e0)%Q e0).

Definition lands (e1 : Entity) : bool :=
  Qltb (inject_Z GROUND_LEVEL) (y e1 + inject_Z (height e1))%Q.

Definition land (e1 : Entity) : Entity :=
  if lands e1 then
    let g := set_vy 0 (set_y (inject_Z (GROUND_LEVEL - height e1)) e1) in
    match state g with
    | JUMPING | FALLING => set_state IDLE g
    | _ => g
    end
  else e1.

Definition airborne (e2 : Entity) : Entity :=
  if Qltb (vy e2) 0 then set_state JUMPING e2
  else if Qltb 2 (vy e2) && negb (is_on_ground e2)
       then set_state FALLING e2 else e2.

Definition count_down (e4 : Entity) : Entity :=
  if 0 <? invincibility e4
  then set_invincibility (invincibility e4 - 1) e4 else e4.

(** "Update checkpoint", on the ticks where the animation timer is 0. *)
Definition checkpoint (p1 : Player) : Player :=
  if anim_timer (p_ent p1) =? 0 then update_checkpoint p1 else p1.

Definition animate (p2 : Player) : Player :=
  let timer := anim_timer (p_ent p2) + 1 in
  with_ent (fun b =>
              if 8 <=? timer
              then set_anim ((anim_frame b + 1) mod 4) 0 b
              else set_anim (anim_frame b) timer b) p2.

(** What the blocks before the checkpoint leave alone. *)
Definition same_frame (a b : Entity) : Prop :=
  width a = width b /\ height a = height b /\
  anim_timer a = anim_timer b /\ health a = health b /\
  max_health a = max_health b.

(** The place of the checkpoint is on the ground. *)
Definition safe_on_ground (p : Player) : Prop :=
  (last_safe_y p + inject_Z (height (p_ent p)) == inject_Z GROUND_LEVEL)%Q.

End Shadows.
(** * Properties *)

(** ** Numbers *)

Lemma Qltb_lt (a b : Q) : Qltb a b = true <-> (a < b)%Q.
Proof.
  unfold Qltb. rewrite negb_true_iff. split.
  - intros H. apply Qnot_le_lt. intros Hle.
    apply Qle_bool_iff in Hle. congruence.
  - intros H. destruct (Qle_bool b a) eqn:E; [|reflexivity].
    apply Qle_bool_iff in E. exfalso. apply (Qlt_not_le _ _ H E).
Qed.

Lemma Qltb_ge (a b : Q) : Qltb a b = false <-> (b <= a)%Q.
Proof.
  unfold Qltb. rewrite negb_false_iff. apply Qle_bool_iff.
Qed.


(** ** Projectiles *)

Section ProjectileFacts.

Variable spin : Z.

Lemma Projectile_update_inactive (p : Projectile) :
  proj_active p = false -> Projectile_update spin p = p.
Proof.
  intros H. unfold Projectile_update. rewrite H. reflexivity.
Qed.

Lemma Projectile_run_inactive (n : nat) (p : Projectile) :
  proj_active p = false -> Projectile_run spin n p = p.
Proof.
  intros H. induction n as [|n IH]; [reflexivity|].
  unfold Projectile_run in *. simpl. rewrite IH.
  now apply Projectile_update_inactive.
Qed.

Lemma Projectile_run_succ_r (n : nat) (p : Projectile) :
  Projectile_run spin (S n) p =
  Projectile_run spin n (Projectile_update spin p).
Proof. unfold Projectile_run. apply Nat.iter_succ_r. Qed.

Lemma Projectile_update_velocity (p : Projectile) :
  velocity_x (Projectile_update spin p) = velocity_x p /\
  max_distance (Projectile_update spin p) = max_distance p.
Proof.
  unfold Projectile_update. destruct (proj_active p); simpl; auto.
Qed.

Lemma Projectile_update_active (p : Projectile) :
  proj_active p = true ->
  let p' := Projectile_update spin p in
  proj_x p' = (proj_x p + velocity_x p)%Q /\
  proj_y p' = (proj_y p + velocity_y p)%Q /\
  distance_traveled p' = (distance_traveled p + Qabs (velocity_x p))%Q /\
  (proj_active p' = false <->
   (inject_Z (max_distance p) < distance_traveled p')%Q).
Proof.
  intros H. unfold Projectile_update. rewrite H. simpl.
  repeat split; intros.
  - destruct (Qltb _ _) eqn:E; [now apply Qltb_lt in E | discriminate].
  - apply Qltb_lt in H0. now rewrite H0.
Qed.

Lemma Qabs_nonzero_pos (v : Q) : ~ (v == 0)%Q -> (0 < Qabs v)%Q.
Proof.
  intros Hv. apply Qabs_case; intros H.
  - apply Qle_lteq in H. destruct H as [H|H]; [exact H|].
    exfalso. apply Hv. symmetry. exact H.
  - apply Qle_lteq in H. destruct H as [H|H]; [lra|].
    exfalso. apply Hv. exact H.
Qed.

(** From any active state the projectile is retired after finitely many
    ticks, at the first tick whose accumulated distance is over the limit. *)
Lemma Projectile_retires (N : nat) :
  forall p : Projectile,
    proj_active p = true ->
    ~ (velocity_x p == 0)%Q ->
    (inject_Z (max_distance p) <
       distance_traveled p + inject_Z (Z.of_nat (S N)) * Qabs (velocity_x p))%Q ->
    exists n : nat,
      (1 <= n <= S N)%nat /\
      (forall k, (k < n)%nat ->
         proj_active (Projectile_run spin k p) = true) /\
      (forall k, (1 <= k < n)%nat ->
         (distance_traveled (Projectile_run spin k p)
            <= inject_Z (max_distance p))%Q) /\
      proj_active (Projectile_run spin n p) = false /\
      (inject_Z (max_distance p)
         < distance_traveled (Projectile_run spin n p))%Q.
Proof.
  induction N as [|N IH]; intros p Hact Hv Hfar.
  - exists 1%nat. split; [lia|].
    destruct (Projectile_update_active p Hact) as (_ & _ & Hd & Hoff).
    assert (Hlt : (inject_Z (max_distance p)
                   < distance_traveled (Projectile_update spin p))%Q).
    { rewrite Hd. change (inject_Z (Z.of_nat 1)) with 1%Q in Hfar. lra. }
    repeat split.
    + intros k Hk. assert (k = 0)%nat by lia. subst. exact Hact.
    + intros k Hk. lia.
    + unfold Projectile_run. simpl. now apply Hoff.
    + exact Hlt.
  - destruct (Projectile_update_active p Hact) as (_ & _ & Hd & Hoff).
    destruct (Projectile_update_velocity p) as [Hvx Hmax].
    destruct (proj_active (Projectile_update spin p)) eqn:Hact'.
    + assert (Hle : (distance_traveled (Projectile_update spin p)
                     <= inject_Z (max_distance p))%Q).
      { apply Qnot_lt_le. intros Hc. apply Hoff in Hc. discriminate. }
      destruct (IH (Projectile_update spin p) Hact') as (n & Hn & Hk & Hkd & Hoffn & Hfarn).
      * now rewrite Hvx.
      * rewrite Hvx, Hmax, Hd.
        rewrite Nat2Z.inj_succ in Hfar. unfold Z.succ in Hfar.
        rewrite inject_Z_plus in Hfar. change (inject_Z 1) with 1%Q in Hfar.
        lra.
      * exists (S n). split; [lia|]. repeat split.
        -- intros k Hlt. destruct k as [|k]; [exact Hact|].
           rewrite Projectile_run_succ_r. apply Hk. lia.
        -- intros k Hlt. destruct k as [|k]; [lia|].
           rewrite Projectile_run_succ_r.
           destruct k as [|k]; [exact Hle|].
           rewrite <- Hmax. apply Hkd. lia.
        -- rewrite Projectile_run_succ_r. exact Hoffn.
        -- rewrite Projectile_run_succ_r. rewrite <- Hmax. exact Hfarn.
    + exists 1%nat. split; [lia|]. repeat split.
      * intros k Hk. assert (k = 0)%nat by lia. subst. exact Hact.
      * intros k Hk. lia.
      * exact Hact'.
      * apply Hoff. reflexivity.
Qed.

(** Some number of ticks always carries the projectile over its limit. *)
Lemma Projectile_range_bound (p : Projectile) :
  ~ (velocity_x p == 0)%Q ->
  exists N : nat,
    (inject_Z (max_distance p) <
       distance_traveled p + inject_Z (Z.of_nat (S N)) * Qabs (velocity_x p))%Q.
Proof.
  intros Hv. pose proof (Qabs_nonzero_pos _ Hv) as Ha.
  destruct (Qarchimedean
              ((inject_Z (max_distance p) - distance_traveled p)
                 / Qabs (velocity_x p))) as [n Hn].
  exists (Pos.to_nat n).
  assert (Hq : (inject_Z (max_distance p) - distance_traveled p
                < (Z.pos n # 1) * Qabs (velocity_x p))%Q).
  { apply (Qmult_lt_r _ _ _ Ha) in Hn.
    assert (Hnz : ~ (Qabs (velocity_x p) == 0)%Q) by lra.
    pose proof (Qmult_div_r
                  (inject_Z (max_distance p) - distance_traveled p) _ Hnz) as E.
    rewrite Qmult_comm in E. rewrite E in Hn. exact Hn. }
  rewrite Nat2Z.inj_succ. unfold Z.succ. rewrite inject_Z_plus.
  rewrite positive_nat_Z. change (inject_Z 1) with 1%Q.
  change (inject_Z (Z.pos n)) with (Z.pos n # 1).
  lra.
Qed.

End ProjectileFacts.


(** * Properties of the first variant *)

Module Arkham2DFacts.

Import Arkham2D.

(** ** Attacks of the player *)

Lemma punch_fires (p : Player) :
  fst (punch p) = true <->
  punch_cooldown p <= 0 /\ attack_duration p <= 0.
Proof.
  unfold punch.
  destruct (punch_cooldown p <=? 0) eqn:E1;
    destruct (attack_duration p <=? 0) eqn:E2; simpl;
    try apply Z.leb_le in E1; try apply Z.leb_le in E2;
    try apply Z.leb_gt in E1; try apply Z.leb_gt in E2;
    split; intros H; try discriminate; try tauto; lia.
Qed.

Lemma kick_fires (p : Player) :
  fst (kick p) = true <->
  kick_cooldown p <= 0 /\ attack_duration p <= 0.
Proof.
  unfold kick.
  destruct (kick_cooldown p <=? 0) eqn:E1;
    destruct (attack_duration p <=? 0) eqn:E2; simpl;
    try apply Z.leb_le in E1; try apply Z.leb_le in E2;
    try apply Z.leb_gt in E1; try apply Z.leb_gt in E2;
    split; intros H; try discriminate; try tauto; lia.
Qed.

Lemma throw_batarang_fires (p : Player) :
  fst (throw_batarang p) <> None <-> batarang_cooldown p <= 0.
Proof.
  unfold throw_batarang.
  destruct (batarang_cooldown p <=? 0) eqn:E; simpl.
  - apply Z.leb_le in E. split; [tauto | discriminate].
  - apply Z.leb_gt in E. split; [congruence | lia].
Qed.

(** C2, as the code has it.  With the counters at their non-negative
    values: a punch or a kick is executed exactly when its own cooldown is 0
    and no attack is active; a batarang is thrown exactly when its own
    cooldown is 0, whether or not an attack is active.  An executed attack
    sets the active timer and its cooldown to the configured values and
    becomes the current attack; one that is not executed returns
    [False]/[None] and leaves the player as it was. *)
Theorem C2_attack_gating (p : Player)
    (Hpunch : 0 <= punch_cooldown p)
    (Hkick : 0 <= kick_cooldown p)
    (Hbatarang : 0 <= batarang_cooldown p)
    (Hactive : 0 <= attack_duration p) :
  (fst (punch p) = true <->
   punch_cooldown p = 0 /\ attack_duration p = 0) /\
  (fst (kick p) = true <->
   kick_cooldown p = 0 /\ attack_duration p = 0) /\
  (fst (throw_batarang p) <> None <-> batarang_cooldown p = 0) /\
  (fst (punch p) = true ->
   attack_duration (snd (punch p)) = PUNCH_DURATION /\
   punch_cooldown (snd (punch p)) = PUNCH_COOLDOWN /\
   current_attack (p_ent (snd (punch p))) = PUNCH) /\
  (fst (kick p) = true ->
   attack_duration (snd (kick p)) = KICK_DURATION /\
   kick_cooldown (snd (kick p)) = KICK_COOLDOWN /\
   current_attack (p_ent (snd (kick p))) = KICK) /\
  (fst (throw_batarang p) <> None ->
   attack_duration (snd (throw_batarang p)) = BATARANG_DURATION /\
   batarang_cooldown (snd (throw_batarang p)) = BATARANG_COOLDOWN /\
   current_attack (p_ent (snd (throw_batarang p))) = BATARANG) /\
  (fst (punch p) = false -> snd (punch p) = p) /\
  (fst (kick p) = false -> snd (kick p) = p) /\
  (fst (throw_batarang p) = None -> snd (throw_batarang p) = p).
Proof.
  split; [rewrite punch_fires; lia|].
  split; [rewrite kick_fires; lia|].
  split; [rewrite throw_batarang_fires; lia|].
  unfold punch, kick, throw_batarang.
  destruct ((punch_cooldown p <=? 0) && (attack_duration p <=? 0));
    destruct ((kick_cooldown p <=? 0) && (attack_duration p <=? 0));
    destruct (batarang_cooldown p <=? 0); simpl;
    repeat split; intros; try reflexivity; try discriminate; congruence.
Qed.

(** A fresh player: every counter is 0 and each of the three attacks is
    executed. *)
Lemma C2_attack_gating_witness :
  fst (punch player0) = true /\
  fst (kick player0) = true /\
  fst (throw_batarang player0) <> None /\
  attack_duration (snd (punch player0)) = 15 /\
  punch_cooldown (snd (punch player0)) = 12.
Proof.
  destruct (C2_attack_gating player0) as (Hp & Hk & Hb & Hp' & _);
    try (vm_compute; discriminate).
  assert (H1 : fst (punch player0) = true) by (apply Hp; split; reflexivity).
  split; [exact H1|].
  split; [apply Hk; split; reflexivity|].
  split; [apply Hb; reflexivity|].
  destruct (Hp' H1) as (Hd & Hc & _). split; assumption.
Defined.

(** C2 does not hold of the batarang: while a punch is active
    ([attack_duration] is 15) a batarang whose cooldown is 0 is thrown, and
    replaces the punch as the current attack. *)
Lemma C2_batarang_during_punch :
  current_attack (p_ent (snd (punch player0))) = PUNCH /\
  attack_duration (snd (punch player0)) = 15 /\
  batarang_cooldown (snd (punch player0)) = 0 /\
  fst (throw_batarang (snd (punch player0))) <> None /\
  current_attack (p_ent (snd (throw_batarang (snd (punch player0)))))
    = BATARANG.
Proof. repeat split; vm_compute; discriminate. Qed.

(** ** Attack rectangles *)

(** C4, as the code has it.  The player's attack rectangle is present
    exactly while the current attack is a punch or a kick and its timer is
    positive, on every such frame; an enemy's is present exactly while its
    melee attack is current and its frame counter is at least 5. *)
Theorem C4_attack_rect_presence :
  (forall p : Player,
     Player_get_attack_rect p <> None <->
     (current_attack (p_ent p) = PUNCH \/ current_attack (p_ent p) = KICK)
     /\ 0 < attack_duration p) /\
  (forall e : Enemy,
     Enemy_get_attack_rect e <> None <->
     current_attack (e_ent e) = ENEMY_MELEE /\ 5 <= attack_frame (e_ent e)).
Proof.
  split.
  - intros p. unfold Player_get_attack_rect.
    destruct (attack_duration p <=? 0) eqn:E;
      [apply Z.leb_le in E | apply Z.leb_gt in E];
      destruct (current_attack (p_ent p)); simpl;
      destruct (facing_right (p_ent p));
      (split; [intros H | intros [[H|H] H']]);
      try congruence; try lia; try discriminate;
      try (split; [tauto | lia]).
  - intros e. unfold Enemy_get_attack_rect.
    destruct (attack_frame (e_ent e) <? 5) eqn:E;
      [apply Z.ltb_lt in E | apply Z.ltb_ge in E];
      destruct (current_attack (e_ent e)); simpl;
      destruct (facing_right (e_ent e));
      (split; [intros H | intros [H H']]);
      try congruence; try lia; try discriminate;
      try (split; [reflexivity | lia]).
Qed.

(** C4 does not hold of the player: from the punch until its timer reaches 0, fifteen
    ticks later, the punch is the current attack and the rectangle is
    present on every tick; likewise for the twenty ticks of a kick. *)
Lemma C4_every_frame_is_live :
  forallb (fun k =>
             AttackType_eqb (current_attack (p_ent (punch_frame k))) PUNCH
             && has_rect (Player_get_attack_rect (punch_frame k)))
          (seq 0 15) = true /\
  current_attack (p_ent (punch_frame 15)) = NONE /\
  forallb (fun k =>
             AttackType_eqb (current_attack (p_ent (kick_frame k))) KICK
             && has_rect (Player_get_attack_rect (kick_frame k)))
          (seq 0 20) = true /\
  current_attack (p_ent (kick_frame 20)) = NONE.
Proof. repeat split; vm_compute; reflexivity. Qed.

(** ** Damage *)

Lemma is_dead_true (s : EntityState) : is_dead s = true <-> s = DEAD.
Proof. unfold is_dead. apply EntityState_eqb_eq. Qed.

Lemma is_dead_false (s : EntityState) : is_dead s = false <-> s <> DEAD.
Proof. destruct s; simpl; split; congruence. Qed.

(** What [Entity.take_damage] does when the entity is not invincible. *)
Lemma Entity_take_damage_vulnerable (amount dir : Z) (b : Entity) :
  invincibility_frames b <= 0 ->
  let b' := Entity_take_damage amount dir b in
  health b' = Z.max 0 (health b - amount) /\
  max_health b' = max_health b /\
  invincibility_frames b' = 30 /\
  state b' = (if health b - amount <=? 0 then DEAD else state b).
Proof.
  intros H. unfold Entity_take_damage.
  destruct (0 <? invincibility_frames b) eqn:E;
    [apply Z.ltb_lt in E; lia|].
  simpl. destruct (health b - amount <=? 0) eqn:E';
    [apply Z.leb_le in E' | apply Z.leb_gt in E']; simpl;
    repeat split; lia.
Qed.

(** Under invincibility the call does nothing. *)
Lemma Entity_take_damage_invincible (amount dir : Z) (b : Entity) :
  0 < invincibility_frames b -> Entity_take_damage amount dir b = b.
Proof.
  intros H. unfold Entity_take_damage.
  apply Z.ltb_lt in H. now rewrite H.
Qed.

(** Damage keeps the health of an actor well formed. *)
Lemma Entity_take_damage_health_ok (amount dir : Z) (b : Entity) :
  0 <= amount -> health_ok b -> health_ok (Entity_take_damage amount dir b).
Proof.
  intros Ha [Hr Hd].
  destruct (Z.lt_ge_cases 0 (invincibility_frames b)) as [Hi|Hi].
  - rewrite Entity_take_damage_invincible by exact Hi. split; assumption.
  - destruct (Entity_take_damage_vulnerable amount dir b Hi)
      as (Hh & Hm & _ & Hs).
    unfold health_ok. rewrite Hh, Hm, Hs.
    destruct (health b - amount <=? 0) eqn:E;
      [apply Z.leb_le in E | apply Z.leb_gt in E].
    + split; [lia|]. split; [reflexivity | lia].
    + split; [lia|]. split; [lia|].
      intros Hdead. apply Hd in Hdead. lia.
Qed.

Lemma Enemy_take_damage_health_ok (amount dir : Z) (e : Enemy) :
  0 <= amount -> health_ok (e_ent e) ->
  health_ok (e_ent (Enemy_take_damage amount dir e)).
Proof.
  intros Ha H. unfold Enemy_take_damage. simpl.
  apply Entity_take_damage_health_ok; [|exact H].
  destruct (blocking e && can_block (config e)); [|exact Ha].
  apply Z.div_pos; lia.
Qed.

Lemma Player_take_damage_health_ok (amount dir : Z) (p : Player) :
  0 <= amount -> health_ok (p_ent p) ->
  health_ok (p_ent (Player_take_damage amount dir p)).
Proof.
  intros Ha H. unfold Player_take_damage.
  destruct (0 <? invincibility_frames (p_ent p)); [exact H|].
  simpl.
  pose proof (Entity_take_damage_health_ok amount dir (p_ent p) Ha H) as H'.
  exact H'.
Qed.

(** ** [Enemy.update] leaves health alone *)

Lemma Enemy_cooldowns_vitals (e : Enemy) :
  let e' := Enemy_cooldowns e in
  health (e_ent e') = health (e_ent e) /\
  state (e_ent e') = state (e_ent e) /\
  config e' = config e /\ oid e' = oid e /\ blocking e' = blocking e /\
  invincibility_frames (e_ent e') =
    (if 0 <? invincibility_frames (e_ent e)
     then invincibility_frames (e_ent e) - 1
     else invincibility_frames (e_ent e)).
Proof.
  unfold Enemy_cooldowns.
  destruct (0 <? attack_cooldown (e_ent e)); simpl;
    destruct (0 <? projectile_cooldown e); simpl;
    destruct (0 <? invincibility_frames (e_ent e)); simpl;
    repeat split; reflexivity.
Qed.

Lemma Enemy_decide_vitals (dice : Dice) (d2 : Q) (e : Enemy) :
  e_ent (Enemy_decide dice d2 e) = e_ent e /\
  config (Enemy_decide dice d2 e) = config e /\
  oid (Enemy_decide dice d2 e) = oid e /\
  blocking (Enemy_decide dice d2 e) = blocking e.
Proof.
  unfold Enemy_decide. simpl.
  destruct (30 <=? ai_timer e + 1); simpl; [|repeat split; reflexivity].
  destruct (dist_lt d2 _); simpl; [repeat split; reflexivity|].
  destruct (dist_lt d2 300 && _); simpl; [repeat split; reflexivity|].
  destruct (dist_gt d2 400); simpl; [repeat split; reflexivity|].
  destruct (Qltb _ _); simpl; repeat split; reflexivity.
Qed.

Lemma Enemy_act_vitals (dice : Dice) (dx d2 : Q) (e : Enemy) :
  let e' := fst (Enemy_act dice dx d2 e) in
  health (e_ent e') = health (e_ent e) /\
  state (e_ent e') = state (e_ent e) /\
  invincibility_frames (e_ent e') = invincibility_frames (e_ent e) /\
  config e' = config e /\ oid e' = oid e /\ blocking e' = blocking e.
Proof.
  unfold Enemy_act. destruct (ai_state e).
  - destruct (Qltb _ _); simpl; repeat split; reflexivity.
  - destruct (Qltb 10 dx); simpl; [repeat split; reflexivity|].
    destruct (Qltb dx _); simpl; repeat split; reflexivity.
  - cbv zeta.
    destruct ((attack_cooldown _ <=? 0) && _); simpl;
      match goal with
      | |- context [if ?c then _ else _] => destruct c
      end; simpl; repeat split; reflexivity.
  - destruct (Qltb 0 dx); simpl; repeat split; reflexivity.
Qed.

Lemma Enemy_react_vitals (dice : Dice) (dx d2 : Q) (pl : Player) (e : Enemy) :
  let e' := Enemy_react dice dx d2 pl e in
  health (e_ent e') = health (e_ent e) /\
  invincibility_frames (e_ent e') = invincibility_frames (e_ent e) /\
  config e' = config e /\ oid e' = oid e /\
  (state (e_ent e') = state (e_ent e) \/ state (e_ent e') = BLOCKING) /\
  (can_block (config e) = false ->
   state (e_ent e') = state (e_ent e) /\ blocking e' = false).
Proof.
  unfold Enemy_react.
  destruct (can_block (config e)); simpl;
    destruct (0 <? attack_duration pl); simpl;
    try destruct (Qltb (roll_block dice) (3 # 10)); simpl;
    destruct (can_dodge (config e)); simpl;
    destruct (5 <? attack_duration pl); simpl;
    try destruct (dist_lt d2 100 && Qltb (roll_dodge dice) (2 # 10)); simpl;
    repeat split; auto; discriminate.
Qed.

Lemma Enemy_physics_vitals (b : Entity) :
  health (Enemy_physics b) = health b /\
  state (Enemy_physics b) = state b /\
  invincibility_frames (Enemy_physics b) = invincibility_frames b.
Proof.
  unfold Enemy_physics, apply_gravity.
  repeat match goal with
         | |- context [if ?c then _ else _] => destruct c
         end; simpl; repeat split; reflexivity.
Qed.

Lemma with_e_ent_ent (f : Entity -> Entity) (e : Enemy) :
  e_ent (with_e_ent f e) = f (e_ent e).
Proof. reflexivity. Qed.

Lemma with_e_ent_config (f : Entity -> Entity) (e : Enemy) :
  config (with_e_ent f e) = config e.
Proof. reflexivity. Qed.

Lemma with_e_ent_oid (f : Entity -> Entity) (e : Enemy) :
  oid (with_e_ent f e) = oid e.
Proof. reflexivity. Qed.

Lemma with_e_ent_blocking (f : Entity -> Entity) (e : Enemy) :
  blocking (with_e_ent f e) = blocking e.
Proof. reflexivity. Qed.

Lemma Enemy_update_dead (dice : Dice) (pl : Player) (e : Enemy) :
  alive e = false -> Enemy_update dice pl e = (e, None).
Proof.
  unfold alive, Enemy_update. intros H.
  apply negb_false_iff in H. now rewrite H.
Qed.

Lemma Enemy_update_vitals (dice : Dice) (pl : Player) (e : Enemy) :
  alive e = true ->
  let e' := fst (Enemy_update dice pl e) in
  health (e_ent e') = health (e_ent e) /\
  config e' = config e /\ oid e' = oid e /\
  invincibility_frames (e_ent e') =
    (if 0 <? invincibility_frames (e_ent e)
     then invincibility_frames (e_ent e) - 1
     else invincibility_frames (e_ent e)) /\
  alive e' = true /\
  (can_block (config e) = false ->
   state (e_ent e') = state (e_ent e) /\ blocking e' = false).
Proof.
  unfold alive. intros Halive. apply negb_true_iff in Halive.
  unfold Enemy_update. rewrite Halive. cbv zeta.
  set (e1 := Enemy_cooldowns e).
  set (dx := (x (p_ent pl) - x (e_ent e1))%Q).
  set (dy := (y (p_ent pl) - y (e_ent e1))%Q).
  set (d2 := (dx * dx + dy * dy)%Q).
  set (e2 := with_e_ent (set_facing_right (Qltb 0 dx)) e1).
  set (e3 := Enemy_decide dice d2 e2).
  set (e4 := fst (Enemy_act dice dx d2 e3)).
  set (e5 := Enemy_react dice dx d2 pl e4).
  destruct (Enemy_cooldowns_vitals e) as (H1h & H1s & H1c & H1o & H1b & H1i).
  fold e1 in H1h, H1s, H1c, H1o, H1b, H1i.
  destruct (Enemy_decide_vitals dice d2 e2) as (H3e & H3c & H3o & H3b).
  fold e3 in H3e, H3c, H3o, H3b.
  destruct (Enemy_act_vitals dice dx d2 e3) as (H4h & H4s & H4i & H4c & H4o & H4b).
  fold e4 in H4h, H4s, H4i, H4c, H4o, H4b.
  destruct (Enemy_react_vitals dice dx d2 pl e4) as (H5h & H5i & H5c & H5o & H5s & H5n).
  fold e5 in H5h, H5i, H5c, H5o, H5s, H5n.
  destruct (Enemy_physics_vitals (e_ent e5)) as (H6h & H6s & H6i).
  assert (He2 : health (e_ent e2) = health (e_ent e1) /\
                state (e_ent e2) = state (e_ent e1) /\
                invincibility_frames (e_ent e2) = invincibility_frames (e_ent e1) /\
                config e2 = config e1 /\ oid e2 = oid e1 /\
                blocking e2 = blocking e1)
    by (repeat split; reflexivity).
  destruct He2 as (H2h & H2s & H2i & H2c & H2o & H2b).
  assert (Hs4 : state (e_ent e4) = state (e_ent e))
    by (rewrite H4s, H3e, H2s, H1s; reflexivity).
  assert (Hc4 : config e4 = config e)
    by (rewrite H4c, H3c, H2c, H1c; reflexivity).
  assert (Ho4 : oid e4 = oid e)
    by (rewrite H4o, H3o, H2o, H1o; reflexivity).
  assert (Hh4 : health (e_ent e4) = health (e_ent e))
    by (rewrite H4h, H3e, H2h, H1h; reflexivity).
  assert (Hi4 : invincibility_frames (e_ent e4) =
                (if 0 <? invincibility_frames (e_ent e)
                 then invincibility_frames (e_ent e) - 1
                 else invincibility_frames (e_ent e)))
    by (rewrite H4i, H3e, H2i, H1i; reflexivity).
  cbn [fst].
  clearbody e5 e4. clear e3 e2 d2 dy dx e1 H1h H1s H1c H1o H1b H1i H3e H3c H3o
    H3b H4h H4s H4i H4c H4o H4b H2h H2s H2i H2c H2o H2b.
  unfold alive.
  rewrite !with_e_ent_ent, with_e_ent_config, with_e_ent_oid,
    with_e_ent_blocking.
  rewrite H6h, H6i, H6s, H5h, H5i, H5c, H5o, Hh4, Hi4, Hc4, Ho4.
  split; [reflexivity|]. split; [reflexivity|]. split; [reflexivity|].
  split; [reflexivity|].
  split.
  - apply negb_true_iff.
    destruct H5s as [H5s|H5s]; rewrite H5s; [|reflexivity].
    rewrite Hs4. exact Halive.
  - intros Hnb. rewrite <- Hc4 in Hnb.
    destruct (H5n Hnb) as [Hs5 Hb5].
    split; [|exact Hb5]. rewrite Hs5. exact Hs4.
Qed.


(** ** The enemy loop of the orchestrator *)

Section EnemyLoop.

Variable start_level : Z -> Game -> Game.


Lemma bounty_cons (e : Enemy) (es : list Enemy) :
  bounty (e :: es) =
  if alive e then bounty es else score_value (config e) + bounty es.
Proof. reflexivity. Qed.

Lemma bounty_app (es1 es2 : list Enemy) :
  bounty (es1 ++ es2) = bounty es1 + bounty es2.
Proof.
  induction es1 as [|e es1 IH]; simpl; [reflexivity|].
  rewrite IH. destruct (alive e); lia.
Qed.



End EnemyLoop.

(** ** Three punches *)





(** ** Combo registration in the melee phase *)

Section Melee.

Variable colliderect : Rect -> Rect -> bool.

Lemma with_e_ent_id (e : Enemy) : with_e_ent (fun b => b) e = e.
Proof. destruct e; reflexivity. Qed.

Lemma Enemy_take_damage_invincible (amount dir : Z) (e : Enemy) :
  0 < invincibility_frames (e_ent e) -> Enemy_take_damage amount dir e = e.
Proof.
  intros H. unfold Enemy_take_damage.
  destruct e as [o b c sx t st bl pc]. unfold with_e_ent. simpl in *.
  rewrite (Entity_take_damage_invincible _ dir b H). reflexivity.
Qed.

Lemma melee_loop_combo (r : Rect) (es : list Enemy) :
  forall pl : Player,
    combo_count (fst (melee_loop colliderect r pl es)) =
    combo_count pl
      + Z.of_nat (List.length (filter (overlapped colliderect r) es)).
Proof.
  induction es as [|e es IH]; intros pl; simpl; [lia|].
  unfold overlapped at 1.
  destruct (alive e && colliderect r (Entity_get_rect (e_ent e))); simpl.
  - rewrite IH. simpl. lia.
  - apply IH.
Qed.

Lemma melee_loop_invincible (r : Rect) (es : list Enemy) :
  forall pl : Player,
    Forall (fun e => 0 < invincibility_frames (e_ent e))
      (filter (overlapped colliderect r) es) ->
    snd (melee_loop colliderect r pl es) = es.
Proof.
  induction es as [|e es IH]; intros pl H; simpl; [reflexivity|].
  simpl in H. unfold overlapped at 1 in H.
  destruct (alive e && colliderect r (Entity_get_rect (e_ent e))); simpl.
  - inversion H as [|? ? He Hes]; subst.
    rewrite (Enemy_take_damage_invincible _ _ e He).
    now rewrite IH.
  - now rewrite IH.
Qed.

End Melee.

(** C10.  In the melee phase of a tick in which the player's attack
    rectangle is present, the combo counter grows by the number of living
    enemies that the rectangle overlaps, whether or not any of them takes
    damage; when all of these are invincible the phase changes no enemy at
    all, and the counter still grows.  A punch that stays over the Joker
    registers once per tick: one tick after the punch the combo is 1 and the
    Joker has lost the 35 points of the punch, fourteen ticks after it the
    combo is 14 and the Joker has lost nothing more. *)
Theorem C10_combo_registration (colliderect : Rect -> Rect -> bool)
    (enc : Encounter) (r : Rect)
    (Hrect : Player_get_attack_rect (player enc) = Some r) :
  let hits := filter (overlapped colliderect r) (enemies enc) in
  combo_count (player (player_melee colliderect enc)) =
    combo_count (player enc) + Z.of_nat (List.length hits) /\
  (Forall (fun e => 0 < invincibility_frames (e_ent e)) hits ->
   enemies (player_melee colliderect enc) = enemies enc) /\
  (combo_of (brawl_after 1) = 1 /\ healths_of (brawl_after 1) = [465] /\
   combo_of (brawl_after 14) = 14 /\ healths_of (brawl_after 14) = [465]).
Proof.
  intros hits. unfold player_melee. rewrite Hrect, Z.eqb_refl. simpl.
  split; [apply melee_loop_combo|].
  split; [apply melee_loop_invincible|].
  repeat split; vm_compute; reflexivity.
Qed.

(** The punch overlaps the Joker while he is invincible: the combo goes
    from 0 to 1 and the Joker is left as he was. *)
Lemma C10_combo_registration_witness :
  Player_get_attack_rect (player dazed_encounter) = Some punch_rect /\
  0 < invincibility_frames (e_ent dazed_joker) /\
  combo_count (player (player_melee pixel_colliderect dazed_encounter)) = 1 /\
  enemies (player_melee pixel_colliderect dazed_encounter) = [dazed_joker].
Proof.
  assert (Hrect : Player_get_attack_rect (player dazed_encounter)
                  = Some punch_rect) by reflexivity.
  assert (Hinv : 0 < invincibility_frames (e_ent dazed_joker)) by reflexivity.
  destruct (C10_combo_registration pixel_colliderect dazed_encounter
              punch_rect Hrect) as (Hcombo & Hsame & _).
  split; [exact Hrect|]. split; [exact Hinv|]. split.
  - rewrite Hcombo. reflexivity.
  - apply Hsame. repeat constructor.
Defined.

(** ** Dead enemies and the collision tests *)

Section DeadEnemies.

Variable colliderect : Rect -> Rect -> bool.














End DeadEnemies.

(** ** Health of the actors *)

(** C5 at a failing input.  A player with 10 health runs onto a pickup in
    the tick in which a thug's blow of 10 lands.  The blow is resolved
    first: health 0, state [DEAD].  The pickups are gone through next, and
    the one under the player heals by 20 whoever stands on it: at the end of
    the tick, when the game is declared over, the player is [DEAD] with 20
    health, against "health is 0 if and only if the state is Dead". *)
Theorem C5_pickup_heals_dead_player :
  health_ok (p_ent cornered) /\
  (health (p_ent (player_of last_stand_struck)) = 0 /\
   state (p_ent (player_of last_stand_struck)) = DEAD) /\
  last_stand_after =
    check_player_death
      (on_encounter (update_pickups pixel_colliderect) last_stand_struck) /\
  (health (p_ent (player_of last_stand_after)) = 20 /\
   state (p_ent (player_of last_stand_after)) = DEAD /\
   game_state last_stand_after = game_over) /\
  ~ health_ok (p_ent (player_of last_stand_after)).
Proof.
  assert (H20 : health (p_ent (player_of last_stand_after)) = 20)
    by (vm_compute; reflexivity).
  assert (Hdead : state (p_ent (player_of last_stand_after)) = DEAD)
    by (vm_compute; reflexivity).
  split.
  { unfold health_ok. vm_compute. repeat split; intros; discriminate. }
  split; [split; vm_compute; reflexivity|].
  split; [reflexivity|].
  split; [repeat split; try assumption; vm_compute; reflexivity|].
  intros [_ [_ H]]. specialize (H Hdead). rewrite H20 in H. discriminate.
Qed.

End Arkham2DFacts.

(** * Properties of the second variant *)

Module ShadowsFacts.

Import Shadows.

(** ** Phases of the bosses *)











(** ** Respawn *)

Lemma respawn_succeeds (p : Player) :
  0 < lives p ->
  respawn p =
  (true,
   set_attack_duration 0
     (with_ent (set_current_attack NONE)
        (set_combo_timer 0 (set_combo 0
           (with_ent (fun b =>
              set_invincibility RESPAWN_INVINCIBILITY
                (set_state IDLE
                   (set_vy 0 (set_vx 0
                      (set_y (last_safe_y p) (set_x (last_safe_x p)
                         (set_health (max_health b) b)))))))
              (set_lives (lives p - 1) p)))))).
Proof.
  intros H. unfold respawn. apply Z.leb_gt in H. rewrite H. reflexivity.
Qed.

Lemma respawn_fails (p : Player) :
  lives p <= 0 -> respawn p = (false, p).
Proof.
  intros H. unfold respawn. apply Z.leb_le in H. rewrite H. reflexivity.
Qed.

Lemma update_checkpoint_spec (p : Player) :
  (is_on_ground (p_ent p) = true -> state (p_ent p) <> DEAD ->
   last_safe_x (update_checkpoint p) = x (p_ent p) /\
   last_safe_y (update_checkpoint p) = y (p_ent p)) /\
  (is_on_ground (p_ent p) = false \/ state (p_ent p) = DEAD ->
   update_checkpoint p = p) /\
  p_ent (update_checkpoint p) = p_ent p /\
  lives (update_checkpoint p) = lives p.
Proof.
  unfold update_checkpoint.
  destruct (is_on_ground (p_ent p)); destruct (state (p_ent p)); simpl;
    repeat split; try reflexivity; try congruence;
    intros [H|H]; congruence.
Qed.

(** C6.  When the player is found dead with at least one life left, the
    respawn succeeds and the game goes on: one life less, full health, the
    position last recorded by the checkpoint, no velocity, no combo, no
    attack, state [IDLE], and 120 ticks of invincibility, more than the 45
    that follow a hit.  The checkpoint records the player's position when
    the player is on the ground and not dead, and is left alone otherwise.
    With no life left the game is over and lost. *)
Theorem C6_respawn (g : Game) (a : Arena)
    (Harena : arena g = Some a)
    (Hdead : state (p_ent (player a)) = DEAD)
    (Hlives : 0 < lives (player a)) :
  let p := player a in
  let p' := snd (respawn p) in
  fst (respawn p) = true /\
  lives p' = lives p - 1 /\
  health (p_ent p') = max_health (p_ent p) /\
  max_health (p_ent p') = max_health (p_ent p) /\
  (x (p_ent p') = last_safe_x p /\ y (p_ent p') = last_safe_y p) /\
  (vx (p_ent p') = 0%Q /\ vy (p_ent p') = 0%Q) /\
  (combo p' = 0 /\ combo_timer p' = 0 /\
   current_attack (p_ent p') = NONE /\ attack_duration p' = 0) /\
  state (p_ent p') = IDLE /\
  (invincibility (p_ent p') = RESPAWN_INVINCIBILITY /\
   HIT_INVINCIBILITY < RESPAWN_INVINCIBILITY) /\
  (arena (check_player_death g) =
     Some (mkArena p' (villain a) (henchmen a) (projectiles a) (pickups a)) /\
   game_state (check_player_death g) = game_state g /\
   won (check_player_death g) = won g) /\
  (forall q : Player,
     (is_on_ground (p_ent q) = true -> state (p_ent q) <> DEAD ->
      last_safe_x (update_checkpoint q) = x (p_ent q) /\
      last_safe_y (update_checkpoint q) = y (p_ent q)) /\
     (is_on_ground (p_ent q) = false \/ state (p_ent q) = DEAD ->
      update_checkpoint q = q)) /\
  (forall (g0 : Game) (a0 : Arena),
     arena g0 = Some a0 -> state (p_ent (player a0)) = DEAD ->
     lives (player a0) <= 0 ->
     game_state (check_player_death g0) = game_over /\
     won (check_player_death g0) = false).
Proof.
  intros p p'. subst p p'.
  unfold check_player_death. rewrite Harena, Hdead. cbn [is_dead].
  rewrite (respawn_succeeds (player a) Hlives). cbn [fst snd].
  repeat split; try reflexivity.
  - apply update_checkpoint_spec; assumption.
  - apply update_checkpoint_spec; assumption.
  - apply update_checkpoint_spec; assumption.
  - unfold check_player_death. rewrite H, H0. cbn [is_dead].
    rewrite (respawn_fails _ H1). reflexivity.
  - unfold check_player_death. rewrite H, H0. cbn [is_dead].
    rewrite (respawn_fails _ H1). reflexivity.
Qed.

(** The player who died in the air with two lives comes back at the
    checkpoint, (300, 485), with one life and 150 health. *)
Lemma C6_respawn_witness :
  state (p_ent fallen) = DEAD /\ lives fallen = 2 /\
  lives (snd (respawn fallen)) = 1 /\
  health (p_ent (snd (respawn fallen))) = 150 /\
  x (p_ent (snd (respawn fallen))) = 300%Q /\
  y (p_ent (snd (respawn fallen))) = 485%Q /\
  state (p_ent (snd (respawn fallen))) = IDLE /\
  game_state (check_player_death (game_of fallen)) = playing.
Proof.
  destruct (C6_respawn (game_of fallen) (mkArena fallen None [] [] [])
              eq_refl eq_refl eq_refl)
    as (_ & Hl & Hh & _ & (Hx & Hy) & _ & _ & Hs & _ & (_ & Hg & _) & _).
  repeat split; try reflexivity; assumption.
Defined.

(** C9.  With no life left, [respawn] returns [False] and the player it
    leaves is the player it was given, field for field; the orchestrator
    then ends the game as lost, the stage being as it was. *)
Theorem C9_failed_respawn (p : Player) (Hlives : lives p <= 0) :
  fst (respawn p) = false /\
  snd (respawn p) = p /\
  forall (g : Game) (a : Arena),
    arena g = Some a -> player a = p -> state (p_ent p) = DEAD ->
    arena (check_player_death g) = Some a /\
    game_state (check_player_death g) = game_over /\
    won (check_player_death g) = false.
Proof.
  rewrite (respawn_fails p Hlives). cbn [fst snd].
  split; [reflexivity|]. split; [reflexivity|].
  intros g a Ha Hp Hd. unfold check_player_death.
  rewrite Ha, Hp, Hd. cbn [is_dead].
  rewrite (respawn_fails p Hlives). cbn [fst snd arena game_state won].
  subst p. destruct a. repeat split; reflexivity.
Qed.

(** The player who died with no life left. *)
Lemma C9_failed_respawn_witness :
  lives spent <= 0 /\
  respawn spent = (false, spent) /\
  game_state (check_player_death (game_of spent)) = game_over.
Proof.
  assert (Hlives : lives spent <= 0) by (vm_compute; discriminate).
  destruct (C9_failed_respawn spent Hlives) as (Hf & Hs & Hg).
  split; [exact Hlives|]. split.
  - rewrite (surjective_pairing (respawn spent)), Hf, Hs. reflexivity.
  - destruct (Hg (game_of spent) (mkArena spent None [] [] [])
                eq_refl eq_refl eq_refl) as (_ & H & _).
    exact H.
Defined.

(** ** Dead enemies and the collision tests *)

Section DeadEnemies.

Variable colliderect : Rect -> Rect -> bool.
Variable configs : Configs.













End DeadEnemies.

End ShadowsFacts.

(** * Both variants: the order of damage resolution *)

Section DamageResolution.

Variable colliderect : Rect -> Rect -> bool.









End DamageResolution.


(** * Both variants: projectiles *)

(** C7.  While a projectile is active, a tick moves it by its velocity and
    adds the absolute horizontal velocity to the distance travelled, which
    therefore strictly grows; the tick switches the projectile off exactly
    when the new distance is over [max_distance].  Followed over time, the
    projectile is switched off once: there is a first tick [n] at which the
    distance is over the limit, it is active before [n], inactive at [n],
    and every later tick leaves it as it was at [n].  [spin] is 15 for the
    first variant and 12 for the second. *)
Theorem C7_projectile_lifecycle (spin : Z) (p : Projectile)
    (Hactive : proj_active p = true)
    (Hspeed : ~ (velocity_x p == 0)%Q) :
  let p' := Projectile_update spin p in
  proj_x p' = (proj_x p + velocity_x p)%Q /\
  proj_y p' = (proj_y p + velocity_y p)%Q /\
  distance_traveled p' = (distance_traveled p + Qabs (velocity_x p))%Q /\
  (distance_traveled p < distance_traveled p')%Q /\
  (proj_active p' = false <->
   (inject_Z (max_distance p) < distance_traveled p')%Q) /\
  exists n : nat,
    (1 <= n)%nat /\
    (forall k, (k < n)%nat ->
       proj_active (Projectile_run spin k p) = true) /\
    (forall k, (1 <= k < n)%nat ->
       (distance_traveled (Projectile_run spin k p)
          <= inject_Z (max_distance p))%Q) /\
    proj_active (Projectile_run spin n p) = false /\
    (inject_Z (max_distance p)
       < distance_traveled (Projectile_run spin n p))%Q /\
    (forall m, (n <= m)%nat ->
       Projectile_run spin m p = Projectile_run spin n p).
Proof.
  intros p'.
  destruct (Projectile_update_active spin p Hactive) as (Hx & Hy & Hd & Hoff).
  split; [exact Hx|]. split; [exact Hy|]. split; [exact Hd|].
  split; [|split; [exact Hoff|]].
  - subst p'. rewrite Hd. pose proof (Qabs_nonzero_pos _ Hspeed). lra.
  - destruct (Projectile_range_bound p Hspeed) as [N HN].
    destruct (Projectile_retires spin N p Hactive Hspeed HN)
      as (n & Hn & Hbefore & Hunder & Hat & Hover).
    exists n. repeat split; try assumption; try lia.
    intros m Hm. replace m with ((m - n) + n)%nat by lia.
    unfold Projectile_run. rewrite Nat.iter_add.
    apply (Projectile_run_inactive spin (m - n)). exact Hat.
Qed.

(** The batarang that the player of the first variant throws at the start
    of a stage: 18 pixels a tick, range 600. *)
Lemma C7_projectile_lifecycle_witness :
  fst (Arkham2D.throw_batarang Arkham2D.player0) = Some batarang0 /\
  proj_active batarang0 = true /\
  ~ (velocity_x batarang0 == 0)%Q /\
  distance_traveled (Projectile_update 15 batarang0) = (0 + Qabs 18)%Q /\
  exists n : nat,
    (1 <= n)%nat /\
    proj_active (Projectile_run 15 n batarang0) = false /\
    (forall m, (n <= m)%nat ->
       Projectile_run 15 m batarang0 = Projectile_run 15 n batarang0).
Proof.
  assert (Hactive : proj_active batarang0 = true) by reflexivity.
  assert (Hspeed : ~ (velocity_x batarang0 == 0)%Q)
    by (intros H; discriminate H).
  destruct (C7_projectile_lifecycle 15 batarang0 Hactive Hspeed)
    as (_ & _ & Hd & _ & _ & n & Hn & _ & _ & Hoff & _ & Hstay).
  split; [reflexivity|].
  repeat split; try assumption.
  exists n. repeat split; assumption.
Defined.

(** * Further properties of the first variant *)

Module Arkham2DExtra.

Import Arkham2D.

(** ** The combo multiplier *)

(** [get_attack_damage] in integers: the base damage times the multiplier
    in hundredths, capped at 250, truncated. *)
Lemma get_attack_damage_closed (p : Player) :
  get_attack_damage p =
  match current_attack (p_ent p) with
  | PUNCH => Z.quot (PUNCH_DAMAGE * Z.min (100 + 15 * combo_count p) 250) 100
  | KICK => Z.quot (KICK_DAMAGE * Z.min (100 + 15 * combo_count p) 250) 100
  | _ => 0
  end.
Proof.
  unfold get_attack_damage.
  destruct (current_attack (p_ent p)); try reflexivity;
    unfold Qmin, GenericMinMax.gmin, Qcompare, int_of_float,
      COMBO_DAMAGE_BONUS, MAX_COMBO_MULTIPLIER, PUNCH_DAMAGE, KICK_DAMAGE;
    cbn [Qnum Qden Qplus Qmult inject_Z];
    match goal with
    | |- context [(?a ?= ?b)%Z] => destruct (Z.compare_spec a b) as [E|E|E]
    end;
    cbv beta iota delta [Qnum Qden Qplus Qmult inject_Z Pos.mul] in *;
    try (rewrite Z.min_l by lia; f_equal; lia);
    try (rewrite Z.min_r by lia; reflexivity).
Qed.

(** X1.  The damage of a punch or a kick never decreases when the combo
    grows, starts at the base damage, and is constant from a combo of 10
    on, where the multiplier reaches its cap of 2.5: 87 for a punch, 112
    for a kick. *)
Theorem X1_combo_damage_monotone_capped (p q : Player)
    (Hattack : current_attack (p_ent p) = PUNCH
               \/ current_attack (p_ent p) = KICK)
    (Hsame : current_attack (p_ent q) = current_attack (p_ent p))
    (Hcombo : 0 <= combo_count p <= combo_count q) :
  get_attack_damage p <= get_attack_damage q /\
  (combo_count p = 0 ->
   get_attack_damage p =
     if AttackType_eqb (current_attack (p_ent p)) PUNCH
     then PUNCH_DAMAGE else KICK_DAMAGE) /\
  (10 <= combo_count p ->
   get_attack_damage p =
     if AttackType_eqb (current_attack (p_ent p)) PUNCH then 87 else 112) /\
  get_attack_damage q <=
    (if AttackType_eqb (current_attack (p_ent p)) PUNCH then 87 else 112).
Proof.
  rewrite !get_attack_damage_closed, Hsame.
  unfold PUNCH_DAMAGE, KICK_DAMAGE.
  destruct Hattack as [H|H]; rewrite H; cbn [AttackType_eqb].
  - split; [apply Z.quot_le_mono; lia|].
    split; [intros E; rewrite E; reflexivity|].
    split; [intros E; rewrite Z.min_r by lia; reflexivity|].
    change 87 with (Z.quot (35 * 250) 100). apply Z.quot_le_mono; lia.
  - split; [apply Z.quot_le_mono; lia|].
    split; [intros E; rewrite E; reflexivity|].
    split; [intros E; rewrite Z.min_r by lia; reflexivity|].
    change 112 with (Z.quot (45 * 250) 100). apply Z.quot_le_mono; lia.
Qed.

Lemma X1_combo_damage_monotone_capped_witness :
  get_attack_damage (ready player0)
    <= get_attack_damage (register_hit (ready player0)) /\
  get_attack_damage (ready player0) = 35.
Proof.
  assert (Hattack : current_attack (p_ent (ready player0)) = PUNCH \/
                    current_attack (p_ent (ready player0)) = KICK)
    by (left; reflexivity).
  assert (Hcombo : 0 <= combo_count (ready player0)
                     <= combo_count (register_hit (ready player0)))
    by (split; discriminate).
  destruct (X1_combo_damage_monotone_capped (ready player0)
              (register_hit (ready player0)) Hattack eq_refl Hcombo)
    as (Hle & Hbase & _).
  split; [exact Hle|]. apply Hbase. reflexivity.
Defined.

(** ** [Player.update] and the tail of [Enemy.update], block by block *)

Lemma Player_update_blocks (p : Player) :
  Player_update p =
  set_jumps_remaining
    (if lands (fall (p_ent p)) then MAX_JUMPS else jumps_remaining p)
    (with_ent
       (fun _ => animate 8 (count_down (keep_in_bounds
                   (airborne (land (fall (p_ent p))))))) p).
Proof.
  cbv delta [Player_update lands fall land airborne keep_in_bounds
               count_down animate] beta.
  reflexivity.
Qed.

Lemma Enemy_physics_blocks (b : Entity) :
  Enemy_physics b =
  animate 10 (attack_tick (keep_in_bounds (settle (fall b)))).
Proof.
  cbv delta [Enemy_physics lands fall settle keep_in_bounds attack_tick
               animate] beta.
  reflexivity.
Qed.

(** What a block leaves alone. *)
Definition same_body (a b : Entity) : Prop :=
  health a = health b /\ max_health a = max_health b /\
  invincibility_frames a = invincibility_frames b /\
  width a = width b /\ height a = height b /\
  current_attack a = current_attack b /\
  facing_right a = facing_right b.

Lemma same_body_trans (a b c : Entity) :
  same_body a b -> same_body b c -> same_body a c.
Proof.
  unfold same_body. intros (H1 & H2 & H3 & H4 & H5 & H6 & H7)
    (G1 & G2 & G3 & G4 & G5 & G6 & G7).
  repeat split; congruence.
Qed.

Lemma fall_same_body (b : Entity) : same_body (fall b) b.
Proof.
  unfold same_body, fall, apply_gravity. cbv zeta.
  destruct (Qltb 20 _); repeat split; reflexivity.
Qed.

Lemma land_same_body (b : Entity) : same_body (land b) b.
Proof.
  unfold same_body, land. destruct (lands b); [|repeat split; reflexivity].
  cbv zeta. cbn [state set_velocity_y set_y].
  destruct (state b); repeat split; reflexivity.
Qed.

Lemma settle_same_body (b : Entity) : same_body (settle b) b.
Proof.
  unfold same_body, settle. destruct (lands b); repeat split; reflexivity.
Qed.

Lemma airborne_same_body (b : Entity) : same_body (airborne b) b.
Proof.
  unfold same_body, airborne.
  destruct (Qltb (ent_velocity_y b) 0); [repeat split; reflexivity|].
  destruct (Qltb 2 (ent_velocity_y b) && negb (is_on_ground b));
    repeat split; reflexivity.
Qed.

Lemma keep_in_bounds_same_body (b : Entity) : same_body (keep_in_bounds b) b.
Proof.
  unfold same_body, keep_in_bounds. cbv zeta.
  destruct (Qltb (x b) 0);
    match goal with
    | |- context [if ?c then _ else _] => destruct c
    end; repeat split; reflexivity.
Qed.

Lemma animate_same_body (n : Z) (b : Entity) : same_body (animate n b) b.
Proof.
  unfold same_body, animate. cbv zeta.
  destruct (n <=? animation_timer b + 1); repeat split; reflexivity.
Qed.

(** The player's update counts the invincibility down by one, to zero, and
    keeps health and size. *)
Lemma Player_update_body (p : Player) :
  invincibility_frames (p_ent (Player_update p)) =
    (if 0 <? invincibility_frames (p_ent p)
     then invincibility_frames (p_ent p) - 1
     else invincibility_frames (p_ent p)) /\
  health (p_ent (Player_update p)) = health (p_ent p) /\
  max_health (p_ent (Player_update p)) = max_health (p_ent p) /\
  width (p_ent (Player_update p)) = width (p_ent p) /\
  height (p_ent (Player_update p)) = height (p_ent p) /\
  combo_count (Player_update p) = combo_count p /\
  combo_timer (Player_update p) = combo_timer p /\
  score (Player_update p) = score p.
Proof.
  rewrite Player_update_blocks.
  cbn [p_ent set_jumps_remaining with_ent combo_count combo_timer score].
  set (b := keep_in_bounds (airborne (land (fall (p_ent p))))).
  assert (Hb : same_body b (p_ent p)).
  { unfold b.
    eapply same_body_trans; [apply keep_in_bounds_same_body|].
    eapply same_body_trans; [apply airborne_same_body|].
    eapply same_body_trans; [apply land_same_body|].
    apply fall_same_body. }
  destruct Hb as (Hh & Hm & Hi & Hw & Hg & _).
  destruct (animate_same_body 8 (count_down b)) as (Ah & Am & Ai & Aw & Ag & _).
  rewrite Ah, Am, Ai, Aw, Ag. clearbody b.
  unfold count_down. rewrite <- Hh, <- Hm, <- Hi, <- Hw, <- Hg.
  destruct (0 <? invincibility_frames b); repeat split; reflexivity.
Qed.

(** ** [Player.handle_input], block by block *)

Lemma handle_input_blocks (keys : Keys) (p : Player) :
  handle_input keys p =
  if is_dead (state (p_ent p)) then p
  else tick_combo (tick_attack (tick_batarang (tick_kick (tick_punch
         (with_ent (fun _ => stance (steer keys (p_ent p))) p))))).
Proof.
  cbv delta [handle_input steer stance tick_punch tick_kick tick_batarang
               tick_attack tick_combo] beta.
  reflexivity.
Qed.

Lemma stance_steer (keys : Keys) (e : Entity) :
  state e <> DEAD ->
  state (stance (steer keys e)) <> DEAD /\
  current_attack (stance (steer keys e)) = current_attack e /\
  invincibility_frames (stance (steer keys e)) = invincibility_frames e /\
  health (stance (steer keys e)) = health e /\
  max_health (stance (steer keys e)) = max_health e /\
  x (stance (steer keys e)) = x e /\ y (stance (steer keys e)) = y e /\
  ent_velocity_y (stance (steer keys e)) = ent_velocity_y e /\
  width (stance (steer keys e)) = width e /\
  height (stance (steer keys e)) = height e.
Proof.
  intros H. unfold stance, steer. cbv zeta.
  destruct (key_left keys); [|destruct (key_right keys)];
    cbn [fst snd state set_facing_right set_velocity_x];
    destruct (state e) eqn:S; try congruence;
    cbn [state set_state set_facing_right set_velocity_x current_attack
         invincibility_frames health max_health x y ent_velocity_y width
         height];
    rewrite ?S;
    repeat split; first [reflexivity | discriminate].
Qed.


Lemma tick_punch_closed (p : Player) :
  tick_punch p =
  mkPlayer (p_ent p) (jumps_remaining p) (combo_count p) (combo_timer p)
    (score p)
    (if 0 <? punch_cooldown p then punch_cooldown p - 1 else punch_cooldown p)
    (kick_cooldown p) (batarang_cooldown p) (attack_duration p).
Proof.
  destruct p as [e j cc ct sc pc kc bc ad]. unfold tick_punch.
  cbn [punch_cooldown]. destruct (0 <? pc); reflexivity.
Qed.

Lemma tick_kick_closed (p : Player) :
  tick_kick p =
  mkPlayer (p_ent p) (jumps_remaining p) (combo_count p) (combo_timer p)
    (score p) (punch_cooldown p)
    (if 0 <? kick_cooldown p then kick_cooldown p - 1 else kick_cooldown p)
    (batarang_cooldown p) (attack_duration p).
Proof.
  destruct p as [e j cc ct sc pc kc bc ad]. unfold tick_kick.
  cbn [kick_cooldown]. destruct (0 <? kc); reflexivity.
Qed.

Lemma tick_batarang_closed (p : Player) :
  tick_batarang p =
  mkPlayer (p_ent p) (jumps_remaining p) (combo_count p) (combo_timer p)
    (score p) (punch_cooldown p) (kick_cooldown p)
    (if 0 <? batarang_cooldown p then batarang_cooldown p - 1
     else batarang_cooldown p)
    (attack_duration p).
Proof.
  destruct p as [e j cc ct sc pc kc bc ad]. unfold tick_batarang.
  cbn [batarang_cooldown]. destruct (0 <? bc); reflexivity.
Qed.

Lemma tick_attack_closed (p : Player) :
  tick_attack p =
  mkPlayer (if attack_duration p =? 1
            then set_current_attack NONE (p_ent p) else p_ent p)
    (jumps_remaining p) (combo_count p) (combo_timer p)
    (score p) (punch_cooldown p) (kick_cooldown p) (batarang_cooldown p)
    (if 0 <? attack_duration p then attack_duration p - 1
     else attack_duration p).
Proof.
  destruct p as [e j cc ct sc pc kc bc ad]. unfold tick_attack. cbv zeta.
  cbn [attack_duration set_attack_duration with_ent p_ent jumps_remaining
       combo_count combo_timer score punch_cooldown kick_cooldown
       batarang_cooldown].
  destruct (0 <? ad) eqn:A; destruct (ad - 1 =? 0) eqn:B;
    destruct (ad =? 1) eqn:C; try reflexivity;
    try apply Z.ltb_ge in A; try apply Z.eqb_eq in B; try apply Z.eqb_neq in B;
    try apply Z.eqb_eq in C; try apply Z.eqb_neq in C; lia.
Qed.

Lemma tick_combo_closed (p : Player) :
  tick_combo p =
  mkPlayer (p_ent p) (jumps_remaining p)
    (if 0 <? combo_timer p then combo_count p else 0)
    (if 0 <? combo_timer p then combo_timer p - 1 else combo_timer p)
    (score p) (punch_cooldown p) (kick_cooldown p) (batarang_cooldown p)
    (attack_duration p).
Proof.
  destruct p as [e j cc ct sc pc kc bc ad]. unfold tick_combo.
  cbn [combo_timer]. destruct (0 <? ct); reflexivity.
Qed.

Lemma handle_input_closed (keys : Keys) (p : Player) :
  state (p_ent p) <> DEAD ->
  handle_input keys p =
  mkPlayer (if attack_duration p =? 1
            then set_current_attack NONE (stance (steer keys (p_ent p)))
            else stance (steer keys (p_ent p)))
    (jumps_remaining p)
    (if 0 <? combo_timer p then combo_count p else 0)
    (if 0 <? combo_timer p then combo_timer p - 1 else combo_timer p)
    (score p)
    (if 0 <? punch_cooldown p then punch_cooldown p - 1 else punch_cooldown p)
    (if 0 <? kick_cooldown p then kick_cooldown p - 1 else kick_cooldown p)
    (if 0 <? batarang_cooldown p then batarang_cooldown p - 1
     else batarang_cooldown p)
    (if 0 <? attack_duration p then attack_duration p - 1
     else attack_duration p).
Proof.
  intros Halive. rewrite handle_input_blocks.
  destruct (is_dead (state (p_ent p))) eqn:D.
  { destruct (state (p_ent p)); try discriminate. congruence. }
  rewrite tick_combo_closed, tick_attack_closed, tick_batarang_closed,
    tick_kick_closed, tick_punch_closed.
  reflexivity.
Qed.

(** ** The player under damage *)

Lemma Player_take_damage_open (a d : Z) (p : Player)
    (Hvul : invincibility_frames (p_ent p) <= 0) :
  invincibility_frames (p_ent (Player_take_damage a d p)) = HIT_INVINCIBILITY /\
  combo_count (Player_take_damage a d p) = 0 /\
  combo_timer (Player_take_damage a d p) = 0 /\
  health (p_ent (Player_take_damage a d p)) = Z.max 0 (health (p_ent p) - a).
Proof.
  destruct p as [e j cc ct sc pc kc bc ad]. cbn [p_ent] in Hvul.
  unfold Player_take_damage, Entity_take_damage. cbn [p_ent].
  destruct (0 <? invincibility_frames e) eqn:E; [apply Z.ltb_lt in E; lia|].
  cbn [p_ent with_ent set_combo_timer set_combo_count combo_count combo_timer
       jumps_remaining score punch_cooldown kick_cooldown batarang_cooldown
       attack_duration].
  rewrite E. cbv zeta.
  cbn [health set_velocity_x set_invincibility_frames set_health].
  destruct (health e - a <=? 0) eqn:F;
    cbn [invincibility_frames health set_invincibility_frames set_state
         set_health set_velocity_x].
  - apply Z.leb_le in F. repeat split; try reflexivity. lia.
  - apply Z.leb_gt in F. repeat split; try reflexivity. lia.
Qed.

Lemma Player_take_damage_shielded (a d : Z) (p : Player)
    (Hinv : 0 < invincibility_frames (p_ent p)) :
  Player_take_damage a d p = p.
Proof.
  unfold Player_take_damage.
  destruct (0 <? invincibility_frames (p_ent p)) eqn:E; [reflexivity|].
  apply Z.ltb_ge in E. lia.
Qed.

Lemma handle_input_dead (keys : Keys) (p : Player) :
  state (p_ent p) = DEAD -> handle_input keys p = p.
Proof. intros H. rewrite handle_input_blocks, H. reflexivity. Qed.

Lemma handle_input_invincibility (k : Keys) (p : Player) :
  invincibility_frames (p_ent (handle_input k p)) =
  invincibility_frames (p_ent p).
Proof.
  destruct (EntityState_eqb (state (p_ent p)) DEAD) eqn:D.
  - rewrite handle_input_dead; [reflexivity|].
    destruct (state (p_ent p)); try discriminate; reflexivity.
  - assert (Halive : state (p_ent p) <> DEAD)
      by (intros E; rewrite E in D; discriminate).
    rewrite (handle_input_closed k p Halive). cbn [p_ent].
    destruct (stance_steer k (p_ent p) Halive) as (_ & _ & Ei & _).
    destruct (attack_duration p =? 1); [|exact Ei].
    rewrite <- Ei. reflexivity.
Qed.

Lemma player_ticks_cons (k : Keys) (ks : list Keys) (p : Player) :
  player_ticks (k :: ks) p = player_ticks ks (Player_update (handle_input k p)).
Proof. reflexivity. Qed.

Lemma player_ticks_invincibility (ks : list Keys) (p : Player) :
  0 <= invincibility_frames (p_ent p) ->
  invincibility_frames (p_ent (player_ticks ks p)) =
  Z.max 0 (invincibility_frames (p_ent p) - Z.of_nat (List.length ks)).
Proof.
  revert p. induction ks as [|k ks IH]; intros p H.
  - change (player_ticks [] p) with p. cbn [List.length]. lia.
  - rewrite player_ticks_cons.
    destruct (Player_update_body (handle_input k p)) as (Hi & _).
    rewrite handle_input_invincibility in Hi.
    assert (H0 : 0 <= invincibility_frames
                        (p_ent (Player_update (handle_input k p)))).
    { rewrite Hi. destruct (0 <? invincibility_frames (p_ent p)) eqn:E;
        [apply Z.ltb_lt in E|]; lia. }
    rewrite (IH _ H0), Hi. cbn [List.length].
    destruct (0 <? invincibility_frames (p_ent p)) eqn:E;
      [apply Z.ltb_lt in E|apply Z.ltb_ge in E]; lia.
Qed.

(** X2.  A hit on a player who is not invincible costs the amount (health
    stops at 0), clears the combo and opens an invincibility window of
    [HIT_INVINCIBILITY] ticks: the window shrinks by one on every tick of the
    player, whatever the keys, every further hit within its 60 ticks leaves
    the player unchanged, and after 60 ticks the player can be hit again. *)
Theorem X2_hit_invincibility_window (a d a2 d2 : Z) (ks : list Keys)
    (p : Player)
    (Hvul : invincibility_frames (p_ent p) <= 0) :
  let hit := Player_take_damage a d p in
  health (p_ent hit) = Z.max 0 (health (p_ent p) - a) /\
  combo_count hit = 0 /\
  invincibility_frames (p_ent (player_ticks ks hit)) =
    Z.max 0 (HIT_INVINCIBILITY - Z.of_nat (List.length ks)) /\
  ((List.length ks < 60)%nat ->
   Player_take_damage a2 d2 (player_ticks ks hit) = player_ticks ks hit) /\
  ((60 <= List.length ks)%nat ->
   health (p_ent (Player_take_damage a2 d2 (player_ticks ks hit))) =
   Z.max 0 (health (p_ent (player_ticks ks hit)) - a2)).
Proof.
  intros hit.
  destruct (Player_take_damage_open a d p Hvul) as (Hi & Hc & _ & Hh).
  fold hit in Hi, Hc, Hh.
  assert (Hk : invincibility_frames (p_ent (player_ticks ks hit)) =
               Z.max 0 (HIT_INVINCIBILITY - Z.of_nat (List.length ks))).
  { rewrite player_ticks_invincibility; rewrite Hi; unfold HIT_INVINCIBILITY;
      [reflexivity | lia]. }
  split; [exact Hh|]. split; [exact Hc|]. split; [exact Hk|]. split.
  - intros Hlt. apply Player_take_damage_shielded. rewrite Hk.
    unfold HIT_INVINCIBILITY. lia.
  - intros Hge.
    apply Player_take_damage_open. rewrite Hk. unfold HIT_INVINCIBILITY. lia.
Qed.

Lemma X2_hit_invincibility_window_witness :
  invincibility_frames (p_ent player0) <= 0 /\
  health (p_ent (Player_take_damage 10 1 player0)) = 110 /\
  Player_take_damage 25 1
    (player_ticks [idle_keys; right_key] (Player_take_damage 10 1 player0)) =
  player_ticks [idle_keys; right_key] (Player_take_damage 10 1 player0).
Proof.
  assert (Hvul : invincibility_frames (p_ent player0) <= 0)
    by (vm_compute; discriminate).
  destruct (X2_hit_invincibility_window 10 1 25 1 [idle_keys; right_key]
              player0 Hvul) as (Hh & _ & _ & Hshield & _).
  split; [exact Hvul|]. split; [exact Hh|].
  apply Hshield. cbn [List.length]. lia.
Defined.

(** ** Blocking *)

(** X3.  A hit on an enemy who is not invincible costs the amount, or the
    amount divided by three, rounded down, when the enemy is blocking and its
    kind can block; health stops at 0, where the enemy is dead.  A blocked
    hit of a non-negative amount never costs more than the same hit
    unblocked, a blocked hit of less than 3 costs nothing, and both open the
    30 ticks of invincibility. *)
Theorem X3_blocking_reduces_damage (a d : Z) (e : Enemy)
    (Hvul : invincibility_frames (e_ent e) <= 0) :
  let taken := if blocking e && can_block (config e) then a / 3 else a in
  health (e_ent (Enemy_take_damage a d e)) =
    Z.max 0 (health (e_ent e) - taken) /\
  invincibility_frames (e_ent (Enemy_take_damage a d e)) = 30 /\
  (alive (Enemy_take_damage a d e) = false <->
   alive e = false \/ health (e_ent e) <= taken) /\
  (0 <= a ->
   health (e_ent (Enemy_take_damage a d (set_blocking false e))) <=
   health (e_ent (Enemy_take_damage a d (set_blocking true e)))) /\
  (0 <= a < 3 -> blocking e = true -> can_block (config e) = true ->
   0 <= health (e_ent e) ->
   health (e_ent (Enemy_take_damage a d e)) = health (e_ent e)).
Proof.
  intros taken.
  assert (Hopen : forall amount b,
    invincibility_frames b <= 0 ->
    health (Entity_take_damage amount d b) = Z.max 0 (health b - amount) /\
    invincibility_frames (Entity_take_damage amount d b) = 30 /\
    (is_dead (state (Entity_take_damage amount d b)) = true <->
     is_dead (state b) = true \/ health b <= amount)).
  { intros amount b Hb. unfold Entity_take_damage.
    destruct (0 <? invincibility_frames b) eqn:E;
      [apply Z.ltb_lt in E; lia|].
    cbv zeta. cbn [health set_velocity_x set_invincibility_frames set_health].
    destruct (health b - amount <=? 0) eqn:F;
      cbn [health invincibility_frames state set_state set_health
           set_velocity_x set_invincibility_frames];
      [apply Z.leb_le in F|apply Z.leb_gt in F].
    - split; [lia|]. split; [reflexivity|]. split; [right; lia|reflexivity].
    - split; [lia|]. split; [reflexivity|].
      split; [tauto|]. intros [H|H]; [exact H|lia]. }
  assert (Hunf : forall e0, e_ent (Enemy_take_damage a d e0) =
    Entity_take_damage
      (if blocking e0 && can_block (config e0) then a / 3 else a) d (e_ent e0))
    by reflexivity.
  destruct (Hopen taken (e_ent e) Hvul) as (Hh & Hi & Hd).
  rewrite Hunf. fold taken.
  split; [exact Hh|]. split; [exact Hi|]. split.
  - unfold alive. rewrite Hunf. fold taken. rewrite !negb_false_iff. exact Hd.
  - split.
    + intros Ha. rewrite !Hunf.
      cbn [blocking set_blocking config e_ent andb].
      destruct (Hopen a (e_ent e) Hvul) as (H1 & _).
      destruct (Hopen (if can_block (config e) then a / 3 else a) (e_ent e) Hvul)
        as (H2 & _).
      rewrite H1, H2.
      assert (a / 3 <= a) by (apply Z.div_le_upper_bound; lia).
      destruct (can_block (config e)); lia.
    + intros Ha Hb Hc Hpos. rewrite Hh. unfold taken. rewrite Hb, Hc.
      cbn [andb]. rewrite Z.div_small by lia. lia.
Qed.

Lemma X3_blocking_reduces_damage_witness :
  health (e_ent (Enemy_take_damage 35 1
                   (set_blocking true (new_Enemy 1 300 470 bane_mercenary)))) = 89.
Proof.
  assert (Hvul : invincibility_frames
                   (e_ent (set_blocking true (new_Enemy 1 300 470 bane_mercenary))) <= 0)
    by (vm_compute; discriminate).
  destruct (X3_blocking_reduces_damage 35 1 _ Hvul) as (Hh & _).
  rewrite Hh. reflexivity.
Defined.

(** ** Jumping *)

(** X4.  From a full set of jumps the first jump has [JUMP_POWER], the
    second [DOUBLE_JUMP_POWER], and a third does nothing; a jump is possible
    in every state of the player, and puts the player in the state JUMPING. *)
Theorem X4_double_jump (p : Player)
    (Hfull : jumps_remaining p = MAX_JUMPS) :
  ent_velocity_y (p_ent (jump p)) = JUMP_POWER /\
  ent_velocity_y (p_ent (jump (jump p))) = DOUBLE_JUMP_POWER /\
  state (p_ent (jump p)) = JUMPING /\
  state (p_ent (jump (jump p))) = JUMPING /\
  jumps_remaining (jump (jump p)) = 0 /\
  jump (jump (jump p)) = jump (jump p).
Proof.
  destruct p as [e j cc ct sc pc kc bc ad]. cbn [jumps_remaining] in Hfull.
  subst j. unfold jump.
  cbn [jumps_remaining with_ent set_jumps_remaining p_ent Z.ltb Z.eqb
       Z.compare MAX_JUMPS Z.sub Z.add Z.opp Z.pos_sub Pos.pred_double
       combo_count combo_timer score punch_cooldown kick_cooldown
       batarang_cooldown attack_duration Pos.compare Pos.compare_cont Pos.eqb].
  repeat split; reflexivity.
Qed.

Lemma X4_double_jump_witness :
  ent_velocity_y (p_ent (jump (jump player0))) = DOUBLE_JUMP_POWER /\
  jump (jump (jump player0)) = jump (jump player0).
Proof.
  destruct (X4_double_jump player0) as (_ & H2 & _ & _ & _ & H3);
    [reflexivity|].
  split; assumption.
Defined.

Lemma jump_spent (p : Player) : jumps_remaining p <= 0 -> jump p = p.
Proof.
  intros H. unfold jump.
  destruct (0 <? jumps_remaining p) eqn:E; [apply Z.ltb_lt in E; lia|].
  reflexivity.
Qed.

(** ** The attack and combo counters over the ticks of the player *)

Lemma Player_update_counters (p : Player) :
  current_attack (p_ent (Player_update p)) = current_attack (p_ent p) /\
  facing_right (p_ent (Player_update p)) = facing_right (p_ent p) /\
  attack_duration (Player_update p) = attack_duration p /\
  punch_cooldown (Player_update p) = punch_cooldown p /\
  kick_cooldown (Player_update p) = kick_cooldown p /\
  batarang_cooldown (Player_update p) = batarang_cooldown p.
Proof.
  rewrite Player_update_blocks.
  cbn [p_ent set_jumps_remaining with_ent attack_duration punch_cooldown
       kick_cooldown batarang_cooldown].
  set (b := keep_in_bounds (airborne (land (fall (p_ent p))))).
  assert (Hb : same_body b (p_ent p)).
  { unfold b.
    eapply same_body_trans; [apply keep_in_bounds_same_body|].
    eapply same_body_trans; [apply airborne_same_body|].
    eapply same_body_trans; [apply land_same_body|].
    apply fall_same_body. }
  destruct Hb as (_ & _ & _ & _ & _ & Hc & Hf).
  destruct (animate_same_body 8 (count_down b)) as (_ & _ & _ & _ & _ & Ac & Af).
  rewrite Ac, Af, <- Hc, <- Hf. clearbody b.
  unfold count_down.
  destruct (0 <? invincibility_frames b); repeat split; reflexivity.
Qed.

(** The state after a block is the state before, or one that the block
    sets: none sets DEAD. *)
Definition state_step (a b : Entity) : Prop :=
  state a = state b \/ state a = IDLE \/ state a = JUMPING \/
  state a = FALLING.

Lemma state_step_alive (a b c : Entity) :
  state_step a b -> (state b = state c \/ state b <> DEAD) ->
  state c <> DEAD -> state a <> DEAD.
Proof.
  unfold state_step. intros [H|[H|[H|H]]] [G|G] Hc; congruence.
Qed.

Lemma Player_update_alive (p : Player) :
  state (p_ent p) <> DEAD -> state (p_ent (Player_update p)) <> DEAD.
Proof.
  intros Halive. rewrite Player_update_blocks.
  cbn [p_ent set_jumps_remaining with_ent].
  assert (H1 : state (fall (p_ent p)) = state (p_ent p)).
  { unfold fall, apply_gravity. cbv zeta. reflexivity. }
  assert (H2 : forall b, state b <> DEAD -> state (land b) <> DEAD).
  { intros b Hb. unfold land. destruct (lands b); [|exact Hb]. cbv zeta.
    cbn [state set_velocity_y set_y].
    destruct (state b) eqn:S; cbn [state set_state set_velocity_y set_y];
      rewrite ?S; congruence. }
  assert (H3 : forall b, state b <> DEAD -> state (airborne b) <> DEAD).
  { intros b Hb. unfold airborne.
    destruct (Qltb (ent_velocity_y b) 0); [discriminate|].
    destruct (Qltb 2 (ent_velocity_y b) && negb (is_on_ground b));
      [discriminate|exact Hb]. }
  assert (H4 : forall b, state (keep_in_bounds b) = state b).
  { intros b. unfold keep_in_bounds. cbv zeta.
    destruct (Qltb (x b) 0);
      match goal with
      | |- context [if ?c then _ else _] => destruct c
      end; reflexivity. }
  assert (H5 : forall b, state (count_down b) = state b).
  { intros b. unfold count_down.
    destruct (0 <? invincibility_frames b); reflexivity. }
  assert (H6 : forall n b, state (animate n b) = state b).
  { intros n b. unfold animate. cbv zeta.
    destruct (n <=? animation_timer b + 1); reflexivity. }
  rewrite H6, H5, H4. apply H3, H2. rewrite H1. exact Halive.
Qed.

(** One tick of a living player: it lives on, and the counters of
    [handle_input] move as that function has them. *)
Lemma player_tick_counters (k : Keys) (p : Player) :
  state (p_ent p) <> DEAD ->
  let q := Player_update (handle_input k p) in
  state (p_ent q) <> DEAD /\
  attack_duration q =
    (if 0 <? attack_duration p then attack_duration p - 1
     else attack_duration p) /\
  current_attack (p_ent q) =
    (if attack_duration p =? 1 then NONE else current_attack (p_ent p)) /\
  punch_cooldown q =
    (if 0 <? punch_cooldown p then punch_cooldown p - 1 else punch_cooldown p) /\
  kick_cooldown q =
    (if 0 <? kick_cooldown p then kick_cooldown p - 1 else kick_cooldown p) /\
  batarang_cooldown q =
    (if 0 <? batarang_cooldown p then batarang_cooldown p - 1
     else batarang_cooldown p) /\
  combo_timer q =
    (if 0 <? combo_timer p then combo_timer p - 1 else combo_timer p) /\
  combo_count q = (if 0 <? combo_timer p then combo_count p else 0).
Proof.
  intros Halive q. unfold q.
  destruct (stance_steer k (p_ent p) Halive) as (Es & Ec & _).
  assert (Hh := handle_input_closed k p Halive).
  set (h := handle_input k p) in *.
  destruct (Player_update_counters h) as (Uc & _ & Ud & Up & Uk & Ub).
  destruct (Player_update_body h) as (_ & _ & _ & _ & _ & Ucc & Uct & _).
  assert (Hlive : state (p_ent h) <> DEAD).
  { rewrite Hh. cbn [p_ent]. destruct (attack_duration p =? 1); exact Es. }
  split; [apply Player_update_alive; exact Hlive|].
  rewrite Ud, Uc, Up, Uk, Ub, Uct, Ucc, Hh.
  cbn [p_ent attack_duration punch_cooldown kick_cooldown batarang_cooldown
       combo_timer combo_count].
  repeat split.
  destruct (attack_duration p =? 1); [reflexivity|exact Ec].
Qed.

Lemma player_ticks_counters (ks : list Keys) (p : Player) :
  state (p_ent p) <> DEAD ->
  let n := Z.of_nat (List.length ks) in
  let q := player_ticks ks p in
  state (p_ent q) <> DEAD /\
  (0 <= attack_duration p -> attack_duration q = Z.max 0 (attack_duration p - n)) /\
  current_attack (p_ent q) =
    (if (1 <=? attack_duration p) && (attack_duration p <=? n)
     then NONE else current_attack (p_ent p)) /\
  (0 <= punch_cooldown p -> punch_cooldown q = Z.max 0 (punch_cooldown p - n)) /\
  (0 <= kick_cooldown p -> kick_cooldown q = Z.max 0 (kick_cooldown p - n)) /\
  (0 <= batarang_cooldown p ->
   batarang_cooldown q = Z.max 0 (batarang_cooldown p - n)) /\
  (0 <= combo_timer p -> combo_timer q = Z.max 0 (combo_timer p - n)) /\
  (0 <= combo_timer p ->
   combo_count q = if n <=? combo_timer p then combo_count p else 0).
Proof.
  revert p. induction ks as [|k ks IH]; intros p Halive n q.
  - unfold q, n. change (player_ticks [] p) with p. cbn [List.length Z.of_nat].
    split; [exact Halive|].
    split; [intros; lia|].
    split.
    { destruct (1 <=? attack_duration p) eqn:A; [|reflexivity].
      destruct (attack_duration p <=? 0) eqn:B; [|reflexivity].
      apply Z.leb_le in A, B. lia. }
    repeat split; intros H; try lia.
    destruct (0 <=? combo_timer p) eqn:C; [reflexivity|].
    apply Z.leb_gt in C. lia.
  - unfold q, n. rewrite player_ticks_cons.
    destruct (player_tick_counters k p Halive)
      as (Tl & Td & Tc & Tp & Tk & Tb & Tt & Tn).
    set (t := Player_update (handle_input k p)) in *. clearbody t.
    destruct (IH t Tl) as (Il & Id & Ic & Ip & Ik & Ib & It & In).
    cbv zeta in Id, Ic, Ip, Ik, Ib, It, In.
    set (m := Z.of_nat (List.length ks)) in *.
    replace (Z.of_nat (List.length (k :: ks))) with (m + 1)
      by (unfold m; cbn [List.length]; lia).
    assert (Hm : 0 <= m) by (unfold m; lia).
    split; [exact Il|].
    split.
    { intros H. rewrite Id; rewrite Td;
        destruct (0 <? attack_duration p) eqn:E;
        try apply Z.ltb_lt in E; try apply Z.ltb_ge in E; lia. }
    split.
    { rewrite Ic, Tc, Td.
      destruct (0 <? attack_duration p) eqn:E;
        [apply Z.ltb_lt in E|apply Z.ltb_ge in E];
        destruct (attack_duration p =? 1) eqn:F;
        [apply Z.eqb_eq in F|apply Z.eqb_neq in F|
         apply Z.eqb_eq in F|apply Z.eqb_neq in F];
        repeat match goal with
        | |- context [?a <=? ?b] =>
            let L := fresh "L" in
            destruct (a <=? b) eqn:L;
            [apply Z.leb_le in L|apply Z.leb_gt in L]
        end; cbn [andb]; try reflexivity; lia. }
    split.
    { intros H. rewrite Ip; rewrite Tp;
        destruct (0 <? punch_cooldown p) eqn:E;
        try apply Z.ltb_lt in E; try apply Z.ltb_ge in E; lia. }
    split.
    { intros H. rewrite Ik; rewrite Tk;
        destruct (0 <? kick_cooldown p) eqn:E;
        try apply Z.ltb_lt in E; try apply Z.ltb_ge in E; lia. }
    split.
    { intros H. rewrite Ib; rewrite Tb;
        destruct (0 <? batarang_cooldown p) eqn:E;
        try apply Z.ltb_lt in E; try apply Z.ltb_ge in E; lia. }
    split.
    { intros H. rewrite It; rewrite Tt;
        destruct (0 <? combo_timer p) eqn:E;
        try apply Z.ltb_lt in E; try apply Z.ltb_ge in E; lia. }
    intros H. rewrite In; rewrite Tt, ?Tn;
      destruct (0 <? combo_timer p) eqn:E;
      try apply Z.ltb_lt in E; try apply Z.ltb_ge in E; try lia;
      repeat match goal with
      | |- context [?a <=? ?b] =>
          let L := fresh "L" in
          destruct (a <=? b) eqn:L;
          [apply Z.leb_le in L|apply Z.leb_gt in L]
      end; try reflexivity; lia.
Qed.

(** ** The rhythm of attacks and the combo window *)

(** X5.  A punch or a kick that starts stays the current attack, with its
    hitbox, for the 15 or 20 ticks of its duration, whatever the keys, and no
    punch or kick can start during them; at the end of the duration the
    attack is over and the same attack can start again at once.  So a punch
    can follow a punch every 15 ticks: the cooldown of 12 is always over
    before the attack is. *)
Theorem X5_attack_rhythm (kicking : bool) (ks : list Keys) (p : Player)
    (Hstart : fst (if kicking then kick p else punch p) = true) :
  let duration := if kicking then KICK_DURATION else PUNCH_DURATION in
  let q := player_ticks ks (snd (if kicking then kick p else punch p)) in
  (Z.of_nat (List.length ks) < duration ->
   current_attack (p_ent q) = (if kicking then KICK else PUNCH) /\
   attack_duration q = duration - Z.of_nat (List.length ks) /\
   Player_get_attack_rect q <> None /\
   fst (punch q) = false /\ fst (kick q) = false) /\
  (duration <= Z.of_nat (List.length ks) ->
   current_attack (p_ent q) = NONE /\
   Player_get_attack_rect q = None /\
   fst (if kicking then kick q else punch q) = true).
Proof.
  intros duration q. subst q.
  set (s := snd (if kicking then kick p else punch p)).
  assert (Hs : state (p_ent s) <> DEAD /\
               current_attack (p_ent s) = (if kicking then KICK else PUNCH) /\
               attack_duration s = duration /\
               (if kicking then kick_cooldown s else punch_cooldown s)
                 = (if kicking then KICK_COOLDOWN else PUNCH_COOLDOWN)).
  { unfold s, duration. destruct kicking.
    - unfold kick in *.
      destruct ((kick_cooldown p <=? 0) && (attack_duration p <=? 0));
        [|discriminate Hstart].
      cbn [snd]. repeat split. discriminate.
    - unfold punch in *.
      destruct ((punch_cooldown p <=? 0) && (attack_duration p <=? 0));
        [|discriminate Hstart].
      cbn [snd]. repeat split. discriminate. }
  clearbody s. destruct Hs as (Hl & Hc & Hd & Hcd).
  destruct (player_ticks_counters ks s Hl) as (_ & Qd & Qc & Qp & Qk & _).
  cbv zeta in Qd, Qc, Qp, Qk.
  set (q := player_ticks ks s) in *. clearbody q.
  set (n := Z.of_nat (List.length ks)) in *.
  assert (Hn : 0 <= n) by (unfold n; lia).
  assert (Hdur : 0 < duration /\ duration = if kicking then 20 else 15)
    by (unfold duration; destruct kicking; split; reflexivity).
  destruct Hdur as (Hpos & Hval).
  rewrite Hd in Qd, Qc. specialize (Qd ltac:(lia)).
  split.
  - intros Hlt.
    assert (Ec : current_attack (p_ent q) = if kicking then KICK else PUNCH).
    { rewrite Qc, Hc. destruct (duration <=? n) eqn:E;
        [apply Z.leb_le in E; lia|]. rewrite andb_false_r. reflexivity. }
    assert (Ed : attack_duration q = duration - n) by lia.
    assert (Ez : (attack_duration q <=? 0) = false)
      by (apply Z.leb_gt; lia).
    split; [exact Ec|]. split; [exact Ed|]. split.
    + unfold Player_get_attack_rect. cbv zeta. rewrite Ec, Ez.
      destruct kicking; cbn [AttackType_eqb orb];
        destruct (facing_right (p_ent q)); discriminate.
    + unfold punch, kick. rewrite Ez, !andb_false_r. split; reflexivity.
  - intros Hge.
    assert (Ec : current_attack (p_ent q) = NONE).
    { rewrite Qc. destruct (1 <=? duration) eqn:E1;
        [|apply Z.leb_gt in E1; lia].
      destruct (duration <=? n) eqn:E2; [reflexivity|].
      apply Z.leb_gt in E2. lia. }
    split; [exact Ec|]. split.
    + unfold Player_get_attack_rect. cbv zeta. rewrite Ec. reflexivity.
    + assert (Ez : (attack_duration q <=? 0) = true)
        by (apply Z.leb_le; lia).
      destruct kicking.
      * unfold kick. rewrite Ez, Qk; rewrite Hcd; unfold KICK_COOLDOWN;
          [|lia].
        replace (Z.max 0 (20 - n) <=? 0) with true
          by (symmetry; apply Z.leb_le; lia).
        reflexivity.
      * unfold punch. rewrite Ez, Qp; rewrite Hcd; unfold PUNCH_COOLDOWN;
          [|lia].
        replace (Z.max 0 (12 - n) <=? 0) with true
          by (symmetry; apply Z.leb_le; lia).
        reflexivity.
Qed.

Lemma X5_attack_rhythm_witness :
  fst (punch player0) = true /\
  fst (punch (player_ticks [idle_keys; right_key] (snd (punch player0))))
    = false.
Proof.
  assert (Hstart : fst (punch player0) = true) by reflexivity.
  destruct (X5_attack_rhythm false [idle_keys; right_key] player0 Hstart)
    as (Hduring & _).
  split; [exact Hstart|].
  destruct Hduring as (_ & _ & _ & Hp & _); [reflexivity|].
  exact Hp.
Defined.

(** X6.  A registered hit raises the combo by one and opens the combo
    window: a living player keeps the combo through the next
    [COMBO_WINDOW] ticks, whatever the keys, and loses it on the tick after
    them. *)
Theorem X6_combo_window (ks : list Keys) (p : Player)
    (Halive : state (p_ent p) <> DEAD) :
  let q := player_ticks ks (register_hit p) in
  combo_count q =
    (if Z.of_nat (List.length ks) <=? COMBO_WINDOW
     then combo_count p + 1 else 0) /\
  combo_timer q = Z.max 0 (COMBO_WINDOW - Z.of_nat (List.length ks)).
Proof.
  intros q. subst q.
  destruct (player_ticks_counters ks (register_hit p) Halive)
    as (_ & _ & _ & _ & _ & _ & Qt & Qc).
  cbv zeta in Qt, Qc.
  change (combo_timer (register_hit p)) with COMBO_WINDOW in Qt, Qc.
  change (combo_count (register_hit p)) with (combo_count p + 1) in Qc.
  split; [apply Qc|apply Qt]; unfold COMBO_WINDOW; lia.
Qed.

Lemma X6_combo_window_witness :
  state (p_ent player0) <> DEAD /\
  combo_count (player_ticks [idle_keys; right_key] (register_hit player0)) = 1.
Proof.
  assert (Halive : state (p_ent player0) <> DEAD) by discriminate.
  split; [exact Halive|].
  destruct (X6_combo_window [idle_keys; right_key] player0 Halive) as (Hc & _).
  rewrite Hc. reflexivity.
Defined.

(** ** [Player.update]: ground, bounds and falling speed *)

Lemma keep_in_bounds_vertical (b : Entity) :
  y (keep_in_bounds b) = y b /\
  ent_velocity_y (keep_in_bounds b) = ent_velocity_y b /\
  state (keep_in_bounds b) = state b.
Proof.
  unfold keep_in_bounds. cbv zeta.
  destruct (Qltb (x b) 0);
    match goal with
    | |- context [if ?c then _ else _] => destruct c
    end; repeat split; reflexivity.
Qed.

Lemma count_down_place (b : Entity) :
  x (count_down b) = x b /\ y (count_down b) = y b /\
  ent_velocity_y (count_down b) = ent_velocity_y b /\
  state (count_down b) = state b /\ width (count_down b) = width b /\
  height (count_down b) = height b.
Proof.
  unfold count_down.
  destruct (0 <? invincibility_frames b); repeat split; reflexivity.
Qed.

Lemma animate_place (n : Z) (b : Entity) :
  x (animate n b) = x b /\ y (animate n b) = y b /\
  ent_velocity_y (animate n b) = ent_velocity_y b /\
  state (animate n b) = state b.
Proof.
  unfold animate. cbv zeta.
  destruct (n <=? animation_timer b + 1); repeat split; reflexivity.
Qed.

(** The level bounds: after the block the entity is not right of
    [LEVEL_WIDTH - width], and not left of 0 if it fits in the level. *)
Lemma keep_in_bounds_x (b : Entity) :
  (x (keep_in_bounds b) <= inject_Z (LEVEL_WIDTH - width b))%Q /\
  (width b <= LEVEL_WIDTH -> (0 <= x (keep_in_bounds b))%Q).
Proof.
  unfold keep_in_bounds. cbv zeta.
  destruct (Qltb (x b) 0) eqn:A; cbn [width set_x x].
  - destruct (Qltb (inject_Z (LEVEL_WIDTH - width b)) 0) eqn:B;
      cbn [x set_x].
    + split; [apply Qle_refl|].
      intros H. change 0%Q with (inject_Z 0). rewrite <- Zle_Qle. lia.
    + apply Qltb_ge in B. split; [exact B|intros _; apply Qle_refl].
  - apply Qltb_ge in A.
    destruct (Qltb (inject_Z (LEVEL_WIDTH - width b)) (x b)) eqn:B;
      cbn [x set_x].
    + split; [apply Qle_refl|].
      intros H. change 0%Q with (inject_Z 0). rewrite <- Zle_Qle. lia.
    + apply Qltb_ge in B. split; [exact B|intros _; exact A].
Qed.

Lemma fall_velocity (b : Entity) :
  (ent_velocity_y (fall b) <= 20)%Q /\
  (ent_velocity_y b + GRAVITY <= 20 ->
   ent_velocity_y (fall b) = ent_velocity_y b + GRAVITY)%Q /\
  y (fall b) = (y b + ent_velocity_y (fall b))%Q /\
  state (fall b) = state b.
Proof.
  unfold fall, apply_gravity. cbv zeta.
  cbn [ent_velocity_y set_velocity_y set_x set_y y state].
  destruct (Qltb 20 (ent_velocity_y b + GRAVITY)) eqn:E.
  - apply Qltb_lt in E. split; [apply Qle_refl|].
    split; [|split; reflexivity].
    intros H. exfalso. apply (Qlt_not_le _ _ E H).
  - apply Qltb_ge in E. split; [exact E|]. repeat split; reflexivity.
Qed.

Lemma land_vertical (b : Entity) :
  (y (land b) + inject_Z (height b) <= inject_Z GROUND_LEVEL)%Q /\
  (ent_velocity_y (land b) <= Qmax 0 (ent_velocity_y b))%Q /\
  (lands b = true ->
   y (land b) = inject_Z (GROUND_LEVEL - height b) /\
   ent_velocity_y (land b) = 0%Q /\
   state (land b) = match state b with
                    | JUMPING | FALLING => IDLE
                    | s => s
                    end).
Proof.
  unfold land. destruct (lands b) eqn:L.
  - cbv zeta. cbn [state set_velocity_y set_y].
    assert (H : forall g : Entity,
      y g = inject_Z (GROUND_LEVEL - height b) -> ent_velocity_y g = 0%Q ->
      (y g + inject_Z (height b) <= inject_Z GROUND_LEVEL)%Q /\
      (ent_velocity_y g <= Qmax 0 (ent_velocity_y b))%Q).
    { intros g Hy Hv. rewrite Hy, Hv. split.
      - rewrite <- inject_Z_plus, <- Zle_Qle. lia.
      - apply Q.le_max_l. }
    destruct (state b) eqn:S;
      (split; [apply H; reflexivity|split; [apply H; reflexivity|]]);
      intros _; cbn [y ent_velocity_y state set_state set_velocity_y set_y];
      rewrite ?S; repeat split; reflexivity.
  - unfold lands in L. apply Qltb_ge in L.
    split; [exact L|]. split; [apply Q.le_max_r|]. discriminate.
Qed.

Lemma airborne_vertical (b : Entity) :
  y (airborne b) = y b /\ ent_velocity_y (airborne b) = ent_velocity_y b /\
  (ent_velocity_y b = 0%Q -> airborne b = b).
Proof.
  unfold airborne.
  destruct (Qltb (ent_velocity_y b) 0) eqn:A.
  - repeat split. intros H. rewrite H in A. discriminate A.
  - destruct (Qltb 2 (ent_velocity_y b) && negb (is_on_ground b)) eqn:B;
      repeat split.
    intros H. rewrite H in B. discriminate B.
Qed.

(** The bounds that [Player.update] sets. *)
Lemma Player_update_bounds (p : Player) :
  let q := Player_update p in
  (x (p_ent q) <= inject_Z (LEVEL_WIDTH - width (p_ent p)))%Q /\
  (width (p_ent p) <= LEVEL_WIDTH -> (0 <= x (p_ent q))%Q) /\
  (y (p_ent q) + inject_Z (height (p_ent p)) <= inject_Z GROUND_LEVEL)%Q /\
  (ent_velocity_y (p_ent q) <= 20)%Q /\
  (lands (fall (p_ent p)) = true ->
   jumps_remaining q = MAX_JUMPS /\
   ent_velocity_y (p_ent q) = 0%Q /\
   y (p_ent q) = inject_Z (GROUND_LEVEL - height (p_ent p))) /\
  (lands (fall (p_ent p)) = false -> jumps_remaining q = jumps_remaining p).
Proof.
  intros q. subst q. rewrite Player_update_blocks.
  cbn [p_ent set_jumps_remaining with_ent jumps_remaining].
  set (e := p_ent p). clearbody e.
  destruct (animate_place 8 (count_down (keep_in_bounds
              (airborne (land (fall e)))))) as (Ax & Ay & Av & _).
  destruct (count_down_place (keep_in_bounds (airborne (land (fall e)))))
    as (Cx & Cy & Cv & _).
  destruct (keep_in_bounds_vertical (airborne (land (fall e))))
    as (Ky & Kv & _).
  destruct (keep_in_bounds_x (airborne (land (fall e)))) as (Kx1 & Kx2).
  destruct (airborne_vertical (land (fall e))) as (Ry & Rv & _).
  destruct (land_vertical (fall e)) as (Ly & Lv & Ll).
  destruct (fall_velocity e) as (Fv & _).
  destruct (fall_same_body e) as (_ & _ & _ & Fw & Fh & _).
  destruct (land_same_body (fall e)) as (_ & _ & _ & Lw & _).
  destruct (airborne_same_body (land (fall e))) as (_ & _ & _ & Rw & _).
  rewrite Ax, Ay, Av, Cx, Cy, Cv, Ky, Kv, Ry, Rv.
  rewrite Rw, Lw, Fw in Kx1, Kx2. rewrite Fh in Ly, Ll.
  split; [exact Kx1|]. split; [exact Kx2|]. split; [exact Ly|].
  split.
  { eapply Qle_trans; [exact Lv|]. apply Q.max_lub; [discriminate|exact Fv]. }
  split.
  - intros L. rewrite L. destruct (Ll L) as (H1 & H2 & _).
    split; [reflexivity|]. split; assumption.
  - intros L. rewrite L. reflexivity.
Qed.

(** X7.  After [Player.update] the player is inside the level and on or
    above the ground, and falls at 20 a tick at most; a player who comes
    down to the ground is put on it, at rest, and has both jumps again, and
    one who does not keeps the jumps they had. *)
Theorem X7_player_update_bounds (p : Player) :
  let q := Player_update p in
  (x (p_ent q) <= inject_Z (LEVEL_WIDTH - width (p_ent p)))%Q /\
  (width (p_ent p) <= LEVEL_WIDTH -> (0 <= x (p_ent q))%Q) /\
  (y (p_ent q) + inject_Z (height (p_ent p)) <= inject_Z GROUND_LEVEL)%Q /\
  (ent_velocity_y (p_ent q) <= 20)%Q /\
  (lands (fall (p_ent p)) = true ->
   jumps_remaining q = MAX_JUMPS /\
   ent_velocity_y (p_ent q) = 0%Q /\
   y (p_ent q) = inject_Z (GROUND_LEVEL - height (p_ent p))) /\
  (lands (fall (p_ent p)) = false -> jumps_remaining q = jumps_remaining p).
Proof. exact (Player_update_bounds p). Qed.

(** ** The state ATTACKING *)

Lemma stance_attacking (keys : Keys) (e : Entity) :
  state e = ATTACKING -> state (stance (steer keys e)) = ATTACKING.
Proof.
  intros H. unfold stance, steer. cbv zeta.
  destruct (key_left keys); [|destruct (key_right keys)];
    cbn [fst snd state set_facing_right set_velocity_x]; rewrite H;
    cbn [state set_facing_right set_velocity_x]; exact H.
Qed.

Lemma Player_update_standing (p : Player) :
  standing (p_ent p) ->
  standing (p_ent (Player_update p)) /\
  jumps_remaining (Player_update p) = MAX_JUMPS /\
  state (p_ent (Player_update p)) =
    match state (p_ent p) with
    | JUMPING | FALLING => IDLE
    | s => s
    end.
Proof.
  intros (Hy & Hv).
  destruct (Player_update_body p) as (_ & _ & _ & _ & Hh & _).
  unfold standing. rewrite Hh. clear Hh.
  rewrite Player_update_blocks.
  cbn [p_ent set_jumps_remaining with_ent jumps_remaining].
  set (e := p_ent p) in *. clearbody e.
  destruct (fall_velocity e) as (_ & Fg & Fy & Fs).
  destruct (fall_same_body e) as (_ & _ & _ & _ & Fh & _).
  assert (Hg : (ent_velocity_y e + GRAVITY <= 20)%Q)
    by (unfold GRAVITY; lra).
  specialize (Fg Hg).
  assert (L : lands (fall e) = true).
  { unfold lands. apply Qltb_lt. rewrite Fy, Fg, Fh. unfold GRAVITY. lra. }
  destruct (land_vertical (fall e)) as (_ & _ & Ll).
  destruct (Ll L) as (Ly & Lv & Ls). clear Ll.
  destruct (airborne_vertical (land (fall e))) as (_ & _ & Ra).
  specialize (Ra Lv).
  destruct (animate_place 8 (count_down (keep_in_bounds
              (airborne (land (fall e)))))) as (_ & Ay & Av & As).
  destruct (count_down_place (keep_in_bounds (airborne (land (fall e)))))
    as (_ & Cy & Cv & Cs & _).
  destruct (keep_in_bounds_vertical (airborne (land (fall e))))
    as (Ky & Kv & Ks).
  rewrite Ay, Av, As, Cy, Cv, Cs, Ky, Kv, Ks, Ra, Ly, Lv, Ls, Fs, Fh, L.
  split; [split|split]; try reflexivity.
  rewrite <- inject_Z_plus. replace (GROUND_LEVEL - height e + height e)
    with GROUND_LEVEL by lia. reflexivity.
Qed.

Lemma player_tick_attacking (k : Keys) (p : Player) :
  state (p_ent p) = ATTACKING -> standing (p_ent p) ->
  state (p_ent (Player_update (handle_input k p))) = ATTACKING /\
  standing (p_ent (Player_update (handle_input k p))).
Proof.
  intros Hst (Hy & Hv).
  assert (Hlive : state (p_ent p) <> DEAD) by (rewrite Hst; discriminate).
  assert (Hh := handle_input_closed k p Hlive).
  destruct (stance_steer k (p_ent p) Hlive)
    as (_ & _ & _ & _ & _ & _ & Ey & Ev & _ & Eh).
  assert (Es := stance_attacking k (p_ent p) Hst).
  set (h := handle_input k p) in *.
  assert (Hh' : state (p_ent h) = ATTACKING /\ standing (p_ent h)).
  { rewrite Hh. cbn [p_ent]. unfold standing.
    destruct (attack_duration p =? 1);
      cbn [state y height ent_velocity_y set_current_attack];
      rewrite Ey, Ev, Eh; repeat split; assumption. }
  clearbody h. destruct Hh' as (Hs' & Hstand').
  destruct (Player_update_standing h Hstand') as (Us & _ & Ust).
  split; [|exact Us]. rewrite Ust, Hs'. reflexivity.
Qed.

(** X8.  Nothing takes a player on the ground out of the state ATTACKING:
    after a punch or a kick that starts, a player who stands on the ground is
    in the state ATTACKING after every number of ticks, whatever the keys,
    also when the attack is long over; [handle_input] sets RUNNING and IDLE
    in the other ground states only, and [update] leaves the state only for
    JUMPING and FALLING. *)
Theorem X8_attacking_state_sticks (kicking : bool) (ks : list Keys)
    (p : Player)
    (Hstand : standing (p_ent p))
    (Hstart : fst (if kicking then kick p else punch p) = true) :
  let q := player_ticks ks (snd (if kicking then kick p else punch p)) in
  state (p_ent q) = ATTACKING /\
  standing (p_ent q) /\
  (20 <= Z.of_nat (List.length ks) -> current_attack (p_ent q) = NONE).
Proof.
  intros q. subst q.
  set (s := snd (if kicking then kick p else punch p)).
  assert (Hs : state (p_ent s) = ATTACKING /\ standing (p_ent s) /\
               1 <= attack_duration s <= 20).
  { unfold s. destruct kicking.
    - unfold kick in *.
      destruct ((kick_cooldown p <=? 0) && (attack_duration p <=? 0));
        [|discriminate Hstart].
      cbn [snd]. split; [reflexivity|]. split; [exact Hstand|].
      cbn [attack_duration with_ent set_attack_duration].
      unfold KICK_DURATION. lia.
    - unfold punch in *.
      destruct ((punch_cooldown p <=? 0) && (attack_duration p <=? 0));
        [|discriminate Hstart].
      cbn [snd]. split; [reflexivity|]. split; [exact Hstand|].
      cbn [attack_duration with_ent set_attack_duration].
      unfold PUNCH_DURATION. lia. }
  clearbody s. destruct Hs as (Hst & Hsd & Hd).
  assert (Hlive : state (p_ent s) <> DEAD) by (rewrite Hst; discriminate).
  destruct (player_ticks_counters ks s Hlive) as (_ & _ & Qc & _).
  cbv zeta in Qc.
  assert (Hboth : state (p_ent (player_ticks ks s)) = ATTACKING /\
                  standing (p_ent (player_ticks ks s))).
  { clear Qc Hd Hlive. revert s Hst Hsd.
    induction ks as [|k ks IH]; intros s Hst Hsd; [split; assumption|].
    rewrite player_ticks_cons.
    destruct (player_tick_attacking k s Hst Hsd) as (H1 & H2).
    apply IH; assumption. }
  destruct Hboth as (H1 & H2).
  split; [exact H1|]. split; [exact H2|].
  intros Hn. rewrite Qc.
  replace (1 <=? attack_duration s) with true
    by (symmetry; apply Z.leb_le; lia).
  replace (attack_duration s <=? Z.of_nat (List.length ks)) with true
    by (symmetry; apply Z.leb_le; lia).
  reflexivity.
Qed.

Lemma X8_attacking_state_sticks_witness :
  standing (p_ent player0) /\
  state (p_ent (player_ticks [idle_keys; right_key] (snd (punch player0))))
    = ATTACKING.
Proof.
  assert (Hstand : standing (p_ent player0))
    by (split; reflexivity).
  assert (Hstart : fst (punch player0) = true) by reflexivity.
  destruct (X8_attacking_state_sticks false [idle_keys; right_key] player0
              Hstand Hstart) as (H & _).
  split; [exact Hstand|exact H].
Defined.

(** ** [Enemy.update] *)

Lemma Enemy_cooldowns_size (e : Enemy) :
  width (e_ent (Enemy_cooldowns e)) = width (e_ent e) /\
  height (e_ent (Enemy_cooldowns e)) = height (e_ent e).
Proof.
  destruct e as [o b c sx t st bl pc]. unfold Enemy_cooldowns.
  cbn [e_ent]. cbv zeta.
  destruct (0 <? attack_cooldown b);
    cbn [projectile_cooldown with_e_ent e_ent oid config spawn_x ai_timer
         ai_state blocking];
    destruct (0 <? pc);
    cbn [set_projectile_cooldown with_e_ent e_ent oid config spawn_x ai_timer
         ai_state blocking projectile_cooldown invincibility_frames
         set_attack_cooldown];
    destruct (0 <? invincibility_frames b);
    split; reflexivity.
Qed.

Lemma Enemy_act_shot (dice : Dice) (dx d2 : Q) (e : Enemy) :
  width (e_ent (fst (Enemy_act dice dx d2 e))) = width (e_ent e) /\
  height (e_ent (fst (Enemy_act dice dx d2 e))) = height (e_ent e) /\
  forall shot : Projectile,
    snd (Enemy_act dice dx d2 e) = Some shot ->
    ai_state (fst (Enemy_act dice dx d2 e)) = attack /\
    has_projectile (config e) = true /\
    projectile_cooldown e <= 0 /\
    projectile_cooldown (fst (Enemy_act dice dx d2 e)) = 90 /\
    owner_is_player shot = false /\
    proj_active shot = true /\
    proj_damage shot = projectile_damage (config e) /\
    max_distance shot = 600.
Proof.
  destruct e as [o b c sx t st bl pc]. unfold Enemy_act.
  cbn [ai_state config e_ent spawn_x]. destruct st.
  - destruct (Qltb _ _); cbn [fst snd with_e_ent e_ent];
      repeat split; discriminate.
  - destruct (Qltb 10 dx); [cbn [fst snd with_e_ent e_ent];
                             repeat split; discriminate|].
    destruct (Qltb dx _); cbn [fst snd with_e_ent e_ent];
      repeat split; discriminate.
  - cbv zeta.
    cbn [with_e_ent e_ent oid config spawn_x ai_timer ai_state blocking
         projectile_cooldown attack_cooldown set_velocity_x].
    destruct ((attack_cooldown b <=? 0) && _);
      cbn [with_e_ent e_ent oid config spawn_x ai_timer ai_state blocking
           projectile_cooldown];
      destruct (has_projectile c) eqn:Hp; cbn [andb];
      try (cbn [fst snd e_ent]; repeat split; discriminate);
      destruct (pc <=? 0) eqn:Hc; cbn [andb];
      try (cbn [fst snd e_ent]; repeat split; discriminate);
      destruct (dist_gt d2 100 && dist_lt d2 400);
      cbn [fst snd e_ent set_projectile_cooldown projectile_cooldown];
      try (repeat split; discriminate);
      (split; [reflexivity|]; split; [reflexivity|];
       intros shot H; injection H as <-; apply Z.leb_le in Hc;
       repeat split; first [assumption | reflexivity]).
  - destruct (Qltb 0 dx); cbn [fst snd with_e_ent e_ent];
      repeat split; discriminate.
Qed.

Lemma Enemy_react_blocking (dice : Dice) (dx d2 : Q) (pl : Player)
    (e : Enemy) :
  width (e_ent (Enemy_react dice dx d2 pl e)) = width (e_ent e) /\
  height (e_ent (Enemy_react dice dx d2 pl e)) = height (e_ent e) /\
  projectile_cooldown (Enemy_react dice dx d2 pl e) = projectile_cooldown e /\
  (blocking (Enemy_react dice dx d2 pl e) = true ->
   can_block (config e) = true /\ 0 < attack_duration pl) /\
  (0 < attack_duration pl -> can_block (config e) = true ->
   blocking e = true -> blocking (Enemy_react dice dx d2 pl e) = true).
Proof.
  destruct e as [o b c sx t st bl pc]. unfold Enemy_react.
  cbn [config]. cbv zeta.
  destruct (can_block c) eqn:Hc; cbn [andb];
    destruct (0 <? attack_duration pl) eqn:Ha;
    try destruct (Qltb (roll_block dice) (3 # 10));
    destruct (can_dodge c); cbn [andb];
    try destruct (5 <? attack_duration pl);
    try destruct (dist_lt d2 100 && Qltb (roll_dodge dice) (2 # 10));
    cbn [with_e_ent set_blocking e_ent oid config spawn_x ai_timer ai_state
         blocking projectile_cooldown width height set_state set_velocity_x];
    try apply Z.ltb_lt in Ha; try apply Z.ltb_ge in Ha;
    repeat split; try reflexivity; try assumption; try discriminate;
    try (intros; lia); try (intros; assumption).
Qed.

Lemma attack_tick_place (b : Entity) :
  x (attack_tick b) = x b /\ y (attack_tick b) = y b /\
  width (attack_tick b) = width b /\ height (attack_tick b) = height b.
Proof.
  unfold attack_tick. destruct (0 <? attack_frame b); [|repeat split].
  cbv zeta. cbn [attack_frame set_attack_frame].
  destruct (attack_frame b - 1 =? 0); repeat split.
Qed.

Lemma settle_ground (b : Entity) :
  (y (settle b) + inject_Z (height b) <= inject_Z GROUND_LEVEL)%Q.
Proof.
  unfold settle. destruct (lands b) eqn:L.
  - cbn [y set_velocity_y set_y].
    rewrite <- inject_Z_plus, <- Zle_Qle. lia.
  - unfold lands in L. apply Qltb_ge in L. exact L.
Qed.

(** The tail of the enemy's update leaves the entity inside the level and
    on or above the ground. *)
Lemma Enemy_physics_bounds (b : Entity) :
  width (Enemy_physics b) = width b /\
  height (Enemy_physics b) = height b /\
  (x (Enemy_physics b) <= inject_Z (LEVEL_WIDTH - width b))%Q /\
  (width b <= LEVEL_WIDTH -> (0 <= x (Enemy_physics b))%Q) /\
  (y (Enemy_physics b) + inject_Z (height b) <= inject_Z GROUND_LEVEL)%Q.
Proof.
  rewrite Enemy_physics_blocks.
  destruct (animate_place 10 (attack_tick (keep_in_bounds (settle (fall b)))))
    as (Ax & Ay & _).
  destruct (animate_same_body 10
              (attack_tick (keep_in_bounds (settle (fall b)))))
    as (_ & _ & _ & Aw & Ah & _).
  destruct (attack_tick_place (keep_in_bounds (settle (fall b))))
    as (Tx & Ty & Tw & Th).
  destruct (keep_in_bounds_same_body (settle (fall b)))
    as (_ & _ & _ & Kw & Kh & _).
  destruct (keep_in_bounds_vertical (settle (fall b))) as (Ky & _).
  destruct (keep_in_bounds_x (settle (fall b))) as (Kx1 & Kx2).
  destruct (settle_same_body (fall b)) as (_ & _ & _ & Sw & Sh & _).
  destruct (fall_same_body b) as (_ & _ & _ & Fw & Fh & _).
  assert (Sg := settle_ground (fall b)).
  rewrite Ax, Ay, Aw, Ah, Tx, Ty, Tw, Th, Kw, Kh, Ky, Sw, Sh, Fw, Fh.
  rewrite Sw, Fw in Kx1, Kx2. rewrite Fh in Sg.
  repeat split; assumption.
Qed.

(** X9.  The update of a living enemy keeps it alive, with the health it
    had, inside the level and on or above the ground.  Afterwards it blocks
    only if its kind can block and the player is in an attack.  It fires
    only in the behaviour state [attack], only if its kind has projectiles
    and its projectile cooldown is over; the projectile is the enemy's own,
    live, with the damage of the kind, and the cooldown starts again at 90.
    A dead enemy is left as it is and fires nothing. *)
Theorem X9_enemy_update (dice : Dice) (pl : Player) (e : Enemy) :
  let r := Enemy_update dice pl e in
  (alive e = false -> r = (e, None)) /\
  (alive e = true ->
   alive (fst r) = true /\
   health (e_ent (fst r)) = health (e_ent e) /\
   (x (e_ent (fst r)) <= inject_Z (LEVEL_WIDTH - width (e_ent e)))%Q /\
   (width (e_ent e) <= LEVEL_WIDTH -> (0 <= x (e_ent (fst r)))%Q) /\
   (y (e_ent (fst r)) + inject_Z (height (e_ent e))
      <= inject_Z GROUND_LEVEL)%Q /\
   (blocking (fst r) = true ->
    can_block (config e) = true /\ 0 < attack_duration pl) /\
   forall shot : Projectile,
     snd r = Some shot ->
     ai_state (fst r) = attack /\
     has_projectile (config e) = true /\
     projectile_cooldown e <= 1 /\
     projectile_cooldown (fst r) = 90 /\
     owner_is_player shot = false /\
     proj_active shot = true /\
     proj_damage shot = projectile_damage (config e)).
Proof.
  intros r. subst r. split.
  { apply Arkham2DFacts.Enemy_update_dead. }
  intros Halive.
  destruct (Arkham2DFacts.Enemy_update_vitals dice pl e Halive)
    as (Vh & _ & _ & _ & Va & _).
  cbv zeta in Vh, Va.
  split; [exact Va|]. split; [exact Vh|]. clear Vh Va.
  unfold alive in Halive. apply negb_true_iff in Halive.
  unfold Enemy_update. rewrite Halive. cbv zeta.
  set (e1 := Enemy_cooldowns e).
  set (dx := (x (p_ent pl) - x (e_ent e1))%Q).
  set (dy := (y (p_ent pl) - y (e_ent e1))%Q).
  set (d2 := (dx * dx + dy * dy)%Q).
  set (e2 := with_e_ent (set_facing_right (Qltb 0 dx)) e1).
  set (e3 := Enemy_decide dice d2 e2).
  set (acted := Enemy_act dice dx d2 e3).
  set (e5 := Enemy_react dice dx d2 pl (fst acted)).
  cbn [fst snd].
  destruct (Enemy_cooldowns_size e) as (W1 & H1).
  destruct (Arkham2DFacts.Enemy_cooldowns_vitals e)
    as (_ & _ & C1 & _).
  fold e1 in W1, H1, C1.
  assert (P1 : projectile_cooldown e1 <= 0 -> projectile_cooldown e <= 1).
  { unfold e1. destruct e as [o b c sx t st bl pc]. unfold Enemy_cooldowns.
    cbn [e_ent]. cbv zeta.
    destruct (0 <? attack_cooldown b);
      cbn [projectile_cooldown with_e_ent e_ent oid config spawn_x ai_timer
           ai_state blocking];
      destruct (0 <? pc) eqn:E;
      cbn [set_projectile_cooldown with_e_ent e_ent oid config spawn_x
           ai_timer ai_state blocking projectile_cooldown
           invincibility_frames set_attack_cooldown];
      destruct (0 <? invincibility_frames b);
      cbn [projectile_cooldown with_e_ent set_projectile_cooldown];
      try apply Z.ltb_lt in E; try apply Z.ltb_ge in E; lia. }
  assert (E2 : width (e_ent e2) = width (e_ent e1) /\
               height (e_ent e2) = height (e_ent e1) /\
               config e2 = config e1 /\
               projectile_cooldown e2 = projectile_cooldown e1)
    by (repeat split; reflexivity).
  destruct E2 as (W2 & H2 & C2 & P2).
  destruct (Arkham2DFacts.Enemy_decide_vitals dice d2 e2)
    as (E3 & C3 & _).
  assert (P3 : projectile_cooldown e3 = projectile_cooldown e2).
  { unfold e3, Enemy_decide. cbv zeta.
    cbn [ai_timer set_ai_timer config].
    destruct (30 <=? ai_timer e2 + 1); [|reflexivity].
    destruct (dist_lt d2 _); [reflexivity|].
    destruct (dist_lt d2 300 && _); [reflexivity|].
    destruct (dist_gt d2 400); [reflexivity|].
    destruct (Qltb (roll_mid dice) _); reflexivity. }
  fold e3 in E3, C3.
  destruct (Enemy_act_shot dice dx d2 e3) as (W4 & H4 & S4).
  destruct (Arkham2DFacts.Enemy_act_vitals dice dx d2 e3)
    as (_ & _ & _ & C4 & _).
  cbv zeta in C4. fold acted in W4, H4, S4, C4.
  destruct (Enemy_react_blocking dice dx d2 pl (fst acted))
    as (W5 & H5 & P5 & B5 & _).
  fold e5 in W5, H5, P5, B5.
  assert (A5 : ai_state e5 = ai_state (fst acted)).
  { unfold e5. generalize (fst acted). intros [o b c sx t st bl pc].
    unfold Enemy_react. cbn [config]. cbv zeta.
    destruct (can_block c); cbn [andb];
      destruct (0 <? attack_duration pl);
      try destruct (Qltb (roll_block dice) (3 # 10));
      destruct (can_dodge c); cbn [andb];
      try destruct (5 <? attack_duration pl);
      try destruct (dist_lt d2 100 && Qltb (roll_dodge dice) (2 # 10));
      reflexivity. }
  assert (Hw : width (e_ent e5) = width (e_ent e))
    by (rewrite W5, W4, E3, W2, W1; reflexivity).
  assert (Hh : height (e_ent e5) = height (e_ent e))
    by (rewrite H5, H4, E3, H2, H1; reflexivity).
  assert (Hc : config (fst acted) = config e)
    by (rewrite C4, C3, C2, C1; reflexivity).
  assert (Hc3 : config e3 = config e)
    by (rewrite C3, C2, C1; reflexivity).
  assert (Hp3 : projectile_cooldown e3 <= 0 -> projectile_cooldown e <= 1)
    by (rewrite P3, P2; exact P1).
  clearbody e5 acted e3.
  clear e2 W2 H2 C2 P2 E3 C3 P3 d2 dy dx e1 W1 H1 C1 P1.
  rewrite !Arkham2DFacts.with_e_ent_ent, Arkham2DFacts.with_e_ent_blocking.
  destruct (Enemy_physics_bounds (e_ent e5)) as (_ & _ & Bx1 & Bx2 & By).
  rewrite Hw in Bx1, Bx2. rewrite Hh in By.
  split; [exact Bx1|]. split; [exact Bx2|]. split; [exact By|].
  split.
  - intros Hb. rewrite <- Hc. apply B5, Hb.
  - intros shot Hs.
    destruct (S4 shot Hs) as (A4 & Sp & Sc & S90 & So & Sa & Sd & _).
    rewrite Hc3 in Sp, Sd.
    split.
    { change (ai_state (with_e_ent Enemy_physics e5)) with (ai_state e5).
      rewrite A5. exact A4. }
    split; [exact Sp|]. split; [apply Hp3, Sc|].
    split.
    { change (projectile_cooldown (with_e_ent Enemy_physics e5))
        with (projectile_cooldown e5).
      rewrite P5. exact S90. }
    repeat split; assumption.
Qed.

(** ** The collision loops *)

Section CollisionLoops.

Variable colliderect : Rect -> Rect -> bool.

(** X10.  A projectile of the player damages one enemy at most: the first
    of the list that is alive and overlapped; the enemies before it and
    after it are left as they are, and with no such enemy the list is
    unchanged. *)
Theorem X10_projectile_hits_first (r : Rect) (damage direction : Z)
    (es : list Enemy) :
  let res := projectile_hits_enemies colliderect r damage direction es in
  List.length (snd res) = List.length es /\
  (fst res = false ->
   snd res = es /\
   Forall (fun e => overlapped colliderect r e = false) es) /\
  (fst res = true ->
   exists before target after,
     es = before ++ target :: after /\
     Forall (fun e => overlapped colliderect r e = false) before /\
     overlapped colliderect r target = true /\
     snd res =
       before ++ Enemy_take_damage damage direction target :: after).
Proof.
  induction es as [|e es IH]; cbn [projectile_hits_enemies].
  - cbn [fst snd]. split; [reflexivity|]. split; [|discriminate].
    intros _. split; [reflexivity|constructor].
  - cbv zeta in IH. destruct IH as (IHl & IHf & IHt).
    fold (overlapped colliderect r e).
    destruct (overlapped colliderect r e) eqn:O; cbv zeta; cbn [fst snd].
    + split; [reflexivity|]. split; [discriminate|].
      intros _. exists [], e, es. repeat split; [constructor|exact O].
    + cbn [List.length]. split; [rewrite IHl; reflexivity|]. split.
      * intros F. destruct (IHf F) as (E1 & E2).
        split; [rewrite E1; reflexivity|constructor; assumption].
      * intros T. destruct (IHt T) as (b & t & a & E1 & E2 & E3 & E4).
        exists (e :: b), t, a. rewrite E4, E1.
        repeat split; [constructor; assumption|exact E3].
Qed.

Lemma enemy_strikes_strikes (pl : Player) (e : Enemy) :
  enemy_strikes colliderect pl e =
  if strikes colliderect pl e
  then Player_take_damage (cfg_damage (config e))
         (facing_direction (e_ent e)) pl
  else pl.
Proof.
  unfold enemy_strikes, strikes, alive.
  destruct (is_dead (state (e_ent e))); cbn [negb andb]; [reflexivity|].
  destruct (Enemy_get_attack_rect e); reflexivity.
Qed.

Lemma enemy_strikes_shielded (es : list Enemy) (pl : Player) :
  0 < invincibility_frames (p_ent pl) ->
  fold_left (enemy_strikes colliderect) es pl = pl.
Proof.
  intros H. induction es as [|e es IH]; [reflexivity|].
  cbn [fold_left]. rewrite enemy_strikes_strikes.
  rewrite Player_take_damage_shielded by exact H.
  destruct (strikes colliderect pl e); exact IH.
Qed.

(** X11.  In the enemies' melee phase the player takes one blow a tick at
    most: that of the first enemy of the list whose attack reaches them;
    the blows of the others meet the invincibility that the first one
    opens. *)
Theorem X11_one_blow_per_tick (es : list Enemy) (pl : Player) :
  fold_left (enemy_strikes colliderect) es pl =
  match find (strikes colliderect pl) es with
  | Some enemy =>
      Player_take_damage (cfg_damage (config enemy))
        (facing_direction (e_ent enemy)) pl
  | None => pl
  end.
Proof.
  induction es as [|e es IH]; [reflexivity|].
  cbn [fold_left find]. rewrite enemy_strikes_strikes.
  destruct (strikes colliderect pl e) eqn:S; [|exact IH].
  set (hit := Player_take_damage _ _ pl).
  destruct (Z.lt_ge_cases 0 (invincibility_frames (p_ent pl))) as [Hi|Hi].
  - unfold hit. rewrite Player_take_damage_shielded by exact Hi.
    apply enemy_strikes_shielded, Hi.
  - apply enemy_strikes_shielded.
    destruct (Player_take_damage_open (cfg_damage (config e))
                (facing_direction (e_ent e)) pl Hi) as (H60 & _).
    fold hit in H60. rewrite H60. reflexivity.
Qed.

(** X12.  One swing of the player can hit several enemies, and the combo
    grows during the swing: an enemy that is alive and overlapped by the
    attack rectangle takes the damage computed with the combo raised by the
    number of enemies hit before it in the list; the others are left as
    they are. *)
Theorem X12_swing_escalates (r : Rect) (pl : Player)
    (before after : list Enemy) (target : Enemy) :
  let hits := List.length (filter (overlapped colliderect r) before) in
  nth_error (snd (melee_loop colliderect r pl (before ++ target :: after)))
    (List.length before) =
  Some (if overlapped colliderect r target
        then Enemy_take_damage
               (get_attack_damage (Nat.iter hits register_hit pl))
               (facing_direction (p_ent pl)) target
        else target).
Proof.
  revert pl. induction before as [|e before IH]; intros pl.
  - cbn [app List.length filter Nat.iter nat_rect melee_loop].
    fold (overlapped colliderect r target).
    destruct (overlapped colliderect r target); reflexivity.
  - cbn [app List.length filter melee_loop].
    fold (overlapped colliderect r e).
    destruct (overlapped colliderect r e) eqn:O.
    + cbv zeta. cbn [snd nth_error List.length].
      cbv zeta in IH. rewrite IH.
      replace (facing_direction (p_ent (register_hit pl)))
        with (facing_direction (p_ent pl)) by reflexivity.
      rewrite <- Nat.iter_succ_r. reflexivity.
    + cbv zeta. cbn [snd nth_error]. apply IH.
Qed.


(** ** Pickups *)

(** X14.  A pickup lives for its lifetime: after [n] updates, [n] not 0,
    it is active if and only if fewer than [lifetime] updates have passed,
    so a new pickup, with its lifetime of 600, is gone at the 600th update;
    the updates change neither its place nor the amount it heals. *)
Theorem X14_pickup_lifetime (n : nat) (k : HealthPickup)
    (Ha : hp_active k = true) :
  lifetime (Nat.iter n HealthPickup_update k) = lifetime k - Z.of_nat n /\
  heal_amount (Nat.iter n HealthPickup_update k) = heal_amount k /\
  HealthPickup_get_rect (Nat.iter n HealthPickup_update k)
    = HealthPickup_get_rect k /\
  hp_active (Nat.iter n HealthPickup_update k) =
    ((n =? 0)%nat || (Z.of_nat n <? lifetime k)).
Proof.
  induction n as [|n IH].
  - change (Nat.iter 0 HealthPickup_update k) with k.
    rewrite Ha. repeat split. cbn [Z.of_nat]. lia.
  - rewrite Nat.iter_succ. destruct IH as (Il & Ih & Ir & Ia).
    set (q := Nat.iter n HealthPickup_update k) in *. clearbody q.
    unfold HealthPickup_update, HealthPickup_get_rect in *. cbv zeta.
    cbn [lifetime heal_amount hp_active hp_x hp_y hp_width hp_height].
    rewrite Il, Ih, Ia. injection Ir as X1 X2 X3 X4.
    rewrite X1, X2, X3, X4.
    split; [lia|]. split; [reflexivity|]. split; [reflexivity|].
    cbn [Nat.eqb orb].
    destruct (lifetime k - Z.of_nat n - 1 <=? 0) eqn:E;
      [apply Z.leb_le in E|apply Z.leb_gt in E].
    + symmetry. apply Z.ltb_ge. lia.
    + destruct (n =? 0)%nat eqn:N; cbn [orb].
      * symmetry. apply Z.ltb_lt. lia.
      * destruct (Z.of_nat n <? lifetime k) eqn:F;
          [apply Z.ltb_lt in F|apply Z.ltb_ge in F];
          symmetry; [apply Z.ltb_lt|apply Z.ltb_ge]; lia.
Qed.

Lemma resolve_pickup_health (acc : Player * list HealthPickup)
    (k : HealthPickup) :
  0 <= heal_amount k ->
  0 <= health (p_ent (fst acc)) <= max_health (p_ent (fst acc)) ->
  let acc' := resolve_pickup colliderect acc k in
  health (p_ent (fst acc)) <= health (p_ent (fst acc')) /\
  health (p_ent (fst acc')) <= max_health (p_ent (fst acc')) /\
  max_health (p_ent (fst acc')) = max_health (p_ent (fst acc)) /\
  state (p_ent (fst acc')) = state (p_ent (fst acc)) /\
  Entity_get_rect (p_ent (fst acc')) = Entity_get_rect (p_ent (fst acc)) /\
  score (fst acc') = score (fst acc) /\
  (snd acc' = snd acc \/
   snd acc' = snd acc ++ [HealthPickup_update k] /\
   hp_active (HealthPickup_update k) = true /\
   fst acc' = fst acc).
Proof.
  intros Hk Hh. unfold resolve_pickup. cbv zeta.
  assert (Hheal : heal_amount (HealthPickup_update k) = heal_amount k)
    by reflexivity.
  destruct (hp_active (HealthPickup_update k)) eqn:A; cbn [negb].
  - destruct (colliderect _ _); cbn [fst snd].
    + destruct acc as [[e j cc ct sc pc kc bc ad] ks].
      cbn [fst snd p_ent with_ent health max_health set_health state score
           Entity_get_rect x y width height] in *.
      rewrite Hheal. repeat split; try lia. left. reflexivity.
    + repeat split; try lia. right. repeat split.
  - repeat split; try lia. left. reflexivity.
Qed.

(** X13.  The pickups of a tick never lower the player's health and never
    raise it above the maximum, whatever the number collected, and leave the
    player's state, place and score as they are; the pickups that stay are
    live ones, and none is added. *)
Theorem X13_pickups_heal_within_bounds (enc : Encounter)
    (Hhealth : 0 <= health (p_ent (player enc))
                 <= max_health (p_ent (player enc)))
    (Hheal : Forall (fun k => 0 <= heal_amount k) (pickups enc)) :
  let enc' := update_pickups colliderect enc in
  health (p_ent (player enc)) <= health (p_ent (player enc'))
    <= max_health (p_ent (player enc)) /\
  state (p_ent (player enc')) = state (p_ent (player enc)) /\
  Entity_get_rect (p_ent (player enc'))
    = Entity_get_rect (p_ent (player enc)) /\
  score (player enc') = score (player enc) /\
  enemies enc' = enemies enc /\
  (List.length (pickups enc') <= List.length (pickups enc))%nat /\
  Forall (fun k => hp_active k = true) (pickups enc').
Proof.
  intros enc'. subst enc'. unfold update_pickups. cbv zeta.
  cbn [player enemies pickups].
  assert (G : forall ks acc,
    Forall (fun k => 0 <= heal_amount k) ks ->
    0 <= health (p_ent (fst acc)) <= max_health (p_ent (fst acc)) ->
    Forall (fun k => hp_active k = true) (snd acc) ->
    let r := fold_left (resolve_pickup colliderect) ks acc in
    health (p_ent (fst acc)) <= health (p_ent (fst r))
      <= max_health (p_ent (fst acc)) /\
    state (p_ent (fst r)) = state (p_ent (fst acc)) /\
    Entity_get_rect (p_ent (fst r)) = Entity_get_rect (p_ent (fst acc)) /\
    score (fst r) = score (fst acc) /\
    (List.length (snd r) <= List.length (snd acc) + List.length ks)%nat /\
    Forall (fun k => hp_active k = true) (snd r)).
  { induction ks as [|k ks IH]; intros acc Hks Hacc Hact; cbn [fold_left].
    - cbv zeta. repeat split; try lia. exact Hact.
    - inversion Hks as [|? ? Hk Hrest]; subst.
      destruct (resolve_pickup_health acc k Hk Hacc)
        as (R1 & R2 & R3 & R4 & R5 & R6 & R7).
      cbv zeta in R1, R2, R3, R4, R5, R6, R7.
      set (a1 := resolve_pickup colliderect acc k) in *. clearbody a1.
      destruct (IH a1 Hrest) as (I1 & I2 & I3 & I4 & I5 & I6).
      + lia.
      + destruct R7 as [E|(E & A & _)]; rewrite E; [exact Hact|].
        apply Forall_app. split; [exact Hact|]. constructor; [exact A|].
        constructor.
      + cbv zeta. rewrite I2, I3, I4, R4, R5, R6.
        repeat split; try lia; try exact I6.
        cbn [List.length].
        destruct R7 as [E|(E & _)]; rewrite E in I5;
          [|rewrite length_app in I5; cbn [List.length] in I5]; lia. }
  destruct (G (pickups enc) (player enc, []) Hheal Hhealth
              (Forall_nil _)) as (G1 & G2 & G3 & G4 & G5 & G6).
  cbv zeta in G1, G2, G3, G4, G5, G6. cbn [fst snd List.length] in *.
  repeat split; try lia; assumption.
Qed.

End CollisionLoops.

Lemma X13_pickups_heal_within_bounds_witness :
  health (p_ent (player (update_pickups pixel_colliderect
            (mkEncounter cornered [striking_thug] []
               [new_HealthPickup 125 470])))) <= 120.
Proof.
  assert (Hhealth : 0 <= health (p_ent cornered) <= max_health (p_ent cornered))
    by (split; discriminate).
  assert (Hheal : Forall (fun k => 0 <= heal_amount k)
                    [new_HealthPickup 125 470])
    by (constructor; [discriminate|constructor]).
  destruct (X13_pickups_heal_within_bounds pixel_colliderect
              (mkEncounter cornered [striking_thug] []
                 [new_HealthPickup 125 470]) Hhealth Hheal)
    as ((_ & H) & _).
  exact H.
Defined.

Lemma X14_pickup_lifetime_witness :
  hp_active (Nat.iter 599 HealthPickup_update (new_HealthPickup 125 470))
    = true /\
  hp_active (Nat.iter 600 HealthPickup_update (new_HealthPickup 125 470))
    = false.
Proof.
  assert (Ha : hp_active (new_HealthPickup 125 470) = true) by reflexivity.
  destruct (X14_pickup_lifetime 599 (new_HealthPickup 125 470) Ha)
    as (_ & _ & _ & H599).
  destruct (X14_pickup_lifetime 600 (new_HealthPickup 125 470) Ha)
    as (_ & _ & _ & H600).
  split; [rewrite H599|rewrite H600]; reflexivity.
Defined.

(** ** The enemy loop of [Game.update] *)

Section EnemyPass.

Variable start_level : Z -> Game -> Game.

Lemma dead_count_cons (e : Enemy) (es : list Enemy) :
  dead_count (e :: es) =
  if alive e then dead_count es else S (dead_count es).
Proof.
  unfold dead_count. cbn [filter]. destruct (alive e); reflexivity.
Qed.

(** The loop over a first part [before] of the copy in which no dead enemy
    is the boss: it comes to the rest of the copy with the dead of [before]
    removed and paid for, and the living ones updated. *)
Lemma enemies_loop_prefix (before : list Enemy) :
  forall (dice : nat -> Dice) (i : nat) (done rest : list Enemy) (g : Game)
         (enc : Encounter),
    encounter g = Some enc ->
    enemies enc = done ++ before ++ rest ->
    Forall (fun e => alive e = false -> is_boss_of g e = false) before ->
    exists g' enc' kept,
      enemies_loop start_level dice i done (before ++ rest) g =
      enemies_loop start_level dice (i + List.length before) (done ++ kept)
        rest g' /\
      encounter g' = Some enc' /\
      boss g' = boss g /\ game_state g' = game_state g /\
      won g' = won g /\ current_level_index g' = current_level_index g /\
      camera_x g' = camera_x g /\
      enemies enc' = done ++ kept ++ rest /\
      map oid kept = map oid (filter alive before) /\
      Forall (fun e => alive e = true) kept /\
      set_score 0 (player enc') = set_score 0 (player enc) /\
      score (player enc') = score (player enc) + bounty before /\
      (List.length (pickups enc')
         <= List.length (pickups enc) + dead_count before)%nat /\
      (List.length (projectiles enc')
         <= List.length (projectiles enc)
            + List.length (filter alive before))%nat.
Proof.
  induction before as [|enemy before IH];
    intros dice i done rest g enc Henc Hes Hboss.
  - exists g, enc, []. cbn [app List.length filter map].
    rewrite Nat.add_0_r, app_nil_r.
    change (dead_count []) with 0%nat.
    change (bounty []) with 0.
    repeat split; try reflexivity; try assumption; try lia; try constructor.
  - inversion Hboss as [|? ? Hb Hrest]; subst.
    cbn [app enemies_loop filter List.length map].
    rewrite Arkham2DFacts.bounty_cons, dead_count_cons.
    assert (Hal0 : alive enemy = negb (is_dead (state (e_ent enemy))))
      by reflexivity.
    rewrite Hal0. unfold alive in Hb.
    destruct (is_dead (state (e_ent enemy))) eqn:Hdead; cbn [negb].
    + specialize (Hb eq_refl).
      set (g1 := on_encounter _ g).
      assert (E1 : encounter g1 =
                   Some (mkEncounter (player enc) (done ++ before ++ rest)
                           (projectiles enc) (pickups enc))).
      { unfold g1, on_encounter. rewrite Henc. reflexivity. }
      assert (B1 : boss g1 = boss g).
      { unfold g1, on_encounter. rewrite Henc. reflexivity. }
      assert (Hb1 : is_boss_of g1 enemy = false).
      { unfold is_boss_of in *. rewrite B1. exact Hb. }
      rewrite Hb1.
      set (g2 := bury_enemy start_level (dice i) enemy g1).
      assert (Hg2 : exists enc2,
                 encounter g2 = Some enc2 /\ boss g2 = boss g /\
                 game_state g2 = game_state g /\ won g2 = won g /\
                 current_level_index g2 = current_level_index g /\
                 camera_x g2 = camera_x g /\
                 player enc2 =
                   set_score (score (player enc) + score_value (config enemy))
                     (player enc) /\
                 enemies enc2 = done ++ before ++ rest /\
                 projectiles enc2 = projectiles enc /\
                 (List.length (pickups enc2)
                    <= S (List.length (pickups enc)))%nat).
      { unfold g2, bury_enemy.
        set (g1' := on_encounter _ g1).
        assert (Hb1' : is_boss_of g1' enemy = false).
        { unfold g1', on_encounter, is_boss_of in *. rewrite E1.
          cbn [boss set_encounter]. rewrite B1. exact Hb. }
        rewrite Hb1'.
        unfold g1', on_encounter. rewrite E1.
        cbn [encounter set_encounter boss game_state won current_level_index
             camera_x player enemies projectiles pickups].
        eexists. split; [reflexivity|].
        cbn [player enemies projectiles pickups].
        unfold g1, on_encounter. rewrite Henc.
        cbn [encounter set_encounter boss game_state won current_level_index
             camera_x].
        repeat split.
        destruct (Qltb _ _); [rewrite length_app; cbn [List.length]|]; lia. }
      clearbody g2. clear g1 E1 B1 Hb1.
      destruct Hg2 as (enc2 & He2 & Hbo2 & Hst2 & Hw2 & Hl2 & Hc2 & Hp2
                       & Hes2 & Hpr2 & Hpk2).
      destruct (IH dice (S i) done rest g2 enc2 He2 Hes2) as
        (g' & enc' & kept & Hloop & He' & Hbo' & Hst' & Hw' & Hl' & Hc'
         & Hes' & Hoid & Hal & Hpl & Hsc & Hpk & Hpr).
      { eapply Forall_impl; [|exact Hrest].
        intros e He Hd. specialize (He Hd).
        unfold is_boss_of in *. rewrite Hbo2. exact He. }
      exists g', enc', kept.
      rewrite Hloop, He', Hbo', Hst', Hw', Hl', Hc', Hes', Hoid, Hsc.
      rewrite Hbo2, Hst2, Hw2, Hl2, Hc2, Hp2.
      replace (i + S (List.length before))%nat
        with (S i + List.length before)%nat by lia.
      rewrite Hpl, Hp2. rewrite Hpr2 in Hpr.
      cbn [score set_score List.length].
      repeat split; try reflexivity; try assumption; lia.
    + rewrite Henc.
      set (r := Enemy_update (dice i) (player enc) enemy).
      set (g1 := set_encounter _ g).
      assert (Halive : alive enemy = true) by (unfold alive; now rewrite Hdead).
      destruct (Arkham2DFacts.Enemy_update_vitals (dice i) (player enc) enemy
                  Halive) as (_ & _ & Ho & _ & Ha' & _).
      fold r in Ho, Ha'.
      set (shots := match snd r with
                    | Some enemy_projectile =>
                        projectiles enc ++ [enemy_projectile]
                    | None => projectiles enc
                    end) in *.
      assert (Hshots : (List.length shots
                          <= S (List.length (projectiles enc)))%nat).
      { unfold shots. destruct (snd r);
          [rewrite length_app; cbn [List.length]|]; lia. }
      clearbody shots r.
      destruct (IH dice (S i) (done ++ [fst r]) rest g1
                  (mkEncounter (player enc) (done ++ fst r :: before ++ rest)
                     shots (pickups enc)))
        as (g' & enc' & kept & Hloop & He' & Hbo' & Hst' & Hw' & Hl' & Hc'
            & Hes' & Hoid & Hal & Hpl & Hsc & Hpk & Hpr).
      * reflexivity.
      * cbn [enemies]. rewrite <- app_assoc. reflexivity.
      * eapply Forall_impl; [|exact Hrest]. intros e He Hd. exact (He Hd).
      * exists g', enc', (fst r :: kept).
        rewrite Hloop, He', Hbo', Hst', Hw', Hl', Hc', Hes', Hsc.
        cbn [player pickups projectiles] in *.
        rewrite <- !app_assoc. cbn [app map List.length].
        rewrite Hoid, Ho, Hpl.
        replace (i + S (List.length before))%nat
          with (S i + List.length before)%nat by lia.
        unfold alive in Ha'.
        repeat split; try reflexivity; try assumption; try lia.
        constructor; assumption.
Qed.

(** X15.  A pass of the enemy loop in which no dead enemy is the boss
    leaves the stage running: the dead enemies are taken out of the list
    and the living ones kept, in their order and updated; the player gains
    the rewards of the dead and is otherwise unchanged; at most one pickup is
    dropped for each dead enemy and at most one projectile fired by each
    living one. *)
Theorem X15_enemy_pass (dice : nat -> Dice) (g : Game) (enc : Encounter)
    (Henc : encounter g = Some enc)
    (Hboss : Forall (fun e => alive e = false -> is_boss_of g e = false)
               (enemies enc)) :
  exists enc',
    encounter (update_enemies start_level dice g) = Some enc' /\
    game_state (update_enemies start_level dice g) = game_state g /\
    current_level_index (update_enemies start_level dice g)
      = current_level_index g /\
    map oid (enemies enc') = map oid (filter alive (enemies enc)) /\
    Forall (fun e => alive e = true) (enemies enc') /\
    set_score 0 (player enc') = set_score 0 (player enc) /\
    score (player enc') = score (player enc) + bounty (enemies enc) /\
    (List.length (pickups enc')
       <= List.length (pickups enc) + dead_count (enemies enc))%nat /\
    (List.length (projectiles enc')
       <= List.length (projectiles enc)
          + List.length (filter alive (enemies enc)))%nat.
Proof.
  unfold update_enemies. rewrite Henc.
  destruct (enemies_loop_prefix (enemies enc) dice 0%nat [] [] g enc Henc)
    as (g' & enc' & kept & Hloop & He' & _ & Hst' & _ & Hl' & _
        & Hes' & Hoid & Hal & Hpl & Hsc & Hpk & Hpr).
  { rewrite app_nil_r. reflexivity. }
  { exact Hboss. }
  rewrite app_nil_r in Hloop. rewrite Hloop. cbn [enemies_loop].
  exists enc'. rewrite He', Hst', Hl', Hes'. cbn [app].
  rewrite app_nil_r.
  repeat split; assumption.
Qed.

(** X16.  When the loop finds the boss dead, at the end of the list, the
    stage ends with the enemies before the boss settled as in any pass and
    the boss paid for: on the last stage the game is over and won; on an
    earlier stage the next stage is started, and the player it makes gets
    the score reached. *)
Theorem X16_boss_death_ends_stage (dice : nat -> Dice) (g : Game)
    (enc : Encounter) (before : list Enemy) (b : Enemy)
    (Henc : encounter g = Some enc)
    (Hes : enemies enc = before ++ [b])
    (Hboss : boss g = Some (oid b))
    (Hdead : alive b = false)
    (Hothers : Forall (fun e => alive e = false -> oid e <> oid b) before) :
  let g' := update_enemies start_level dice g in
  let total := score (player enc) + bounty (enemies enc) in
  (NUM_LEVEL_CONFIGS <= current_level_index g + 1 ->
   game_state g' = game_over /\ won g' = true /\
   exists enc',
     encounter g' = Some enc' /\ score (player enc') = total /\
     map oid (enemies enc') = map oid (filter alive (enemies enc))) /\
  (current_level_index g + 1 < NUM_LEVEL_CONFIGS ->
   exists last : Game,
     (exists enc', encounter last = Some enc' /\ score (player enc') = total) /\
     g' = on_encounter (on_player (set_score total))
            (start_level (current_level_index g + 1) last)).
Proof.
  intros g' total. subst g' total. unfold update_enemies. rewrite Henc.
  destruct (enemies_loop_prefix before dice 0%nat [] [b] g enc Henc)
    as (g1 & enc1 & kept & Hloop & He1 & Hbo1 & _ & _ & Hl1 & _
        & Hes1 & Hoid & _ & _ & Hsc & _).
  { exact Hes. }
  { eapply Forall_impl; [|exact Hothers].
    intros e He Hd. specialize (He Hd). unfold is_boss_of. rewrite Hboss.
    apply Nat.eqb_neq. congruence. }
  rewrite Hes, Hloop. cbn [app enemies_loop].
  assert (Hab := Hdead).
  unfold alive in Hdead. apply negb_false_iff in Hdead. rewrite Hdead.
  set (g2 := on_encounter _ g1).
  assert (E2 : encounter g2 =
               Some (mkEncounter (player enc1) (kept ++ [])
                       (projectiles enc1) (pickups enc1))).
  { unfold g2, on_encounter. rewrite He1. reflexivity. }
  assert (B2 : boss g2 = Some (oid b)).
  { unfold g2, on_encounter. rewrite He1. cbn [boss set_encounter].
    rewrite Hbo1. exact Hboss. }
  assert (L2 : current_level_index g2 = current_level_index g).
  { unfold g2, on_encounter. rewrite He1. exact Hl1. }
  assert (Hb2 : is_boss_of g2 b = true).
  { unfold is_boss_of. rewrite B2. apply Nat.eqb_refl. }
  rewrite Hb2. clearbody g2.
  unfold bury_enemy.
  set (g3 := on_encounter _ g2).
  assert (Hg3 : exists enc3,
    encounter g3 = Some enc3 /\
    score (player enc3) = score (player enc1) + score_value (config b) /\
    enemies enc3 = kept ++ []).
  { unfold g3, on_encounter. rewrite E2. cbn [encounter set_encounter].
    eexists. split; [reflexivity|]. split; reflexivity. }
  assert (B3 : boss g3 = Some (oid b)).
  { unfold g3, on_encounter. rewrite E2. exact B2. }
  assert (L3 : current_level_index g3 = current_level_index g).
  { unfold g3, on_encounter. rewrite E2. exact L2. }
  assert (Hb3 : is_boss_of g3 b = true).
  { unfold is_boss_of. rewrite B3. apply Nat.eqb_refl. }
  rewrite Hb3. clearbody g3. cbv zeta. rewrite L3.
  destruct Hg3 as (enc3 & E3 & S3 & Es3).
  assert (Htotal : score (player enc3)
                   = score (player enc) + bounty (before ++ [b])).
  { rewrite S3, Hsc, Arkham2DFacts.bounty_app, Arkham2DFacts.bounty_cons.
    rewrite Hab. change (bounty []) with 0. lia. }
  split.
  - intros Hlast. apply Z.leb_le in Hlast. rewrite Hlast.
    cbn [game_state won set_game_state set_won encounter].
    split; [reflexivity|]. split; [reflexivity|].
    exists enc3. split; [exact E3|]. split; [exact Htotal|].
    rewrite Es3, app_nil_r, Hoid, filter_app, map_app.
    cbn [filter]. rewrite Hab. cbn [map].
    rewrite app_nil_r. reflexivity.
  - intros Hmore. apply Z.leb_gt in Hmore. rewrite Hmore. rewrite E3.
    exists g3. split.
    + exists enc3. split; [exact E3|exact Htotal].
    + rewrite Htotal. reflexivity.
Qed.

End EnemyPass.

Lemma X15_enemy_pass_witness :
  exists enc',
    encounter (update_enemies same_level calm_dice mop_up) = Some enc' /\
    map oid (enemies enc') = [0%nat] /\
    score (player enc') = 100.
Proof.
  assert (Hboss : Forall (fun e => alive e = false ->
                                   is_boss_of mop_up e = false)
                    [fallen_thug; new_Enemy 0 160 460 joker]).
  { constructor; [intros _; reflexivity|].
    constructor; [intros H; discriminate H|constructor]. }
  destruct (X15_enemy_pass same_level calm_dice mop_up _ eq_refl Hboss)
    as (enc' & He & _ & _ & Ho & _ & _ & Hs & _).
  exists enc'. split; [exact He|]. split; [exact Ho|exact Hs].
Defined.

Lemma X16_boss_death_ends_stage_witness :
  game_state (update_enemies same_level calm_dice finale) = game_over /\
  won (update_enemies same_level calm_dice finale) = true.
Proof.
  destruct (X16_boss_death_ends_stage same_level calm_dice finale
              (mkEncounter player0 [fallen_joker] [] []) [] fallen_joker
              eq_refl eq_refl eq_refl eq_refl (Forall_nil _))
    as (Hlast & _).
  destruct Hlast as (Hs & Hw & _); [discriminate|].
  split; assumption.
Defined.

(** ** [Game.start_level] *)

Lemma spawn_henchmen_spec (rolls : Spawn) (level : LevelConfig) (n : nat) :
  forall i : nat,
    (forall k, (choice rolls k < List.length (henchman_types level))%nat) ->
    exists henchmen,
      spawn_henchmen rolls level i n = Some henchmen /\
      map oid henchmen = seq (S i) n /\
      Forall (fun e =>
                In (config e) (henchman_types level) /\
                alive e = true /\
                health (e_ent e) = cfg_health (config e) /\
                max_health (e_ent e) = cfg_health (config e) /\
                invincibility_frames (e_ent e) = 0 /\
                y (e_ent e) = inject_Z (GROUND_LEVEL - height (e_ent e)) /\
                height (e_ent e) = cfg_height (config e) /\
                width (e_ent e) = cfg_width (config e) /\
                exists k, (i <= k < i + n)%nat /\
                  x (e_ent e) =
                    inject_Z (400 + Z.of_nat k
                                * ((LEVEL_WIDTH - 500)
                                   / (Z.of_nat (num_henchmen level) + 1))
                              + jitter rolls k)) henchmen.
Proof.
  induction n as [|n IH]; intros i Hc.
  - exists []. repeat split; constructor.
  - cbn [spawn_henchmen]. unfold spawn_henchman.
    destruct (nth_error (henchman_types level) (choice rolls i)) as [c|] eqn:E.
    2:{ apply nth_error_None in E. specialize (Hc i). lia. }
    destruct (IH (S i) Hc) as (rest & Hr & Ho & Hf).
    rewrite Hr. cbv zeta. eexists. split; [reflexivity|].
    cbn [map seq oid new_Enemy]. split; [rewrite Ho; reflexivity|].
    constructor.
    + cbn [config new_Enemy e_ent].
      split; [eapply nth_error_In; exact E|].
      repeat split.
      exists i. split; [lia|reflexivity].
    + eapply Forall_impl; [|exact Hf].
      intros e (H1 & H2 & H3 & H4 & H5 & H6 & H7 & H8 & k & Hk & Hx).
      repeat split; try assumption. exists k. split; [lia|exact Hx].
Qed.

Lemma NoDup_snoc_seq (n : nat) : NoDup (seq 1 n ++ [0%nat]).
Proof.
  assert (G : forall l : list nat, ~ In 0%nat l -> NoDup l ->
                                   NoDup (l ++ [0%nat])).
  { induction l as [|a l IH]; intros Hn Hd; cbn [app].
    - constructor; [intros []|constructor].
    - inversion Hd as [|? ? Ha Hl]; subst. constructor.
      + intros Hin. apply in_app_or in Hin. destruct Hin as [Hin|[Hin|[]]].
        * exact (Ha Hin).
        * apply Hn. left. symmetry. exact Hin.
      + apply IH; [|exact Hl]. intros Hin. apply Hn. right. exact Hin. }
  apply G; [|apply seq_NoDup].
  intros Hin. apply in_seq in Hin. lia.
Qed.

(** X17.  [start_level] on an index of the level table, with draws of
    [random.choice] inside the level's list of kinds and draws of
    [random.randint(-50, 50)] in their range: the stage starts in the state
    of the level intro, for 180 ticks, with the camera at 0, no projectile
    and no pickup, a new player at (100, 450) with full health and score 0,
    and the level's number of henchmen, of the level's kinds, followed by
    the boss, last in the list; every enemy is alive with the health of its
    kind, stands on the ground inside the level, and no two enemies are the
    same object.  On an index beyond the table the game is over and won. *)
Theorem X17_start_level (rolls : Spawn) (level_index : Z)
    (level : LevelConfig) (g : Game)
    (Hindex : 0 <= level_index)
    (Hlevel : nth_error LEVEL_CONFIGS (Z.to_nat level_index) = Some level)
    (Hchoice : forall k,
       (choice rolls k < List.length (henchman_types level))%nat)
    (Hjitter : forall k, -50 <= jitter rolls k <= 50) :
  (exists g' enc henchmen the_boss,
     start_level rolls level_index g = Some g' /\
     game_state g' = level_intro /\ level_intro_timer g' = 180 /\
     current_level_index g' = level_index /\
     camera_x g' = 0%Q /\ won g' = won g /\
     encounter g' = Some enc /\
     player enc = new_Player 100 450 /\
     projectiles enc = [] /\ pickups enc = [] /\
     enemies enc = henchmen ++ [the_boss] /\
     boss g' = Some (oid the_boss) /\
     List.length henchmen = num_henchmen level /\
     config the_boss = boss_type level /\
     is_boss (config the_boss) = true /\
     Forall (fun e => In (config e) (henchman_types level) /\
                      is_boss (config e) = false) henchmen /\
     NoDup (map oid (enemies enc)) /\
     Forall fresh_enemy (enemies enc)) /\
  (forall (beyond : Z) (g0 : Game),
     Z.of_nat (List.length LEVEL_CONFIGS) <= beyond ->
     start_level rolls beyond g0
       = Some (set_game_state game_over (set_won true g0))).
Proof.
  split.
  2:{ intros beyond g0 H. unfold start_level. cbv zeta.
      apply Z.leb_le in H. rewrite H. reflexivity. }
  assert (Hlt : (Z.to_nat level_index < 5)%nat).
  { change 5%nat with (List.length LEVEL_CONFIGS).
    apply nth_error_Some. rewrite Hlevel. discriminate. }
  destruct (spawn_henchmen_spec rolls level (num_henchmen level) 0 Hchoice)
    as (henchmen & Hsp & Hoid & Hall).
  unfold start_level. cbv zeta.
  replace (Z.of_nat (List.length LEVEL_CONFIGS) <=? level_index) with false
    by (symmetry; apply Z.leb_gt; change (List.length LEVEL_CONFIGS) with 5%nat;
        lia).
  replace (level_index <? 0) with false by (symmetry; apply Z.ltb_ge; lia).
  replace (level_index <? 0) with false by (symmetry; apply Z.ltb_ge; lia).
  rewrite Hlevel, Hsp.
  eexists. eexists. exists henchmen. eexists.
  split; [reflexivity|].
  cbn [game_state level_intro_timer current_level_index camera_x won encounter
       boss player projectiles pickups enemies].
  assert (Hlen : List.length henchmen = num_henchmen level).
  { rewrite <- (length_map oid), Hoid, length_seq. reflexivity. }
  assert (Hcases : level = mkLevelConfig joker [joker_thug] 8 \/
                   level = mkLevelConfig bane [bane_mercenary] 6 \/
                   level = mkLevelConfig scarecrow [scarecrow_thug] 10 \/
                   level = mkLevelConfig twoface [twoface_goon; scarecrow_thug] 8 \/
                   level = mkLevelConfig deathstroke [deathstroke_soldier] 12).
  { destruct (Z.to_nat level_index) as [|[|[|[|[|n]]]]];
      cbn [nth_error LEVEL_CONFIGS] in Hlevel;
      try (injection Hlevel as <-; tauto). lia. }
  repeat split; try reflexivity.
  - destruct (game_state g); reflexivity.
  - exact Hlen.
  - destruct Hcases as [H|[H|[H|[H|H]]]]; rewrite H; reflexivity.
  - eapply Forall_impl; [|exact Hall].
    intros e (Hin & _). split; [exact Hin|].
    destruct Hcases as [H|[H|[H|[H|H]]]]; rewrite H in Hin;
      cbn [henchman_types In] in Hin;
      repeat (destruct Hin as [Hin|Hin]; [rewrite <- Hin; reflexivity|]);
      contradiction.
  - cbn [enemies]. rewrite map_app, Hoid. cbn [map oid new_Enemy].
    apply NoDup_snoc_seq.
  - cbn [enemies]. apply Forall_app. split.
    + eapply Forall_impl; [|exact Hall].
      intros e (Hin & Ha & Hh & Hm & Hi & Hy & Hht & Hw & k & Hk & Hx).
      unfold fresh_enemy.
      split; [exact Ha|]. split; [exact Hh|]. split; [exact Hm|].
      assert (Hj := Hjitter k).
      assert (Hfacts : 0 < cfg_health (config e) /\ cfg_width (config e) = 50 /\
                0 <= Z.of_nat k
                       * ((LEVEL_WIDTH - 500)
                          / (Z.of_nat (num_henchmen level) + 1))
                  <= 7500).
      { destruct Hcases as [H|[H|[H|[H|H]]]]; rewrite H in Hin, Hk |- *;
          cbn [henchman_types In num_henchmen] in Hin, Hk |- *;
          (split; [|split]);
          try (repeat (destruct Hin as [Hin|Hin];
                        [rewrite <- Hin; reflexivity|]); contradiction);
          unfold LEVEL_WIDTH;
          match goal with
          | |- context [?a / ?b] =>
              let v := eval vm_compute in (a / b) in
              change (a / b) with v
          end; lia. }
      destruct Hfacts as (Hpos & Hw50 & Hkx).
      split; [rewrite Hh; exact Hpos|]. split; [exact Hi|].
      split.
      { rewrite Hy, <- inject_Z_plus.
        replace (GROUND_LEVEL - height (e_ent e) + height (e_ent e))
          with GROUND_LEVEL by lia. reflexivity. }
      rewrite Hx, Hw, Hw50. change 0%Q with (inject_Z 0).
      rewrite <- !Zle_Qle. unfold LEVEL_WIDTH in *. lia.
    + constructor; [|constructor]. unfold fresh_enemy.
      cbn [alive e_ent new_Enemy config health max_health set_health
           set_max_health new_Entity state invincibility_frames y x height
           width is_dead EntityState_eqb negb].
      destruct Hcases as [H|[H|[H|[H|H]]]]; rewrite H;
        cbn [boss_type]; vm_compute; repeat split; try discriminate.
Qed.

Lemma X17_start_level_witness :
  exists g',
    start_level steady 0 new_Game = Some g' /\
    game_state g' = level_intro /\ level_intro_timer g' = 180.
Proof.
  assert (Hchoice : forall k : nat,
            (choice steady k < List.length [joker_thug])%nat)
    by (intros k; cbn; lia).
  assert (Hjitter : forall k : nat, -50 <= jitter steady k <= 50)
    by (intros k; cbn; lia).
  destruct (X17_start_level steady 0 (mkLevelConfig joker [joker_thug] 8)
              new_Game (Z.le_refl 0) eq_refl Hchoice Hjitter)
    as ((g' & enc & henchmen & the_boss & Hs & Hst & Ht & _) & _).
  exists g'. split; [exact Hs|]. split; assumption.
Defined.

Section GameStates.

Variable colliderect : Rect -> Rect -> bool.
Variable start_level : Z -> Game -> Game.

Lemma game_ticks_cons (kd : Keys * (nat -> Dice))
    (inputs : list (Keys * (nat -> Dice))) (g : Game) :
  game_ticks colliderect start_level (kd :: inputs) g =
  game_ticks colliderect start_level inputs
    (Game_update colliderect start_level (fst kd) (snd kd) g).
Proof. reflexivity. Qed.

Lemma game_ticks_frozen (inputs : list (Keys * (nat -> Dice))) (g : Game) :
  game_state g <> playing -> game_state g <> level_intro ->
  game_ticks colliderect start_level inputs g = g.
Proof.
  intros H1 H2. induction inputs as [|kd inputs IH]; [reflexivity|].
  rewrite game_ticks_cons.
  replace (Game_update colliderect start_level (fst kd) (snd kd) g) with g;
    [exact IH|].
  unfold Game_update. destruct (game_state g); try reflexivity; congruence.
Qed.

(** X18.  While the stage is played, the key P and the key Escape pause
    the game and change nothing else.  A paused game stands still: the
    ticks leave it as it is, whatever the keys held, and so does every
    event but the closing of the window, Escape and P; the attack and jump
    keys are not kept for later.  The key P then gives back the game as it
    was when it was paused. *)
Theorem X18_pause_and_resume (g : Game) (enc : Encounter) (running : bool)
    (Hplaying : game_state g = playing)
    (Henc : encounter g = Some enc) :
  let frozen := set_game_state paused g in
  handle_event start_level (g, running) (KEYDOWN K_p) = (frozen, running) /\
  handle_event start_level (g, running) (KEYDOWN K_ESCAPE)
    = (frozen, running) /\
  (forall inputs,
     game_ticks colliderect start_level inputs frozen = frozen) /\
  (forall events,
     forallb passive events = true ->
     handle_events start_level events (frozen, running)
       = (frozen, running)) /\
  handle_event start_level (frozen, running) (KEYDOWN K_p) = (g, running).
Proof.
  intros frozen. subst frozen.
  split.
  { unfold handle_event. cbn [fst snd]. rewrite Hplaying.
    unfold playing_key. rewrite Henc. reflexivity. }
  split.
  { unfold handle_event. cbn [fst snd]. rewrite Hplaying. reflexivity. }
  split.
  { intros inputs. apply game_ticks_frozen; discriminate. }
  split.
  { intros events Hev. unfold handle_events.
    induction events as [|ev events IH]; [reflexivity|].
    cbn [forallb] in Hev. apply andb_prop in Hev. destruct Hev as (H1 & H2).
    cbn [fold_left].
    replace (handle_event start_level (set_game_state paused g, running) ev)
      with (set_game_state paused g, running); [exact (IH H2)|].
    destruct ev as [|key|]; [discriminate H1| |reflexivity].
    destruct key; try discriminate H1; reflexivity. }
  destruct g as [st w l t e b c]. cbn [game_state] in Hplaying. subst st.
  reflexivity.
Qed.

(** X19.  Nothing sets [running] again: once the window is closed, or
    Escape pressed outside a stage being played, the events that follow do
    not bring the game back.  Escape does not end a stage that is played:
    it pauses it, and a second Escape ends the game. *)
Theorem X19_quit_is_final (events : list Event) (g : Game)
    (running : bool) :
  snd (handle_events start_level events (g, false)) = false /\
  snd (handle_events start_level (QUIT :: events) (g, running)) = false /\
  (game_state g <> playing ->
   snd (handle_events start_level (KEYDOWN K_ESCAPE :: events) (g, running))
     = false) /\
  (game_state g = playing ->
   handle_events start_level [KEYDOWN K_ESCAPE] (g, running)
     = (set_game_state paused g, running) /\
   handle_events start_level [KEYDOWN K_ESCAPE; KEYDOWN K_ESCAPE]
     (g, running) = (set_game_state paused g, false)).
Proof.
  assert (Hfinal : forall evs g0,
            snd (handle_events start_level evs (g0, false)) = false).
  { induction evs as [|ev evs IH]; intros g0; [reflexivity|].
    unfold handle_events in *. cbn [fold_left].
    assert (Hstep : snd (handle_event start_level (g0, false) ev) = false).
    { unfold handle_event. cbn [fst snd].
      destruct ev as [|key|]; [reflexivity| |reflexivity].
      destruct key; destruct (game_state g0); reflexivity. }
    destruct (handle_event start_level (g0, false) ev) as [g1 r1].
    cbn [snd] in Hstep. subst r1. apply IH. }
  split; [apply Hfinal|]. split; [apply Hfinal|]. split.
  - intros Hnot. unfold handle_events. cbn [fold_left].
    replace (handle_event start_level (g, running) (KEYDOWN K_ESCAPE))
      with (g, false); [apply Hfinal|].
    unfold handle_event. cbn [fst snd].
    destruct (game_state g); try reflexivity. congruence.
  - intros Hplaying. unfold handle_events. cbn [fold_left].
    assert (Hesc : handle_event start_level (g, running) (KEYDOWN K_ESCAPE)
                   = (set_game_state paused g, running)).
    { unfold handle_event. cbn [fst snd]. rewrite Hplaying. reflexivity. }
    rewrite Hesc. split; reflexivity.
Qed.

Lemma intro_ticks (inputs : list (Keys * (nat -> Dice))) :
  forall (w : bool) (l t : Z) (e : option Encounter) (b : option nat)
         (c : Q),
    0 < t -> Z.of_nat (List.length inputs) <= t ->
    game_ticks colliderect start_level inputs (mkGame level_intro w l t e b c)
    = if Z.of_nat (List.length inputs) <? t
      then mkGame level_intro w l (t - Z.of_nat (List.length inputs)) e b c
      else mkGame playing w l 0 e b c.
Proof.
  induction inputs as [|kd inputs IH]; intros w l t e b c Ht Hn.
  - cbn [List.length Z.of_nat].
    replace (0 <? t) with true by (symmetry; apply Z.ltb_lt; lia).
    replace (t - 0) with t by lia. reflexivity.
  - rewrite game_ticks_cons. unfold Game_update.
    cbn [game_state level_intro_timer set_level_intro_timer set_game_state
         won current_level_index encounter boss camera_x].
    cbn [List.length] in Hn |- *.
    destruct (t - 1 <=? 0) eqn:E; [apply Z.leb_le in E|apply Z.leb_gt in E];
      unfold set_level_intro_timer, set_game_state;
      cbn [game_state level_intro_timer won current_level_index encounter
           boss camera_x].
    + assert (t = 1) by lia. subst t.
      destruct inputs; [|cbn [List.length] in Hn; lia].
      reflexivity.
    + rewrite IH by lia.
      destruct (Z.of_nat (List.length inputs) <? t - 1) eqn:F;
        [apply Z.ltb_lt in F|apply Z.ltb_ge in F].
      * replace (Z.of_nat (S (List.length inputs)) <? t) with true
          by (symmetry; apply Z.ltb_lt; lia).
        f_equal. lia.
      * replace (Z.of_nat (S (List.length inputs)) <? t) with false
          by (symmetry; apply Z.ltb_ge; lia).
        reflexivity.
Qed.

(** X20.  The level intro runs for the ticks of its timer and then the
    stage is played: until then the ticks only count the timer down, and
    the player, the enemies and the camera stay as [start_level] made them,
    whatever the keys held; the keys pressed meanwhile are not kept for
    later. *)
Theorem X20_level_intro (inputs : list (Keys * (nat -> Dice))) (g : Game)
    (Hintro : game_state g = level_intro)
    (Htimer : 0 < level_intro_timer g) :
  let n := Z.of_nat (List.length inputs) in
  let g' := game_ticks colliderect start_level inputs g in
  (n < level_intro_timer g ->
   g' = set_level_intro_timer (level_intro_timer g - n) g) /\
  (n = level_intro_timer g ->
   g' = set_game_state playing (set_level_intro_timer 0 g)) /\
  (forall events running,
     forallb ignored_in_intro events = true ->
     handle_events start_level events (g, running) = (g, running)).
Proof.
  intros n g'. subst n g'.
  destruct g as [st w l t e b c]. cbn [game_state level_intro_timer] in *.
  subst st.
  split; [|split].
  - intros Hlt. rewrite intro_ticks by lia.
    apply Z.ltb_lt in Hlt. rewrite Hlt. reflexivity.
  - intros Heq. rewrite intro_ticks by lia.
    replace (Z.of_nat (List.length inputs) <? t) with false
      by (symmetry; apply Z.ltb_ge; lia).
    reflexivity.
  - intros events running Hev. unfold handle_events.
    induction events as [|ev events IH]; [reflexivity|].
    cbn [forallb] in Hev. apply andb_prop in Hev. destruct Hev as (H1 & H2).
    cbn [fold_left].
    replace (handle_event start_level
               (mkGame level_intro w l t e b c, running) ev)
      with (mkGame level_intro w l t e b c, running); [exact (IH H2)|].
    destruct ev as [|key|]; [discriminate H1| |reflexivity].
    destruct key; try discriminate H1; reflexivity.
Qed.

(** X21.  The camera moves a tenth of the way to its target, the player's
    place less the scroll threshold, kept between 0 and the level's width
    less the screen's; a camera between these bounds stays between them,
    and nothing but the camera changes. *)
Theorem X21_camera_follows (g : Game) (enc : Encounter)
    (Henc : encounter g = Some enc)
    (Hcam : (0 <= camera_x g <= inject_Z (LEVEL_WIDTH - SCREEN_WIDTH))%Q) :
  let target :=
    Qmax 0 (Qmin (x (p_ent (player enc)) - inject_Z SCROLL_THRESHOLD)
              (inject_Z (LEVEL_WIDTH - SCREEN_WIDTH))) in
  (0 <= camera_x (update_camera g)
     <= inject_Z (LEVEL_WIDTH - SCREEN_WIDTH))%Q /\
  (target - camera_x (update_camera g)
     == (9 # 10) * (target - camera_x g))%Q /\
  update_camera g = set_camera_x (camera_x (update_camera g)) g.
Proof.
  intros target. unfold update_camera. rewrite Henc. cbv zeta.
  fold target. cbn [camera_x set_camera_x].
  assert (Ht : (0 <= target <= inject_Z (LEVEL_WIDTH - SCREEN_WIDTH))%Q).
  { unfold target. split; [apply Q.le_max_l|].
    apply Q.max_lub; [|apply Q.le_min_r].
    change 0%Q with (inject_Z 0). rewrite <- Zle_Qle. discriminate. }
  clearbody target.
  set (bound := inject_Z (LEVEL_WIDTH - SCREEN_WIDTH)) in *. clearbody bound.
  set (cam := camera_x g) in *.
  split; [split; lra|]. split; [lra|].
  reflexivity.
Qed.

End GameStates.

Lemma X18_pause_and_resume_witness :
  handle_event same_level
    (handle_event same_level (brawl, true) (KEYDOWN K_p)) (KEYDOWN K_p)
  = (brawl, true).
Proof.
  destruct (X18_pause_and_resume pixel_colliderect same_level brawl _ true
              eq_refl eq_refl) as (Hpause & _ & _ & _ & Hresume).
  rewrite Hpause. exact Hresume.
Defined.

Lemma X20_level_intro_witness :
  game_state
    (game_ticks pixel_colliderect same_level
       [(idle_keys, calm_dice); (right_key, calm_dice)]
       (mkGame level_intro false 0 2 None None 0)) = playing.
Proof.
  destruct (X20_level_intro pixel_colliderect same_level
              [(idle_keys, calm_dice); (right_key, calm_dice)]
              (mkGame level_intro false 0 2 None None 0) eq_refl eq_refl)
    as (_ & Hend & _).
  rewrite Hend; reflexivity.
Defined.

Lemma X21_camera_follows_witness :
  (camera_x (update_camera brawl) <= 6800)%Q.
Proof.
  assert (Hcam : (0 <= camera_x brawl
                    <= inject_Z (LEVEL_WIDTH - SCREEN_WIDTH))%Q)
    by (split; discriminate).
  destruct (X21_camera_follows brawl _ eq_refl Hcam) as ((_ & H) & _).
  exact H.
Defined.

(** ** A whole tick of a played stage *)

Section WholeTick.

Variable colliderect : Rect -> Rect -> bool.
Variable start_level : Z -> Game -> Game.

Lemma Player_take_damage_rect (a d : Z) (p : Player) :
  Entity_get_rect (p_ent (Player_take_damage a d p)) =
  Entity_get_rect (p_ent p).
Proof.
  destruct p as [e j cc ct sc pc kc bc ad].
  unfold Player_take_damage, Entity_take_damage. cbn [p_ent].
  destruct (0 <? invincibility_frames e) eqn:E; [reflexivity|].
  cbn [p_ent with_ent set_combo_timer set_combo_count combo_count combo_timer
       jumps_remaining score punch_cooldown kick_cooldown batarang_cooldown
       attack_duration].
  rewrite E. cbv zeta.
  cbn [health set_velocity_x set_invincibility_frames set_health].
  destruct (health e - a <=? 0); reflexivity.
Qed.

Lemma projectiles_loop_rect (copy : list Projectile) :
  forall (pl : Player) (es : list Enemy) (kept : list Projectile),
    Entity_get_rect
      (p_ent (fst (fst (projectiles_loop colliderect pl es kept copy))))
    = Entity_get_rect (p_ent pl).
Proof.
  induction copy as [|q copy IH]; intros pl es kept; [reflexivity|].
  cbn [projectiles_loop]. cbv zeta. rewrite IH.
  unfold resolve_projectile. cbv zeta.
  destruct (negb (proj_active (Projectile_update 15 q))); [reflexivity|].
  destruct (owner_is_player (Projectile_update 15 q)).
  - destruct (fst (projectile_hits_enemies _ _ _ _ _)); reflexivity.
  - destruct (colliderect _ _); [|reflexivity].
    cbn [fst]. apply Player_take_damage_rect.
Qed.

Lemma melee_loop_rect (r : Rect) (es : list Enemy) :
  forall pl : Player,
    p_ent (fst (melee_loop colliderect r pl es)) = p_ent pl.
Proof.
  induction es as [|e es IH]; intros pl; [reflexivity|].
  cbn [melee_loop].
  destruct (alive e && colliderect r (Entity_get_rect (e_ent e)));
    cbv zeta; cbn [fst]; rewrite IH; reflexivity.
Qed.

Lemma enemy_strikes_rect (es : list Enemy) :
  forall pl : Player,
    Entity_get_rect (p_ent (fold_left (enemy_strikes colliderect) es pl))
    = Entity_get_rect (p_ent pl).
Proof.
  induction es as [|e es IH]; intros pl; [reflexivity|].
  cbn [fold_left]. rewrite IH, enemy_strikes_strikes.
  destruct (strikes colliderect pl e); [|reflexivity].
  apply Player_take_damage_rect.
Qed.

Lemma pickups_rect (ks : list HealthPickup) :
  forall acc : Player * list HealthPickup,
    Entity_get_rect
      (p_ent (fst (fold_left (resolve_pickup colliderect) ks acc)))
    = Entity_get_rect (p_ent (fst acc)).
Proof.
  induction ks as [|k ks IH]; intros acc; [reflexivity|].
  cbn [fold_left]. rewrite IH. unfold resolve_pickup. cbv zeta.
  destruct (negb (hp_active (HealthPickup_update k))); [reflexivity|].
  destruct (colliderect _ _); reflexivity.
Qed.

Lemma encounter_on_encounter (f : Encounter -> Encounter) (g : Game) :
  encounter (on_encounter f g) = option_map f (encounter g).
Proof.
  unfold on_encounter. destruct (encounter g) eqn:E; [reflexivity|].
  rewrite E. reflexivity.
Qed.

Lemma handle_input_size (keys : Keys) (p : Player) :
  width (p_ent (handle_input keys p)) = width (p_ent p) /\
  height (p_ent (handle_input keys p)) = height (p_ent p).
Proof.
  destruct (EntityState_eqb (state (p_ent p)) DEAD) eqn:D.
  - rewrite handle_input_dead; [split; reflexivity|].
    destruct (state (p_ent p)); try discriminate; reflexivity.
  - assert (Halive : state (p_ent p) <> DEAD)
      by (intros E; rewrite E in D; discriminate).
    rewrite (handle_input_closed keys p Halive). cbn [p_ent].
    destruct (stance_steer keys (p_ent p) Halive)
      as (_ & _ & _ & _ & _ & _ & _ & _ & Ew & Eh).
    destruct (attack_duration p =? 1);
      cbn [width height set_current_attack]; split; assumption.
Qed.

(** Damage resolution and pickups leave the player where the player is. *)
Lemma resolve_rect (enc : Encounter) :
  Entity_get_rect
    (p_ent (player
       (update_pickups colliderect
          (enemy_melee colliderect
             (player_melee colliderect
                (update_projectiles colliderect enc))))))
  = Entity_get_rect (p_ent (player enc)).
Proof.
  unfold update_pickups. cbv zeta. cbn [player].
  rewrite pickups_rect. cbn [fst].
  unfold enemy_melee. cbn [player]. rewrite enemy_strikes_rect.
  set (e1 := update_projectiles colliderect enc).
  assert (H1 : Entity_get_rect (p_ent (player e1))
               = Entity_get_rect (p_ent (player enc))).
  { unfold e1, update_projectiles. cbv zeta. cbn [player].
    apply projectiles_loop_rect. }
  clearbody e1. rewrite <- H1.
  unfold player_melee. cbv zeta.
  destruct (Player_get_attack_rect (player e1)); [|reflexivity].
  rewrite Z.eqb_refl. cbn [player]. rewrite melee_loop_rect. reflexivity.
Qed.

Lemma Game_update_playing (keys : Keys) (dice : nat -> Dice) (g : Game)
    (enc : Encounter) :
  game_state g = playing -> encounter g = Some enc ->
  Game_update colliderect start_level keys dice g =
  check_player_death
    (on_encounter (update_pickups colliderect)
       (on_encounter (enemy_melee colliderect)
          (on_encounter (player_melee colliderect)
             (on_encounter (update_projectiles colliderect)
                (update_enemies start_level dice
                   (update_camera
                      (on_encounter (on_player (player_tick keys)) g))))))).
Proof.
  intros H1 H2. unfold Game_update. rewrite H1, H2. reflexivity.
Qed.

Lemma player_tick_eq (keys : Keys) (p : Player) :
  player_tick keys p = Player_update (handle_input keys p).
Proof. reflexivity. Qed.

(** The phases of a tick that follow the player's own, for any update
    [tick] of the player. *)
Lemma after_player_rect (tick : Player -> Player) (dice : nat -> Dice)
    (g : Game) (enc : Encounter) :
  encounter g = Some enc ->
  Forall (fun e => alive e = false -> is_boss_of g e = false) (enemies enc) ->
  exists rest,
    encounter
      (check_player_death
         (on_encounter (update_pickups colliderect)
            (on_encounter (enemy_melee colliderect)
               (on_encounter (player_melee colliderect)
                  (on_encounter (update_projectiles colliderect)
                     (update_enemies start_level dice
                        (update_camera
                           (on_encounter (on_player tick) g))))))))
    = Some rest /\
    Entity_get_rect (p_ent (player rest))
    = Entity_get_rect (p_ent (tick (player enc))).
Proof.
  intros Henc Hboss.
  set (g1 := on_encounter (on_player tick) g).
  assert (E1 : encounter g1 = Some (on_player tick enc)).
  { unfold g1. rewrite encounter_on_encounter, Henc. reflexivity. }
  assert (B1 : boss g1 = boss g).
  { unfold g1, on_encounter. rewrite Henc. reflexivity. }
  clearbody g1.
  set (g2 := update_camera g1).
  assert (E2 : encounter g2 = Some (on_player tick enc)).
  { unfold g2, update_camera. rewrite E1. exact E1. }
  assert (B2 : boss g2 = boss g).
  { unfold g2, update_camera. rewrite E1. exact B1. }
  clearbody g2. clear E1 B1 g1.
  destruct (enemies_loop_prefix start_level (enemies enc) dice 0%nat [] []
              g2 (on_player tick enc) E2) as
    (g3 & enc3 & kept & Hloop & E3 & _ & _ & _ & _ & _ & _ & _ & _ & Hpl & _).
  { cbn [enemies on_player]. rewrite app_nil_r. reflexivity. }
  { eapply Forall_impl; [|exact Hboss].
    intros e He Hd. unfold is_boss_of in *. rewrite B2. exact (He Hd). }
  assert (U3 : encounter (update_enemies start_level dice g2) = Some enc3).
  { unfold update_enemies. rewrite E2. cbn [enemies on_player].
    rewrite app_nil_r in Hloop. rewrite Hloop. exact E3. }
  set (g4 := update_enemies start_level dice g2) in *. clearbody g4.
  clear Hloop E3 g3 E2 B2 g2.
  assert (P3 : p_ent (player enc3) = p_ent (tick (player enc))).
  { assert (H := f_equal p_ent Hpl). exact H. }
  exists (update_pickups colliderect
            (enemy_melee colliderect
               (player_melee colliderect
                  (update_projectiles colliderect enc3)))).
  split.
  - assert (Hc : forall g0, encounter (check_player_death g0) = encounter g0).
    { intros g0. unfold check_player_death.
      destruct (encounter g0) as [enc0|] eqn:E0; [|exact E0].
      destruct (is_dead (state (p_ent (player enc0)))); exact E0. }
    rewrite Hc, !encounter_on_encounter, U3. reflexivity.
  - rewrite resolve_rect, P3. reflexivity.
Qed.

Lemma rect_fields (a b : Entity) :
  Entity_get_rect a = Entity_get_rect b ->
  x a = x b /\ y a = y b /\ width a = width b /\ height a = height b.
Proof.
  unfold Entity_get_rect. intros H. injection H as Hx Hy Hw Hh.
  repeat split; assumption.
Qed.

(** X22.  A tick of a played stage in which no dead enemy is the boss
    leaves the player inside the level and on or above the ground, with the
    size they had: the player's own update puts them there, and neither the
    enemies, nor the projectiles, the blows and the pickups move them. *)
Theorem X22_tick_keeps_player_in_level (keys : Keys) (dice : nat -> Dice)
    (g : Game) (enc : Encounter)
    (Hplaying : game_state g = playing)
    (Henc : encounter g = Some enc)
    (Hboss : Forall (fun e => alive e = false -> is_boss_of g e = false)
               (enemies enc))
    (Hfits : width (p_ent (player enc)) <= LEVEL_WIDTH) :
  exists enc',
    encounter (Game_update colliderect start_level keys dice g) = Some enc' /\
    width (p_ent (player enc')) = width (p_ent (player enc)) /\
    height (p_ent (player enc')) = height (p_ent (player enc)) /\
    (0 <= x (p_ent (player enc')))%Q /\
    (x (p_ent (player enc'))
       <= inject_Z (LEVEL_WIDTH - width (p_ent (player enc))))%Q /\
    (y (p_ent (player enc')) + inject_Z (height (p_ent (player enc)))
       <= inject_Z GROUND_LEVEL)%Q.
Proof.
  rewrite (Game_update_playing keys dice g enc Hplaying Henc).
  destruct (after_player_rect (player_tick keys) dice g enc Henc Hboss)
    as (rest & Efinal & Hrect).
  exists rest. split; [exact Efinal|]. clear Efinal.
  rewrite player_tick_eq in Hrect.
  destruct (rect_fields _ _ Hrect) as (Hx & Hy & Hw & Hh).
  rewrite Hx, Hy, Hw, Hh. clear Hx Hy Hw Hh Hrect.
  destruct (Player_update_bounds (handle_input keys (player enc)))
    as (Bx1 & Bx2 & By & _).
  destruct (Player_update_body (handle_input keys (player enc)))
    as (_ & _ & _ & Uw & Uh & _).
  destruct (handle_input_size keys (player enc)) as (Iw & Ih).
  cbv zeta in Bx1, Bx2, By. rewrite Iw in Bx1, Bx2. rewrite Ih in By.
  rewrite Uw, Uh, Iw, Ih.
  split; [reflexivity|]. split; [reflexivity|].
  split; [exact (Bx2 Hfits)|]. split; [exact Bx1|exact By].
Qed.

End WholeTick.

Lemma X22_tick_keeps_player_in_level_witness :
  exists enc',
    encounter (Game_update pixel_colliderect same_level right_key calm_dice
                 brawl) = Some enc' /\
    (0 <= x (p_ent (player enc')))%Q.
Proof.
  assert (Hboss : Forall (fun e => alive e = false ->
                                   is_boss_of brawl e = false)
                    [new_Enemy 0 160 460 joker]).
  { constructor; [intros H; discriminate H|constructor]. }
  assert (Hfits : width (p_ent (snd (punch player0))) <= LEVEL_WIDTH)
    by discriminate.
  destruct (X22_tick_keeps_player_in_level pixel_colliderect same_level
              right_key calm_dice brawl _ eq_refl eq_refl Hboss Hfits)
    as (enc' & He & _ & _ & Hx & _).
  exists enc'. split; assumption.
Defined.

End Arkham2DExtra.

(** * Further properties of the second variant *)

Module ShadowsExtra.

Import Shadows.

(** ** Sprite sheets *)

Lemma detect_grid_cases (width height : Z) :
  0 <= width -> 0 < height ->
  detect_grid width height =
  if 7 * height <? 5 * width then Some (3, 2) else Some (2, 2).
Proof.
  intros Hw Hh. unfold detect_grid.
  replace (height =? 0) with false by (symmetry; apply Z.eqb_neq; lia).
  cbv zeta.
  assert (Hq : (0 < inject_Z height)%Q).
  { change 0%Q with (inject_Z 0). rewrite <- Zlt_Qlt. exact Hh. }
  destruct (Qltb (14 # 10) (inject_Z width / inject_Z height)) eqn:A.
  - apply Qltb_lt in A.
    apply (Qmult_lt_r _ _ (inject_Z height) Hq) in A.
    unfold Qdiv in A. rewrite <- Qmult_assoc in A.
    rewrite (Qmult_comm (/ inject_Z height)), Qmult_inv_r in A
      by (intros E; rewrite E in Hq; discriminate).
    rewrite Qmult_1_r in A.
    unfold Qlt, Qmult, inject_Z in A. cbn [Qnum Qden] in A.
    assert (H7 : 7 * height < 5 * width) by lia.
    replace (7 * height <? 5 * width) with true
      by (symmetry; apply Z.ltb_lt; exact H7).
    replace (height <? width) with true
      by (symmetry; apply Z.ltb_lt; lia).
    reflexivity.
  - apply Qltb_ge in A.
    apply (Qmult_le_r _ _ (inject_Z height) Hq) in A.
    unfold Qdiv in A. rewrite <- Qmult_assoc in A.
    rewrite (Qmult_comm (/ inject_Z height)), Qmult_inv_r in A
      by (intros E; rewrite E in Hq; discriminate).
    rewrite Qmult_1_r in A.
    unfold Qle, Qmult, inject_Z in A. cbn [Qnum Qden] in A.
    replace (7 * height <? 5 * width) with false
      by (symmetry; apply Z.ltb_ge; lia).
    reflexivity.
Qed.

(** X26.  With the grid detected from the image, of positive height, the
    sheet is read as three columns by two rows when it is wider than 1.4
    times its height and as two by two otherwise, never as two columns by
    three rows.  The split then succeeds, every frame is a part of the
    image, and the five frames the game needs are there: in the two by two
    layout, which has no idle frame, the idle frame is the kick frame, and
    there is no special frame. *)
Theorem X26_sprite_sheet_frames (width height : Z)
    (Hwidth : 0 <= width) (Hheight : 0 < height) :
  detect_grid width height <> Some (2, 3) /\
  exists frames,
    split_sprite_sheet width height None None = Some frames /\
    Forall (fun entry => inside width height (snd entry)) frames /\
    (forall key, In key needed -> frame_of key frames <> None) /\
    (7 * height < 5 * width ->
     frame_of "special"%string frames
       = Some (mkRegion (2 * (width / 3)) 0 (width / 3) (height / 2)) /\
     frame_of "idle"%string frames
       = Some (mkRegion (2 * (width / 3)) (height / 2) (width / 3)
                 (height / 2))) /\
    (5 * width <= 7 * height ->
     frame_of "special"%string frames = None /\
     frame_of "idle"%string frames = frame_of "kick"%string frames /\
     frame_of "kick"%string frames
       = Some (mkRegion 0 0 (width / 2) (height / 2))).
Proof.
  assert (Hgrid := detect_grid_cases width height Hwidth Hheight).
  split.
  { rewrite Hgrid. destruct (7 * height <? 5 * width); discriminate. }
  unfold split_sprite_sheet. cbv zeta. rewrite Hgrid.
  assert (H2 : 0 <= height / 2 /\ 2 * (height / 2) <= height).
  { split; [apply Z.div_pos; lia|apply Z.mul_div_le; lia]. }
  assert (W2 : 0 <= width / 2 /\ 2 * (width / 2) <= width).
  { split; [apply Z.div_pos; lia|apply Z.mul_div_le; lia]. }
  assert (W3 : 0 <= width / 3 /\ 3 * (width / 3) <= width).
  { split; [apply Z.div_pos; lia|apply Z.mul_div_le; lia]. }
  destruct (7 * height <? 5 * width) eqn:E;
    [apply Z.ltb_lt in E|apply Z.ltb_ge in E];
    cbn [Z.eqb orb Pos.eqb andb]; unfold frame_map;
    cbn [Z.eqb orb Pos.eqb andb];
    set (h2 := height / 2) in *; set (w2 := width / 2) in *;
    set (w3 := width / 3) in *; clearbody h2 w2 w3.
  - replace ((w3 <? 0) || (h2 <? 0)) with false
      by (symmetry; apply orb_false_iff; split; apply Z.ltb_ge; lia).
    eexists. split; [reflexivity|].
    cbn [map fst snd fold_left needed ensure frame_of String.eqb Ascii.eqb
         Bool.eqb app].
    split.
    { repeat constructor; cbn [snd region_x region_y region_w region_h];
        lia. }
    split.
    { intros key Hin. cbn [In] in Hin.
      repeat (destruct Hin as [Hin|Hin]; [subst key; discriminate|]).
      contradiction. }
    split; [intros _|intros; lia].
    split; f_equal; f_equal; lia.
  - replace ((w2 <? 0) || (h2 <? 0)) with false
      by (symmetry; apply orb_false_iff; split; apply Z.ltb_ge; lia).
    eexists. split; [reflexivity|].
    cbn [map fst snd fold_left needed ensure frame_of String.eqb Ascii.eqb
         Bool.eqb app].
    split.
    { repeat constructor; cbn [snd region_x region_y region_w region_h];
        lia. }
    split.
    { intros key Hin. cbn [In] in Hin.
      repeat (destruct Hin as [Hin|Hin]; [subst key; discriminate|]).
      contradiction. }
    split; [intros; lia|intros _].
    repeat split.
Qed.

Lemma X26_sprite_sheet_frames_witness :
  exists frames,
    split_sprite_sheet 512 512 None None = Some frames /\
    frame_of "idle"%string frames = Some (mkRegion 0 0 256 256).
Proof.
  destruct (X26_sprite_sheet_frames 512 512) as (_ & frames & Hs & _ & _ & _ & H22);
    [discriminate|reflexivity|].
  exists frames. split; [exact Hs|].
  destruct H22 as (_ & Hidle & Hkick); [discriminate|].
  rewrite Hidle. exact Hkick.
Defined.

(** ** Lives *)

Lemma respawn_lives (p : Player) :
  (0 < lives p ->
   fst (respawn p) = true /\ lives (snd (respawn p)) = lives p - 1 /\
   health (p_ent (snd (respawn p))) = max_health (p_ent p) /\
   max_health (p_ent (snd (respawn p))) = max_health (p_ent p) /\
   invincibility (p_ent (snd (respawn p))) = RESPAWN_INVINCIBILITY /\
   state (p_ent (snd (respawn p))) = IDLE /\
   score (snd (respawn p)) = score p /\
   last_safe_x (snd (respawn p)) = last_safe_x p /\
   last_safe_y (snd (respawn p)) = last_safe_y p /\
   x (p_ent (snd (respawn p))) = last_safe_x p /\
   y (p_ent (snd (respawn p))) = last_safe_y p) /\
  (lives p <= 0 -> respawn p = (false, p)).
Proof.
  destruct p as [e l j c ct sc pc kc bc ad cx cy sx sy].
  unfold respawn. cbn [lives].
  destruct (l <=? 0) eqn:E; [apply Z.leb_le in E|apply Z.leb_gt in E].
  - split; [intros H; lia|reflexivity].
  - split; [|intros H; lia]. intros _. cbv zeta. cbn [fst snd].
    repeat split.
Qed.

(** X23.  A player with [n] lives left comes back [n] times: each of the
    first [n] calls of [respawn] succeeds, takes one life and gives back
    full health with the respawn invincibility, at the last safe place and
    with the score kept; the call after them fails and changes nothing.
    With the three lives of a new player, the fourth death is the last. *)
Theorem X23_lives_are_respawns (k : nat) (p : Player)
    (Hlives : 0 <= lives p) :
  (Z.of_nat k <= lives p ->
   lives (respawns k p) = lives p - Z.of_nat k /\
   score (respawns k p) = score p /\
   (0 < Z.of_nat k ->
    health (p_ent (respawns k p)) = max_health (p_ent p) /\
    invincibility (p_ent (respawns k p)) = RESPAWN_INVINCIBILITY /\
    state (p_ent (respawns k p)) = IDLE /\
    x (p_ent (respawns k p)) = last_safe_x p /\
    y (p_ent (respawns k p)) = last_safe_y p)) /\
  (Z.of_nat k < lives p -> fst (respawn (respawns k p)) = true) /\
  (Z.of_nat k = lives p ->
   respawn (respawns k p) = (false, respawns k p)) /\
  (lives p = MAX_LIVES ->
   fst (respawn (respawns 2 p)) = true /\
   fst (respawn (respawns 3 p)) = false).
Proof.
  assert (G : forall n : nat, Z.of_nat n <= lives p ->
    lives (respawns n p) = lives p - Z.of_nat n /\
    score (respawns n p) = score p /\
    max_health (p_ent (respawns n p)) = max_health (p_ent p) /\
    last_safe_x (respawns n p) = last_safe_x p /\
    last_safe_y (respawns n p) = last_safe_y p /\
    (0 < Z.of_nat n ->
     health (p_ent (respawns n p)) = max_health (p_ent p) /\
     invincibility (p_ent (respawns n p)) = RESPAWN_INVINCIBILITY /\
     state (p_ent (respawns n p)) = IDLE /\
     x (p_ent (respawns n p)) = last_safe_x p /\
     y (p_ent (respawns n p)) = last_safe_y p)).
  { induction n as [|n IH]; intros Hn.
    - cbn [respawns Z.of_nat]. repeat split; try lia.
    - destruct IH as (Il & Is & Im & Ix & Iy & _); [lia|].
      cbn [respawns].
      destruct (respawn_lives (respawns n p)) as (Hok & _).
      destruct Hok as (_ & Rl & Rh & Rm & Ri & Rs & Rsc & Rx & Ry & Rpx & Rpy);
        [lia|].
      rewrite Rl, Rh, Rm, Ri, Rs, Rsc, Rx, Ry, Rpx, Rpy, Il, Is, Im, Ix, Iy.
      repeat split; lia. }
  split; [|split; [|split]].
  - intros Hk. destruct (G k Hk) as (Gl & Gs & _ & _ & _ & Gr).
    split; [exact Gl|]. split; [exact Gs|exact Gr].
  - intros Hk. destruct (G k) as (Gl & _); [lia|].
    destruct (respawn_lives (respawns k p)) as (Hok & _).
    apply Hok. lia.
  - intros Hk. destruct (G k) as (Gl & _); [lia|].
    destruct (respawn_lives (respawns k p)) as (_ & Hno).
    apply Hno. lia.
  - intros Hmax. unfold MAX_LIVES in Hmax. split.
    + destruct (G 2%nat) as (Gl & _); [lia|].
      destruct (respawn_lives (respawns 2 p)) as (Hok & _).
      apply Hok. lia.
    + destruct (G 3%nat) as (Gl & _); [lia|].
      destruct (respawn_lives (respawns 3 p)) as (_ & Hno).
      rewrite Hno by lia. reflexivity.
Qed.

Lemma X23_lives_are_respawns_witness :
  fst (respawn (respawns 2 (new_Player 100 460))) = true /\
  fst (respawn (respawns 3 (new_Player 100 460))) = false.
Proof.
  assert (Hlives : 0 <= lives (new_Player 100 460)) by discriminate.
  destruct (X23_lives_are_respawns 0 (new_Player 100 460) Hlives)
    as (_ & _ & _ & H).
  apply H. reflexivity.
Defined.

(** ** [Player.update], block by block *)

Lemma Shadows_update_blocks (p : Player) :
  Player_update p =
  animate (checkpoint
    (set_jumps_left
       (if lands (fall (p_ent p)) then MAX_JUMPS else jumps_left p)
       (with_ent
          (fun _ => count_down (keep_in_level
                      (airborne (land (fall (p_ent p)))))) p))).
Proof.
  cbv delta [Player_update lands fall land airborne count_down checkpoint
               animate] beta.
  reflexivity.
Qed.

Lemma same_frame_trans (a b c : Entity) :
  same_frame a b -> same_frame b c -> same_frame a c.
Proof.
  unfold same_frame. intros (H1 & H2 & H3 & H4 & H5) (G1 & G2 & G3 & G4 & G5).
  repeat split; congruence.
Qed.

Lemma fall_frame (b : Entity) : same_frame (fall b) b.
Proof.
  unfold same_frame, fall, apply_gravity. cbv zeta.
  destruct (Qltb 20 _); repeat split; reflexivity.
Qed.

Lemma land_frame (b : Entity) : same_frame (land b) b.
Proof.
  unfold same_frame, land. destruct (lands b); [|repeat split; reflexivity].
  cbv zeta. cbn [state set_vy set_y].
  destruct (state b); repeat split; reflexivity.
Qed.

Lemma airborne_frame (b : Entity) : same_frame (airborne b) b.
Proof.
  unfold same_frame, airborne.
  destruct (Qltb (vy b) 0); [repeat split; reflexivity|].
  destruct (Qltb 2 (vy b) && negb (is_on_ground b));
    repeat split; reflexivity.
Qed.

Lemma keep_in_level_frame (b : Entity) : same_frame (keep_in_level b) b.
Proof. unfold same_frame, keep_in_level. repeat split; reflexivity. Qed.

Lemma count_down_frame (b : Entity) : same_frame (count_down b) b.
Proof.
  unfold same_frame, count_down.
  destruct (0 <? invincibility b); repeat split; reflexivity.
Qed.

Lemma land_ground (b : Entity) :
  (y (land b) + inject_Z (height b) <= inject_Z GROUND_LEVEL)%Q /\
  (state b <> DEAD -> state (land b) <> DEAD).
Proof.
  unfold land. destruct (lands b) eqn:L.
  - cbv zeta. cbn [state set_vy set_y].
    destruct (state b) eqn:S; cbn [y state set_state set_vy set_y];
      rewrite ?S;
      (split; [rewrite <- inject_Z_plus, <- Zle_Qle; lia|]);
      intros H; congruence.
  - unfold lands in L. apply Qltb_ge in L. split; [exact L|tauto].
Qed.

Lemma airborne_place (b : Entity) :
  x (airborne b) = x b /\ y (airborne b) = y b /\
  (state b <> DEAD -> state (airborne b) <> DEAD).
Proof.
  unfold airborne.
  destruct (Qltb (vy b) 0); [repeat split; discriminate|].
  destruct (Qltb 2 (vy b) && negb (is_on_ground b));
    repeat split; try discriminate; tauto.
Qed.

Lemma keep_in_level_place (b : Entity) :
  y (keep_in_level b) = y b /\ state (keep_in_level b) = state b /\
  (0 <= x (keep_in_level b))%Q /\
  (width b <= LEVEL_WIDTH ->
   (x (keep_in_level b) <= inject_Z (LEVEL_WIDTH - width b))%Q).
Proof.
  unfold keep_in_level. cbn [x y state set_x].
  split; [reflexivity|]. split; [reflexivity|].
  split; [apply Q.le_max_l|].
  intros H. apply Q.max_lub; [|apply Q.le_min_r].
  change 0%Q with (inject_Z 0). rewrite <- Zle_Qle. lia.
Qed.

Lemma count_down_spot (b : Entity) :
  x (count_down b) = x b /\ y (count_down b) = y b /\
  state (count_down b) = state b /\
  invincibility (count_down b) =
    (if 0 <? invincibility b then invincibility b - 1 else invincibility b).
Proof.
  unfold count_down.
  destruct (0 <? invincibility b); repeat split; reflexivity.
Qed.

(** The entity that [Player.update] computes before the checkpoint. *)
Lemma moved_spec (e : Entity) :
  let m := count_down (keep_in_level (airborne (land (fall e)))) in
  same_frame m e /\
  (0 <= x m)%Q /\
  (width e <= LEVEL_WIDTH -> (x m <= inject_Z (LEVEL_WIDTH - width e))%Q) /\
  (y m + inject_Z (height e) <= inject_Z GROUND_LEVEL)%Q /\
  (state e <> DEAD -> state m <> DEAD).
Proof.
  intros m. subst m.
  assert (F : same_frame (keep_in_level (airborne (land (fall e)))) e).
  { eapply same_frame_trans; [apply keep_in_level_frame|].
    eapply same_frame_trans; [apply airborne_frame|].
    eapply same_frame_trans; [apply land_frame|apply fall_frame]. }
  destruct (count_down_spot (keep_in_level (airborne (land (fall e)))))
    as (Cx & Cy & Cs & _).
  destruct (keep_in_level_place (airborne (land (fall e))))
    as (Ky & Ks & Kx0 & Kx1).
  destruct (airborne_place (land (fall e))) as (_ & Ay & As).
  destruct (land_ground (fall e)) as (Ly & Ls).
  destruct (fall_frame e) as (Fw & Fh & _).
  destruct (land_frame (fall e)) as (Lw & _).
  destruct (airborne_frame (land (fall e))) as (Aw & _).
  assert (Fs : state (fall e) = state e).
  { unfold fall, apply_gravity. cbv zeta. reflexivity. }
  split.
  { eapply same_frame_trans; [apply count_down_frame|exact F]. }
  rewrite Cx, Cy, Cs, Ky, Ks, Ay.
  rewrite Aw, Lw, Fw in Kx1. rewrite Fh in Ly.
  split; [exact Kx0|]. split; [exact Kx1|]. split; [exact Ly|].
  intros H. apply As, Ls. rewrite Fs. exact H.
Qed.

Lemma animate_fields (p : Player) :
  x (p_ent (animate p)) = x (p_ent p) /\
  y (p_ent (animate p)) = y (p_ent p) /\
  width (p_ent (animate p)) = width (p_ent p) /\
  height (p_ent (animate p)) = height (p_ent p) /\
  state (p_ent (animate p)) = state (p_ent p) /\
  last_safe_x (animate p) = last_safe_x p /\
  last_safe_y (animate p) = last_safe_y p /\
  lives (animate p) = lives p /\ score (animate p) = score p.
Proof.
  destruct p as [e l j c ct sc pc kc bc ad cx cy sx sy].
  unfold animate. cbv zeta. cbn [p_ent with_ent].
  destruct (8 <=? anim_timer e + 1); repeat split; reflexivity.
Qed.

Lemma checkpoint_fields (p : Player) :
  p_ent (checkpoint p) = p_ent p /\
  lives (checkpoint p) = lives p /\ score (checkpoint p) = score p /\
  (last_safe_x (checkpoint p) = last_safe_x p /\
   last_safe_y (checkpoint p) = last_safe_y p \/
   anim_timer (p_ent p) = 0 /\
   is_on_ground (p_ent p) = true /\ state (p_ent p) <> DEAD /\
   last_safe_x (checkpoint p) = x (p_ent p) /\
   last_safe_y (checkpoint p) = y (p_ent p)).
Proof.
  destruct p as [e l j c ct sc pc kc bc ad cx cy sx sy].
  unfold checkpoint, update_checkpoint. cbn [p_ent].
  destruct (anim_timer e =? 0) eqn:T;
    [apply Z.eqb_eq in T|repeat split; left; split; reflexivity].
  destruct (is_on_ground e) eqn:G; cbn [andb];
    [|repeat split; left; split; reflexivity].
  destruct (state e) eqn:S; cbn [is_dead negb];
    try (repeat split; try reflexivity; right; rewrite ?S;
         repeat split; try assumption; discriminate).
  repeat split; left; split; reflexivity.
Qed.

Lemma checkpoint_step (p q : Player) (m : Entity) (jumps : Z) :
  q = animate (checkpoint (set_jumps_left jumps (with_ent (fun _ => m) p))) ->
  same_frame m (p_ent p) ->
  (0 <= x m)%Q ->
  (width (p_ent p) <= LEVEL_WIDTH ->
   (x m <= inject_Z (LEVEL_WIDTH - width (p_ent p)))%Q) ->
  (y m + inject_Z (height (p_ent p)) <= inject_Z GROUND_LEVEL)%Q ->
  (0 <= x (p_ent q))%Q /\
  (width (p_ent p) <= LEVEL_WIDTH ->
   (x (p_ent q) <= inject_Z (LEVEL_WIDTH - width (p_ent p)))%Q) /\
  (y (p_ent q) + inject_Z (height (p_ent p)) <= inject_Z GROUND_LEVEL)%Q /\
  (last_safe_x q = last_safe_x p /\ last_safe_y q = last_safe_y p \/
   anim_timer (p_ent p) = 0 /\ state (p_ent q) <> DEAD /\
   last_safe_x q = x (p_ent q) /\ last_safe_y q = y (p_ent q) /\
   (y (p_ent q) + inject_Z (height (p_ent p)) == inject_Z GROUND_LEVEL)%Q) /\
  (safe_on_ground p ->
   safe_on_ground q /\
   (0 < lives q ->
    (y (p_ent (snd (respawn q))) + inject_Z (height (p_ent (snd (respawn q))))
       == inject_Z GROUND_LEVEL)%Q /\
    vy (p_ent (snd (respawn q))) = 0%Q /\
    state (p_ent (snd (respawn q))) = IDLE)).
Proof.
  intros Hq Mf Mx0 Mx1 My.
  set (p1 := set_jumps_left jumps (with_ent (fun _ => m) p)) in *.
  assert (P1 : p_ent p1 = m /\ last_safe_x p1 = last_safe_x p /\
               last_safe_y p1 = last_safe_y p /\ lives p1 = lives p).
  { unfold p1. destruct p; repeat split; reflexivity. }
  clearbody p1. destruct P1 as (P1e & P1x & P1y & P1l).
  destruct (checkpoint_fields p1) as (Ce & Cl & _ & Cc).
  destruct (animate_fields (checkpoint p1))
    as (Ax & Ay & Aw & Ah & As & Asx & Asy & Al & _).
  rewrite <- Hq in Ax, Ay, Aw, Ah, As, Asx, Asy, Al.
  rewrite Ce, P1e in Ax, Ay, Aw, Ah, As.
  rewrite P1e in Cc. rewrite P1x, P1y in Cc.
  destruct Mf as (Mw & Mh & Mt & _).
  assert (Hcheck :
    last_safe_x q = last_safe_x p /\ last_safe_y q = last_safe_y p \/
    anim_timer (p_ent p) = 0 /\ state (p_ent q) <> DEAD /\
    last_safe_x q = x (p_ent q) /\ last_safe_y q = y (p_ent q) /\
    (y (p_ent q) + inject_Z (height (p_ent p)) == inject_Z GROUND_LEVEL)%Q).
  { rewrite Asx, Asy, Ax, Ay, As.
    destruct Cc as [(C1 & C2)|(Ct & Cg & Cs & C1 & C2)];
      [left; split; assumption|right].
    split; [rewrite <- Mt; exact Ct|]. split; [exact Cs|].
    split; [exact C1|]. split; [exact C2|].
    unfold is_on_ground in Cg. apply Qle_bool_iff in Cg. rewrite Mh in Cg.
    apply Qle_antisym; assumption. }
  split; [rewrite Ax; exact Mx0|].
  split; [rewrite Ax; exact Mx1|].
  split; [rewrite Ay; exact My|].
  split; [exact Hcheck|].
  intros Hsafe.
  assert (Hsafe' : safe_on_ground q).
  { unfold safe_on_ground in *. rewrite Ah, Mh.
    destruct Hcheck as [(_ & C2)|(_ & _ & _ & C2 & Cg)].
    - rewrite C2. exact Hsafe.
    - rewrite C2. exact Cg. }
  split; [exact Hsafe'|]. intros Hlives.
  destruct (respawn_lives q) as (Hok & _).
  destruct (Hok Hlives) as (_ & _ & _ & _ & _ & Rs & _ & _ & _ & _ & Ry).
  unfold safe_on_ground in Hsafe'.
  assert (Rh : height (p_ent (snd (respawn q))) = height (p_ent q) /\
               vy (p_ent (snd (respawn q))) = 0%Q).
  { destruct q as [e l j c ct sc pc kc bc ad cx cy sx sy].
    unfold respawn. cbn [lives] in *.
    replace (l <=? 0) with false by (symmetry; apply Z.leb_gt; lia).
    split; reflexivity. }
  destruct Rh as (Rh & Rv).
  rewrite Ry, Rh. split; [exact Hsafe'|]. split; [exact Rv|exact Rs].
Qed.

(** X24.  [Player.update] leaves the player inside the level and on or
    above the ground.  It takes a checkpoint only on a tick where the
    animation timer is 0, and only of a living player who is on the ground:
    the checkpoint is then the player's place, exactly on the ground.  So a
    checkpoint that is on the ground stays on the ground over the updates,
    and the respawn that follows puts the player on the ground, at rest. *)
Theorem X24_checkpoint_on_ground (p : Player) :
  let q := Player_update p in
  (0 <= x (p_ent q))%Q /\
  (width (p_ent p) <= LEVEL_WIDTH ->
   (x (p_ent q) <= inject_Z (LEVEL_WIDTH - width (p_ent p)))%Q) /\
  (y (p_ent q) + inject_Z (height (p_ent p)) <= inject_Z GROUND_LEVEL)%Q /\
  (last_safe_x q = last_safe_x p /\ last_safe_y q = last_safe_y p \/
   anim_timer (p_ent p) = 0 /\ state (p_ent q) <> DEAD /\
   last_safe_x q = x (p_ent q) /\ last_safe_y q = y (p_ent q) /\
   (y (p_ent q) + inject_Z (height (p_ent p)) == inject_Z GROUND_LEVEL)%Q) /\
  (safe_on_ground p ->
   safe_on_ground q /\
   (0 < lives q ->
    (y (p_ent (snd (respawn q))) + inject_Z (height (p_ent (snd (respawn q))))
       == inject_Z GROUND_LEVEL)%Q /\
    vy (p_ent (snd (respawn q))) = 0%Q /\
    state (p_ent (snd (respawn q))) = IDLE)).
Proof.
  intros q. subst q.
  destruct (moved_spec (p_ent p)) as (Mf & Mx0 & Mx1 & My & _).
  exact (checkpoint_step p (Player_update p) _ _ (Shadows_update_blocks p)
           Mf Mx0 Mx1 My).
Qed.

(** ** [Villain.take_damage] *)

(** X25.  A hit on a villain who is not invincible costs the amount, or a
    third of it, rounded down, when the villain is in the state BLOCKING and
    the entry of its type in the configuration store allows blocking; the
    health stops at 0, where the villain is dead, and the hit opens 30
    ticks of invincibility during which further hits change nothing.  The
    store is only read: which villains can block is what the shared entry
    says at the time of the hit. *)
Theorem X25_villain_blocking (configs : Configs) (a d a2 d2 : Z)
    (v : Villain)
    (Hvul : invincibility (v_ent v) <= 0) :
  let taken :=
    if is_blocking (state (v_ent v)) && can_block (configs (villain_type v))
    then a / 3 else a in
  let v' := Villain_take_damage configs a d v in
  health (v_ent v') = Z.max 0 (health (v_ent v) - taken) /\
  (health (v_ent v) <= taken -> villain_alive v' = false) /\
  (taken < health (v_ent v) -> state (v_ent v') = state (v_ent v)) /\
  invincibility (v_ent v') = 30 /\
  villain_type v' = villain_type v /\ phase v' = phase v /\
  Villain_take_damage configs a2 d2 v' = v' /\
  (0 <= a -> 0 <= taken <= a).
Proof.
  intros taken v'. subst v'.
  destruct v as [e t sx st tm sc pc ph pt cf et va cw].
  cbn [v_ent villain_type] in *.
  unfold Villain_take_damage. cbn [v_ent villain_type]. fold taken.
  assert (Ht : 0 <= a -> 0 <= taken <= a).
  { intros Ha. unfold taken.
    destruct (is_blocking (state e) && can_block (configs t)); [|lia].
    split; [apply Z.div_pos; lia|apply Z.div_le_upper_bound; lia]. }
  clearbody taken.
  unfold with_v_ent, villain_alive.
  cbn [v_ent villain_type spawn_x ai_state ai_timer special_cooldown
       projectile_cooldown phase phase_triggered coin_flip_timer
       erratic_timer venom_active counter_window].
  assert (Hopen : health (Entity_take_damage taken d e)
                    = Z.max 0 (health e - taken) /\
                  (health e <= taken ->
                   is_dead (state (Entity_take_damage taken d e)) = true) /\
                  (taken < health e ->
                   state (Entity_take_damage taken d e) = state e) /\
                  invincibility (Entity_take_damage taken d e) = 30).
  { unfold Entity_take_damage.
    destruct (0 <? invincibility e) eqn:E; [apply Z.ltb_lt in E; lia|].
    cbv zeta. cbn [health set_vx set_invincibility set_health].
    destruct (health e - taken <=? 0) eqn:F;
      cbn [health invincibility state set_state set_health set_vx
           set_invincibility];
      [apply Z.leb_le in F|apply Z.leb_gt in F];
      repeat split; try reflexivity; intros; lia. }
  destruct Hopen as (Hh & Hd & Hs & Hi).
  split; [exact Hh|].
  split; [intros H; rewrite (Hd H); reflexivity|].
  split; [exact Hs|]. split; [exact Hi|].
  split; [reflexivity|]. split; [reflexivity|].
  split; [|exact Ht].
  set (e' := Entity_take_damage taken d e) in *. clearbody e'.
  f_equal. unfold Entity_take_damage.
  replace (0 <? invincibility e') with true
    by (symmetry; apply Z.ltb_lt; lia).
  reflexivity.
Qed.

Lemma X25_villain_blocking_witness :
  health (v_ent (Villain_take_damage VILLAIN_CONFIGS 35 1
                   (with_v_ent (set_state BLOCKING)
                      (spawn VILLAIN_CONFIGS BANE)))) = 989.
Proof.
  assert (Hvul : invincibility
                   (v_ent (with_v_ent (set_state BLOCKING)
                             (spawn VILLAIN_CONFIGS BANE))) <= 0)
    by discriminate.
  destruct (X25_villain_blocking VILLAIN_CONFIGS 35 1 0 0 _ Hvul)
    as (Hh & _).
  rewrite Hh. reflexivity.
Defined.

End ShadowsExtra.
